(** * interview-helper: transcript-to-question pipeline and answer streaming

    A shallow embedding of the algorithmic core of the repository:

    - [VoiceUI.tsx]: [levenshteinDistance], [calculateSimilarity],
      [areSimilarQuestions], [extractQuestions], [mightBeConversationalQuery],
      [analyzeQuestion], [clearQuestions], [selectQuestion];
    - [TechnicalQuestionDetector.ts]: the keyword tables, the question
      patterns, [detectTechnicalQuestion], [createTechnicalQuestion];
    - [services/LLMService.ts], [services/OpenAIService.ts]: the option
      defaults, [getAnswer], [standardResponse], [streamResponse].

    Conventions of the embedding.

    - A JavaScript string is a [string] of 8-bit characters; the embedding
      covers ASCII text: [toLowerCase] folds A-Z only and [trim] strips the
      ASCII white space and line terminators. Characters outside ASCII are
      carried as the bytes of their UTF-8 encoding.
    - A JavaScript number that the code computes with as a real (confidence,
      similarity) is a binary64 [float], with the kernel's IEEE 754
      operations; lengths, indices and edit distances are [nat] or [Z].
    - An operation that throws returns in a sum type, the message of the
      error on the left; state is passed explicitly; the [onStreamUpdate]
      callback is the log of its arguments.
    - [Date.now()] is an input of the operation that reads it, and so is
      what [fetch] settles with. *)

From Stdlib Require Import Bool Arith Lia List ZArith.
From Stdlib Require Import Ascii String DecimalString DecimalPos DecimalZ.
From Stdlib Require Import PrimFloat.
Import ListNotations.

Set Warnings "-inexact-float,-register-all,-abstract-large-number".

Local Open Scope string_scope.
Local Open Scope list_scope.

(** ** JavaScript string primitives *)

Module JsString.

Definition chars (s : string) : list ascii := list_ascii_of_string s.

Definition lower_char (c : ascii) : ascii :=
  let n := nat_of_ascii c in
  if ((65 <=? n) && (n <=? 90))%nat then ascii_of_nat (n + 32) else c.

(** [String.prototype.toLowerCase] *)
Fixpoint toLowerCase (s : string) : string :=
  match s with
  | EmptyString => EmptyString
  | String c r => String (lower_char c) (toLowerCase r)
  end.

(** White space and line terminators stripped by [trim]:
    TAB, LF, VT, FF, CR and SPACE. *)
Definition is_space (c : ascii) : bool :=
  let n := nat_of_ascii c in
  (((9 <=? n) && (n <=? 13)) || (n =? 32))%nat.

Fixpoint trimStart (s : string) : string :=
  match s with
  | EmptyString => EmptyString
  | String c r => if is_space c then trimStart r else s
  end.

(** [trimEnd s] drops the trailing white space: a character is kept when
    it is not a space or when something is kept after it. *)
Fixpoint trimEnd (s : string) : string :=
  match s with
  | EmptyString => EmptyString
  | String c r =>
      match trimEnd r with
      | EmptyString => if is_space c then EmptyString else String c EmptyString
      | r' => String c r'
      end
  end.

(** [String.prototype.trim] *)
Definition trim (s : string) : string := trimEnd (trimStart s).

(** [String.prototype.startsWith] *)
Fixpoint startsWith (s p : string) : bool :=
  match p, s with
  | EmptyString, _ => true
  | String _ _, EmptyString => false
  | String b p', String a s' => Ascii.eqb a b && startsWith s' p'
  end.

(** [String.prototype.includes] *)
Fixpoint includes (s p : string) : bool :=
  startsWith s p ||
  match s with
  | EmptyString => false
  | String _ s' => includes s' p
  end.

(** [String.prototype.endsWith] *)
Fixpoint endsWith (s p : string) : bool :=
  String.eqb s p ||
  match s with
  | EmptyString => false
  | String _ s' => endsWith s' p
  end.

(** The concatenation of the strings of a list, in order *)
Fixpoint concat_all (ss : list string) : string :=
  match ss with
  | [] => EmptyString
  | s :: r => s ++ concat_all r
  end.

(** [s.substring(n)] for [0 <= n] *)
Fixpoint substring_from (n : nat) (s : string) : string :=
  match n, s with
  | 0, _ => s
  | S _, EmptyString => EmptyString
  | S k, String _ r => substring_from k r
  end.

(** [s.split(sep)] for a one-character separator: the pieces between the
    separators, empty pieces included; the empty string gives one empty
    piece. *)
Fixpoint split_char (sep : ascii) (s : string) : list string :=
  match s with
  | EmptyString => [EmptyString]
  | String c r =>
      if Ascii.eqb c sep then EmptyString :: split_char sep r
      else match split_char sep r with
           | [] => [String c EmptyString]
           | p :: ps => String c p :: ps
           end
  end.

(** [s.split(/[set]+/)]: the pieces between the maximal runs of characters
    of the class. [in_run] says that the previous character belonged to a
    run, which has then already closed its piece. *)
Fixpoint split_runs (cls : ascii -> bool) (in_run : bool) (s : string)
  : list string :=
  match s with
  | EmptyString => [EmptyString]
  | String c r =>
      if cls c then
        if in_run then split_runs cls true r
        else EmptyString :: split_runs cls true r
      else match split_runs cls false r with
           | [] => [String c EmptyString]
           | p :: ps => String c p :: ps
           end
  end.

End JsString.

(** ** Numbers *)

Module JsNumber.

(** The number whose value is the natural [n]; exact below [2^53]. *)
Fixpoint of_nat (n : nat) : float :=
  match n with
  | 0 => 0%float
  | S k => (of_nat k + 1)%float
  end.

(** [Math.min] of two numbers: a NaN argument gives NaN, and of the two
    zeros the negative one is the smaller. *)
Definition Math_min (x y : float) : float :=
  if is_nan x || is_nan y then nan
  else if (y <? x)%float then y
  else if (x <? y)%float then x
  else if get_sign y then y else x.

(** [a > b] *)
Definition gt (a b : float) : bool := (b <? a)%float.

(** [Number.prototype.toString] of an integer *)
Definition integer_toString (n : Z) : string :=
  DecimalString.NilZero.string_of_int (Z.to_int n).

End JsNumber.

(** ** Edit distance and similarity (VoiceUI.tsx) *)

Module Similarity.
Import JsString.

Definition min3 (x y z : nat) : nat := Nat.min (Nat.min x y) z.

Definition cost (x y : ascii) : nat := if Ascii.eqb x y then 0 else 1.

(** The inner loop of [levenshteinDistance] for one row [i >= 1]: [bi] is
    [b[i-1]], [a] the characters [a[j-1..]] still to visit, [diag] is
    [matrix[i-1][j-1]], [ups] the entries [matrix[i-1][j..]] and [left]
    is [matrix[i][j-1]]. It returns [matrix[i][j..]]. *)
Fixpoint fill_row (bi : ascii) (a : list ascii) (diag : nat)
                  (ups : list nat) (left : nat) : list nat :=
  match a, ups with
  | aj :: a', up :: ups' =>
      let v := min3 (up + 1) (left + 1) (diag + cost aj bi) in
      v :: fill_row bi a' up ups' v
  | _, _ => []
  end.

(** Row [i] of the matrix from row [i-1]: [matrix[i][0]] is [i]. *)
Definition next_row (a : list ascii) (i : nat) (bi : ascii)
                    (prev : list nat) : list nat :=
  match prev with
  | [] => [i]
  | p0 :: ups => i :: fill_row bi a p0 ups i
  end.

(** The outer loop: rows [i, i+1, ...] for the characters of [b] left. *)
Fixpoint fill_rows (a : list ascii) (i : nat) (b : list ascii)
                   (prev : list nat) : list nat :=
  match b with
  | [] => prev
  | bi :: b' => fill_rows a (S i) b' (next_row a i bi prev)
  end.

(** [levenshteinDistance(a, b)]: row 0 is [0, 1, ..., a.length], and the
    result is [matrix[b.length][a.length]]. *)
Definition levenshteinDistance (a b : string) : nat :=
  let la := chars a in
  let row0 := seq 0 (S (List.length la)) in
  last (fill_rows la 1 (chars b) row0) 0.

(** [calculateSimilarity(a, b)] *)
Definition calculateSimilarity (a b : string) : float :=
  let maxLength := Nat.max (String.length a) (String.length b) in
  if (maxLength =? 0)%nat then 1%float
  else
    let distance := levenshteinDistance (toLowerCase a) (toLowerCase b) in
    (1 - JsNumber.of_nat distance / JsNumber.of_nat maxLength)%float.

(** [areSimilarQuestions(q1, q2)] *)
Definition areSimilarQuestions (q1 q2 : string) : bool :=
  JsNumber.gt (calculateSimilarity q1 q2) 0.8%float.

(** [matrix_entry a b i j] is the value the nested loops of
    [levenshteinDistance] leave in [matrix[i][j]]: the rows are indexed by
    [b], the columns by [a]. It is the reference the loops are proved
    against. *)
Fixpoint matrix_entry (a b : list ascii) (i : nat) : nat -> nat :=
  match i with
  | 0 => fun j => j
  | S i' =>
      fix entry (j : nat) : nat :=
        match j with
        | 0 => S i'
        | S j' =>
            min3 (matrix_entry a b i' (S j') + 1)
                 (entry j' + 1)
                 (matrix_entry a b i' j'
                  + cost (nth j' a Ascii.zero) (nth i' b Ascii.zero))
        end
  end.

Definition matrix_row (a b : list ascii) (i : nat) : list nat :=
  map (matrix_entry a b i) (seq 0 (S (List.length a))).

End Similarity.

(** ** Regular expressions of the detector (TechnicalQuestionDetector.ts) *)

Module JsRegExp.
Import JsString.

(** [\w] *)
Definition is_word_char (c : ascii) : bool :=
  let n := nat_of_ascii c in
  (((48 <=? n) && (n <=? 57)) || ((65 <=? n) && (n <=? 90))
   || ((97 <=? n) && (n <=? 122)) || (n =? 95))%nat.

Definition word_before (prev : option ascii) : bool :=
  match prev with Some c => is_word_char c | None => false end.

Definition word_after (s : string) : bool :=
  match s with String c _ => is_word_char c | EmptyString => false end.

(** [\b] between the character [prev] and the rest [s] of the input *)
Definition boundary (prev : option ascii) (s : string) : bool :=
  xorb (word_before prev) (word_after s).

(** Two characters match under the [i] flag. *)
Definition eq_ci (x y : ascii) : bool :=
  Ascii.eqb (lower_char x) (lower_char y).

(** The literal [lit] followed by [\b], matched at the start of [s] whose
    previous character is [prev]. *)
Fixpoint literal_then_boundary (prev : option ascii) (s lit : string) : bool :=
  match lit with
  | EmptyString => boundary prev s
  | String k lit' =>
      match s with
      | EmptyString => false
      | String c s' => eq_ci c k && literal_then_boundary (Some c) s' lit'
      end
  end.

(** [new RegExp('\\b' + keyword + '\\b', 'i').test(text)], for a keyword
    without regular-expression metacharacters: a search from every
    position of the input. *)
Fixpoint search_word (prev : option ascii) (s keyword : string) : bool :=
  (boundary prev s && literal_then_boundary prev s keyword) ||
  match s with
  | EmptyString => false
  | String c s' => search_word (Some c) s' keyword
  end.

Definition test_word (keyword text : string) : bool :=
  search_word None text keyword.

(** [strip_ci s lit]: what follows [lit] when [s] starts with it, under
    the [i] flag. *)
Fixpoint strip_ci (s lit : string) : option string :=
  match lit with
  | EmptyString => Some s
  | String k lit' =>
      match s with
      | EmptyString => None
      | String c s' => if eq_ci c k then strip_ci s' lit' else None
      end
  end.

(** A question pattern: a sequence of groups, each a list of alternative
    literals ([/how (?:to|do you)/i] is [[["how "]; ["to"; "do you"]]]),
    searched anywhere in the input, or a literal anchored at the end of the
    input ([/\?$/]). *)
Inductive Pattern : Type :=
| Search (groups : list (list string))
| AtEnd (lit : string).

Fixpoint match_groups (groups : list (list string)) (s : string) : bool :=
  match groups with
  | [] => true
  | alts :: rest =>
      existsb (fun lit =>
                 match strip_ci s lit with
                 | Some s' => match_groups rest s'
                 | None => false
                 end) alts
  end.

Fixpoint search_groups (groups : list (list string)) (s : string) : bool :=
  match_groups groups s ||
  match s with
  | EmptyString => false
  | String _ s' => search_groups groups s'
  end.

(** [pattern.test(text)] *)
Definition test (p : Pattern) (text : string) : bool :=
  match p with
  | Search groups => search_groups groups text
  | AtEnd lit => endsWith text lit
  end.

End JsRegExp.

(** ** TechnicalQuestionDetector.ts *)

Module Detector.
Import JsString JsNumber.

Inductive TechnicalDomain : Type :=
| Programming | DevOps | Database | Networking | Security
| WebDevelopment | MobileDevelopment | DataScience
| ArtificialIntelligence | General.

(** The string value of an enum member *)
Definition domain_value (d : TechnicalDomain) : string :=
  match d with
  | Programming => "programming"
  | DevOps => "devops"
  | Database => "database"
  | Networking => "networking"
  | Security => "security"
  | WebDevelopment => "web-development"
  | MobileDevelopment => "mobile-development"
  | DataScience => "data-science"
  | ArtificialIntelligence => "artificial-intelligence"
  | General => "general-technical"
  end.

Record DetectionResult : Type := {
  isTechnical : bool;
  confidence : float;
  category : option TechnicalDomain;
  detectedKeywords : list string
}.

Record TechnicalQuestion : Type := {
  id : string;
  text : string;
  timestamp : string;
  question_category : option TechnicalDomain;
  question_confidence : float
}.

(** [technicalKeywords], in the insertion order of the object literal,
    which is the order [Object.values] and [Object.entries] enumerate. *)
Definition technicalKeywords : list (TechnicalDomain * list string) :=
  [ (Programming,
     ["function"; "method"; "class"; "object"; "variable"; "loop"; "array";
      "algorithm"; "runtime"; "compile"; "debug"; "error"; "exception";
      "syntax"; "javascript"; "python"; "java"; "c#"; "typescript"; "ruby";
      "rust"; "go"; "php"; "swift"; "kotlin"; "code"; "compiler"; "interpreter";
      "recursion"; "iteration"; "inheritance"; "polymorphism"; "encapsulation";
      "data structure"; "framework"; "library"; "api"; "sdk"; "lint"; "import"]);
    (DevOps,
     ["ci/cd"; "pipeline"; "jenkins"; "docker"; "kubernetes"; "container";
      "orchestration"; "deployment"; "automation"; "infrastructure"; "terraform";
      "ansible"; "chef"; "puppet"; "aws"; "azure"; "gcp"; "cloud"; "microservice";
      "serverless"; "lambda"; "function-as-a-service"; "iaas"; "paas"; "saas";
      "devops"; "sre"; "gitlab"; "github actions"; "circle ci"]);
    (Database,
     ["database"; "sql"; "nosql"; "query"; "index"; "relational"; "mongo";
      "postgresql"; "mysql"; "oracle"; "sqlite"; "join"; "transaction"; "acid";
      "normalization"; "denormalization"; "schema"; "table"; "column"; "row";
      "primary key"; "foreign key"; "couchbase"; "cassandra"; "redis"; "memcached"]);
    (Networking,
     ["network"; "tcp/ip"; "http"; "https"; "dns"; "ip address"; "subnet";
      "gateway"; "routing"; "firewall"; "vpn"; "proxy"; "load balancer"; "cdn";
      "latency"; "bandwidth"; "packet"; "protocol"; "socket"; "port"; "nat"]);
    (Security,
     ["security"; "encryption"; "authentication"; "authorization"; "oauth";
      "jwt"; "certificate"; "vulnerability"; "exploit"; "penetration test";
      "firewall"; "csrf"; "xss"; "sql injection"; "hash"; "salt"; "cipher"]);
    (WebDevelopment,
     ["html"; "css"; "javascript"; "dom"; "react"; "angular"; "vue"; "svelte";
      "webpack"; "babel"; "responsive"; "spa"; "pwa"; "web component"; "sass";
      "less"; "bootstrap"; "tailwind"; "ajax"; "fetch"; "restful"; "graphql";
      "browser"; "render"; "accessibility"; "a11y"; "cors"; "frontend"; "backend"]);
    (MobileDevelopment,
     ["android"; "ios"; "swift"; "kotlin"; "react native"; "flutter"; "mobile";
      "app store"; "play store"; "notification"; "responsive"; "touch"; "gesture";
      "xcode"; "android studio"; "emulator"; "simulator"]);
    (DataScience,
     ["data science"; "machine learning"; "statistics"; "regression"; "classification";
      "clustering"; "neural network"; "pandas"; "numpy"; "scipy"; "matplotlib";
      "jupyter"; "kaggle"; "feature"; "dataset"; "model"; "train"; "test"; "validate";
      "accuracy"; "precision"; "recall"; "f1 score"; "r squared"; "visualization"]);
    (ArtificialIntelligence,
     ["ai"; "artificial intelligence"; "machine learning"; "deep learning"; "neural network";
      "nlp"; "natural language processing"; "computer vision"; "reinforcement learning";
      "supervised"; "unsupervised"; "tensorflow"; "pytorch"; "keras"; "transformers";
      "gpt"; "bert"; "llm"; "large language model"; "embedding"; "tokens"; "fine-tuning";
      "prompt engineering"; "rlhf"; "diffusion model"]);
    (General,
     ["technical"; "technology"; "system"; "architecture"; "design pattern";
      "best practice"; "implementation"; "integration"; "configuration"; "setup";
      "install"; "uninstall"; "update"; "upgrade"; "downgrade"; "compatibility";
      "performance"; "optimization"; "bottleneck"; "scalability"; "maintenance"]) ].

(** [questionPatterns] *)
Definition questionPatterns : list JsRegExp.Pattern :=
  [ JsRegExp.Search [["how "]; ["do"; "can"; "would"; "should"]; [" I"]];
    JsRegExp.Search [["how "]; ["to"; "do you"]];
    JsRegExp.Search [["what "]; ["is"; "are"; "does"]];
    JsRegExp.Search [["why "]; ["does"; "is"; "are"; "do"]];
    JsRegExp.Search [["can you explain"]];
    JsRegExp.Search [["could you "]; ["help"; "tell"; "explain"; "describe"]];
    JsRegExp.Search [["difference between"]];
    JsRegExp.Search [["when "]; ["should"; "would"; "do"]];
    JsRegExp.Search [["where "]; ["can"; "should"; "do"]];
    JsRegExp.AtEnd "?" ].

(** [Array.prototype.includes] on an array of strings *)
Definition array_includes (xs : list string) (x : string) : bool :=
  existsb (String.eqb x) xs.

(** [hasQuestionPattern(text)] *)
Definition hasQuestionPattern (text : string) : bool :=
  existsb (fun pattern => JsRegExp.test pattern text) questionPatterns.

(** [findTechnicalKeywords(text)]: the two nested [forEach] visit the
    keywords domain by domain; [matches] is the accumulator. *)
Definition findTechnicalKeywords (text : string) : list string :=
  fold_left
    (fun matches keywords =>
       fold_left
         (fun matches keyword =>
            if JsRegExp.test_word keyword text
               && negb (array_includes matches keyword)
            then matches ++ [keyword] else matches)
         keywords matches)
    (map snd technicalKeywords) [].

(** The first loop of [determineTechnicalDomain]: [domainCounts]. *)
Definition domainCounts (keywords : list string)
  : list (TechnicalDomain * nat) :=
  map (fun entry =>
         (fst entry,
          fold_left
            (fun count keyword =>
               if array_includes (snd entry) (toLowerCase keyword)
               then S count else count)
            keywords 0))
      technicalKeywords.

(** [determineTechnicalDomain(keywords)]: the pair of [category] and
    [keywordCount]. *)
Definition determineTechnicalDomain (keywords : list string)
  : TechnicalDomain * nat :=
  if (List.length keywords =? 0)%nat then (General, 0)
  else
    let top :=
      fold_left
        (fun acc entry =>
           if (fst acc <? snd entry)%nat then (snd entry, fst entry) else acc)
        (domainCounts keywords) (0, General) in
    (snd top, List.length keywords).

(** [calculateConfidence(isQuestionLike, keywordCount, textLength)] *)
Definition calculateConfidence (isQuestionLike : bool) (keywordCount : nat)
                               (textLength : nat) : float :=
  let confidence := if isQuestionLike then 0.5%float else 0.2%float in
  let confidence :=
    if (0 <? textLength)%nat then
      let keywordWeight :=
        Math_min (of_nat keywordCount * 0.15)%float 0.45%float in
      (confidence + keywordWeight)%float
    else confidence in
  Math_min confidence 0.95%float.

(** [detectTechnicalQuestion(text)] *)
Definition detectTechnicalQuestion (text : string) : DetectionResult :=
  let cleanText := toLowerCase (trim text) in
  let isQuestionLike := hasQuestionPattern cleanText in
  let keywordMatches := findTechnicalKeywords cleanText in
  let '(category, keywordCount) := determineTechnicalDomain keywordMatches in
  let confidence :=
    calculateConfidence isQuestionLike keywordCount (String.length cleanText) in
  let isTechnical := gt confidence 0.6%float in
  {| isTechnical := isTechnical;
     confidence := confidence;
     category := if isTechnical then Some category else None;
     detectedKeywords := keywordMatches |}.

(** What [createTechnicalQuestion] reads from the clock: [Date.now()], in
    milliseconds, and [new Date().toLocaleTimeString()]. *)
Record Clock : Type := {
  now : Z;
  localeTime : string
}.

(** [createTechnicalQuestion(text)]: [None] is [null]. *)
Definition createTechnicalQuestion (clock : Clock) (text : string)
  : option TechnicalQuestion :=
  let detectionResult := detectTechnicalQuestion text in
  if negb (isTechnical detectionResult) then None
  else Some {| id := integer_toString (now clock);
               text := trim text;
               timestamp := localeTime clock;
               question_category := category detectionResult;
               question_confidence := confidence detectionResult |}.

End Detector.

(** ** VoiceUI.tsx: question extraction and the question registry *)

Module VoiceUI.
Import JsString Detector.

(** [mightBeConversationalQuery(text)] *)
Definition mightBeConversationalQuery (text : string) : bool :=
  let conversationalPatterns :=
    ["tell me"; "explain"; "describe"; "show me"; "help me";
     "i need"; "i want"; "give me"; "can you"; "please";
     "how do"; "what is"; "what are"; "why is"; "why are"] in
  let lowerText := trim (toLowerCase text) in
  existsb (fun pattern => includes lowerText pattern) conversationalPatterns.

(** The class [[.!?]] of the sentence splitter *)
Definition is_terminator (c : ascii) : bool :=
  Ascii.eqb c "." || Ascii.eqb c "!" || Ascii.eqb c "?".

Definition questionIndicators : list string :=
  ["how"; "what"; "why"; "when"; "where"; "which"; "who"; "whose"; "whom";
   "can"; "could"; "would"; "should"; "is"; "are"; "am"; "was"; "were";
   "do"; "does"; "did"; "has"; "have"; "had"; "will"; "shall";
   "tell me"; "explain"; "describe"; "show me"; "help me understand"].

(** The body of the [for] loop of [extractQuestions] for one sentence:
    what it pushes to [result], if anything. *)
Definition extractSentence (text sentence : string) : list string :=
  let trimmed := trim sentence in
  if (String.length trimmed <? 3)%nat then []
  else if includes text (trimmed ++ "?")%string then [(trimmed ++ "?")%string]
  else
    let lowerSentence := toLowerCase trimmed in
    if existsb (fun indicator =>
                  startsWith lowerSentence indicator
                  || includes lowerSentence (" " ++ indicator ++ " ")%string)
               questionIndicators
    then [trimmed] else [].

(** [extractQuestions(text)] *)
Definition extractQuestions (text : string) : list string :=
  let sentences :=
    filter (fun s => (0 <? String.length (trim s))%nat)
           (split_runs is_terminator false text) in
  let result := flat_map (extractSentence text) sentences in
  if ((List.length result =? 0)
      && (0 <? String.length (trim text))
      && (String.length (trim text) <? 150))%nat
  then result ++ [trim text] else result.

(** The two pieces of component state the registry consists of:
    [detectedQuestions] and [currentQuestionIndex]. *)
Record State : Type := {
  detectedQuestions : list TechnicalQuestion;
  currentQuestionIndex : Z
}.

(** The initial values given to [useState] *)
Definition initial : State :=
  {| detectedQuestions := []; currentQuestionIndex := (-1)%Z |}.

(** [analyzeQuestion(questionText)]; [clock] is what the detector reads
    from the clock while it builds the question. The updater passed to
    [setDetectedQuestions] runs on the current list. *)
Definition analyzeQuestion (clock : Clock) (questionText : string)
                           (st : State) : State :=
  match createTechnicalQuestion clock questionText with
  | None => st
  | Some question =>
      let prev := detectedQuestions st in
      let isDuplicate :=
        existsb (fun q => Similarity.areSimilarQuestions (text q) (text question))
                prev in
      if isDuplicate then st
      else
        let newQuestions := prev ++ [question] in
        {| detectedQuestions := newQuestions;
           currentQuestionIndex := (Z.of_nat (List.length newQuestions) - 1)%Z |}
  end.

(** [clearQuestions()] *)
Definition clearQuestions (st : State) : State :=
  {| detectedQuestions := []; currentQuestionIndex := (-1)%Z |}.

(** [selectQuestion(index)] *)
Definition selectQuestion (index : Z) (st : State) : State :=
  {| detectedQuestions := detectedQuestions st;
     currentQuestionIndex := index |}.

(** The question the selected-question panel renders: the guard
    [currentQuestionIndex >= 0 && currentQuestionIndex < detectedQuestions.length]
    and the entry it then reads. *)
Definition selectedQuestion (st : State) : option TechnicalQuestion :=
  let i := currentQuestionIndex st in
  if ((0 <=? i) && (i <? Z.of_nat (List.length (detectedQuestions st))))%Z
  then nth_error (detectedQuestions st) (Z.to_nat i)
  else None.

(** What [processNewSpeechSegment(segment)] does with a segment it has not
    skipped as already processed: the candidates are analysed one after the
    other in the same handler; [clockAt k] is what the clock gives while
    candidate number [k] is analysed. *)
Definition analyzeSegment (clockAt : nat -> Clock) (segment : string)
                          (st : State) : State :=
  let questions := extractQuestions segment in
  if ((List.length questions =? 0) && (5 <? String.length segment))%nat then
    if mightBeConversationalQuery segment
    then analyzeQuestion (clockAt 0) segment st
    else st
  else
    snd (fold_left
           (fun acc questionText =>
              let '(k, st) := acc in
              (S k,
               if (5 <? String.length questionText)%nat
               then analyzeQuestion (clockAt k) questionText st
               else st))
           questions (0, st)).

(** The operations on the registry, as events. *)
Inductive Action : Type :=
| Analyze (clock : Clock) (questionText : string)
| Clear
| Select (index : Z).

Definition step (st : State) (a : Action) : State :=
  match a with
  | Analyze clock questionText => analyzeQuestion clock questionText st
  | Clear => clearQuestions st
  | Select index => selectQuestion index st
  end.

Definition run (actions : list Action) (st : State) : State :=
  fold_left step actions st.

(** The invariant of the question list: every earlier entry fails the
    similarity test against every later one. *)
Definition dissimilar_in_order (qs : list TechnicalQuestion) : Prop :=
  forall i j qi qj,
    i < j -> nth_error qs i = Some qi -> nth_error qs j = Some qj ->
    Similarity.areSimilarQuestions (text qi) (text qj) = false.

End VoiceUI.

(** ** Sample data used by the examples *)

Module Samples.
Import Detector VoiceUI.

Definition noon : Clock :=
  {| now := 1700000000000%Z; localeTime := "12:00:00 PM" |}.

Definition docker_question : TechnicalQuestion :=
  {| id := "1700000000000";
     text := "What is docker?";
     timestamp := "12:00:00 PM";
     question_category := Some DevOps;
     question_confidence := 0.65%float |}.

Definition python_question : TechnicalQuestion :=
  {| id := "1700000000000";
     text := "How do I use python?";
     timestamp := "12:00:00 PM";
     question_category := Some Programming;
     question_confidence := 0.65%float |}.

(** Two insertions, a clear, then the same two insertions and a selection. *)
Definition session : list Action :=
  [ Analyze noon "What is docker?"; Analyze noon "How do I use python?";
    Clear;
    Analyze noon "What is docker?"; Analyze noon "How do I use python?";
    Select 0%Z ].

End Samples.

(** ** JSON values and [JSON.parse] *)

Module Json.
Import JsString.

(** The values [JSON.parse] builds, and [undefined], which reading a
    missing property gives. A number keeps its literal: what the engine
    makes of it is asked of [Engine] below. An object keeps its members in
    source order. *)
Inductive JsValue : Type :=
| JUndefined
| JNull
| JBool (b : bool)
| JNumber (literal : string)
| JString (s : string)
| JArray (elements : list JsValue)
| JObject (members : list (string * JsValue)).

(** What the JavaScript engine decides and the source does not: the truth
    value and the string of the binary64 number a literal denotes, and the
    messages of the errors the engine itself throws. *)
Record Engine : Type := {
  number_toBoolean : string -> bool;
  number_toString : string -> string;
  (** the message of the [SyntaxError] of [JSON.parse] on a text *)
  syntaxError_message : string -> string;
  (** the message of the [TypeError] of reading a property of [undefined]
      or [null] (the boolean says which: [true] for [null]) *)
  typeError_message : bool -> string -> string
}.

Definition is_json_space (c : ascii) : bool :=
  let n := nat_of_ascii c in
  ((n =? 32) || (n =? 9) || (n =? 10) || (n =? 13))%nat.

Fixpoint skip_ws (s : string) : string :=
  match s with
  | String c r => if is_json_space c then skip_ws r else s
  | EmptyString => s
  end.

Definition is_digit (c : ascii) : bool :=
  let n := nat_of_ascii c in ((48 <=? n) && (n <=? 57))%nat.

Definition hex_value (c : ascii) : option nat :=
  let n := nat_of_ascii c in
  if ((48 <=? n) && (n <=? 57))%nat then Some (n - 48)
  else if ((65 <=? n) && (n <=? 70))%nat then Some (n - 55)
  else if ((97 <=? n) && (n <=? 102))%nat then Some (n - 87)
  else None.

(** The characters of the code unit [\uXXXX] stands for: itself within
    ASCII, its UTF-8 bytes outside. *)
Definition code_unit (n : nat) : string :=
  if (n <? 128)%nat then String (ascii_of_nat n) EmptyString
  else if (n <? 2048)%nat then
    String (ascii_of_nat (192 + n / 64))
      (String (ascii_of_nat (128 + n mod 64)) EmptyString)
  else
    String (ascii_of_nat (224 + n / 4096))
      (String (ascii_of_nat (128 + (n / 64) mod 64))
         (String (ascii_of_nat (128 + n mod 64)) EmptyString)).

Definition escape_char (e : ascii) : option ascii :=
  let n := nat_of_ascii e in
  if (n =? 34)%nat then Some e
  else if (n =? 92)%nat then Some e
  else if (n =? 47)%nat then Some e
  else if (n =? 98)%nat then Some (ascii_of_nat 8)
  else if (n =? 102)%nat then Some (ascii_of_nat 12)
  else if (n =? 110)%nat then Some (ascii_of_nat 10)
  else if (n =? 114)%nat then Some (ascii_of_nat 13)
  else if (n =? 116)%nat then Some (ascii_of_nat 9)
  else None.

Definition prepend (p : string) (r : option (string * string))
  : option (string * string) :=
  match r with
  | Some (s, rest) => Some ((p ++ s)%string, rest)
  | None => None
  end.

(** The characters of a string literal after its opening quote, up to the
    closing quote: the string and what follows it. *)
Fixpoint parse_chars (s : string) : option (string * string) :=
  match s with
  | EmptyString => None
  | String c r =>
      if (nat_of_ascii c =? 34)%nat then Some (EmptyString, r)
      else if (nat_of_ascii c =? 92)%nat then
        match r with
        | String e r' =>
            if (nat_of_ascii e =? 117)%nat then
              match r' with
              | String h1 (String h2 (String h3 (String h4 r''))) =>
                  match hex_value h1, hex_value h2, hex_value h3, hex_value h4 with
                  | Some a, Some b, Some c', Some d =>
                      prepend (code_unit (a * 4096 + b * 256 + c' * 16 + d))
                              (parse_chars r'')
                  | _, _, _, _ => None
                  end
              | _ => None
              end
            else
              match escape_char e with
              | Some x => prepend (String x EmptyString) (parse_chars r')
              | None => None
              end
        | EmptyString => None
        end
      else if (nat_of_ascii c <? 32)%nat then None
      else prepend (String c EmptyString) (parse_chars r)
  end.

(** The longest prefix of digits and what follows it *)
Fixpoint span_digits (s : string) : string * string :=
  match s with
  | String c r =>
      if is_digit c then
        let '(d, rest) := span_digits r in (String c d, rest)
      else (EmptyString, s)
  | EmptyString => (EmptyString, EmptyString)
  end.

Definition head_is (c : ascii) (s : string) : bool :=
  match s with String x _ => Ascii.eqb x c | EmptyString => false end.

Definition tail (s : string) : string :=
  match s with String _ r => r | EmptyString => EmptyString end.

(** A number literal at the start of [s]: the literal and what follows. *)
Definition parse_number (s : string) : option (string * string) :=
  let '(sign, s1) := if head_is "-" s then ("-", tail s) else ("", s) in
  let '(int, s2) := span_digits s1 in
  if (String.length int =? 0)%nat then None
  else if head_is "0" int && (1 <? String.length int)%nat then
    (* a leading zero ends the integer part *)
    Some ((sign ++ "0")%string, (tail int ++ s2)%string)
  else
    let '(frac, s3) :=
      if head_is "." s2 then
        let '(d, r) := span_digits (tail s2) in
        if (String.length d =? 0)%nat then (None, s2)
        else (Some ("." ++ d)%string, r)
      else (Some EmptyString, s2) in
    match frac with
    | None => None
    | Some frac =>
        if head_is "e" s3 || head_is "E" s3 then
          let e := String.substring 0 1 s3 in
          let s4 := tail s3 in
          let '(esign, s5) :=
            if head_is "+" s4 then ("+", tail s4)
            else if head_is "-" s4 then ("-", tail s4)
            else ("", s4) in
          let '(d, s6) := span_digits s5 in
          if (String.length d =? 0)%nat then None
          else Some ((sign ++ int ++ frac ++ e ++ esign ++ d)%string, s6)
        else Some ((sign ++ int ++ frac)%string, s3)
    end.

(** A JSON value at the start of [s], after white space; the elements of
    an array after its bracket or a comma; the members of an object after
    its brace or a comma. [fuel] bounds the number of nested calls. *)
Fixpoint parse_value (fuel : nat) (s : string) : option (JsValue * string) :=
  match fuel with
  | 0 => None
  | S fuel' =>
      let s := skip_ws s in
      if startsWith s "null" then Some (JNull, substring_from 4 s)
      else if startsWith s "true" then Some (JBool true, substring_from 4 s)
      else if startsWith s "false" then Some (JBool false, substring_from 5 s)
      else if head_is "034" s then
        match parse_chars (tail s) with
        | Some (str, rest) => Some (JString str, rest)
        | None => None
        end
      else if head_is "[" s then
        let r := skip_ws (tail s) in
        if head_is "]" r then Some (JArray [], tail r)
        else match parse_elements fuel' r with
             | Some (vs, rest) => Some (JArray vs, rest)
             | None => None
             end
      else if head_is "{" s then
        let r := skip_ws (tail s) in
        if head_is "}" r then Some (JObject [], tail r)
        else match parse_members fuel' r with
             | Some (ms, rest) => Some (JObject ms, rest)
             | None => None
             end
      else
        match parse_number s with
        | Some (literal, rest) => Some (JNumber literal, rest)
        | None => None
        end
  end

with parse_elements (fuel : nat) (s : string)
  : option (list JsValue * string) :=
  match fuel with
  | 0 => None
  | S fuel' =>
      match parse_value fuel' s with
      | Some (v, rest) =>
          let r := skip_ws rest in
          if head_is "]" r then Some ([v], tail r)
          else if head_is "," r then
            match parse_elements fuel' (tail r) with
            | Some (vs, rest') => Some (v :: vs, rest')
            | None => None
            end
          else None
      | None => None
      end
  end

with parse_members (fuel : nat) (s : string)
  : option (list (string * JsValue) * string) :=
  match fuel with
  | 0 => None
  | S fuel' =>
      let s := skip_ws s in
      if head_is "034" s then
        match parse_chars (tail s) with
        | Some (key, rest) =>
            let r := skip_ws rest in
            if head_is ":" r then
              match parse_value fuel' (tail r) with
              | Some (v, rest') =>
                  let r' := skip_ws rest' in
                  if head_is "}" r' then Some ([(key, v)], tail r')
                  else if head_is "," r' then
                    match parse_members fuel' (tail r') with
                    | Some (ms, rest'') => Some ((key, v) :: ms, rest'')
                    | None => None
                    end
                  else None
              | None => None
              end
            else None
        | None => None
        end
      else None
  end.

(** [JSON.parse(text)]: the value, or the message of the [SyntaxError]. *)
Definition JSON_parse (E : Engine) (text : string) : string + JsValue :=
  match parse_value (2 * String.length text + 2) text with
  | Some (v, rest) =>
      match skip_ws rest with
      | EmptyString => inr v
      | String _ _ => inl (syntaxError_message E text)
      end
  | None => inl (syntaxError_message E text)
  end.

(** [ToBoolean] *)
Definition truthy (E : Engine) (v : JsValue) : bool :=
  match v with
  | JUndefined | JNull => false
  | JBool b => b
  | JNumber literal => number_toBoolean E literal
  | JString s => negb (String.eqb s "")
  | JArray _ | JObject _ => true
  end.

(** [ToString], which [+=] applies to the right operand of a string *)
Fixpoint ToString (E : Engine) (v : JsValue) : string :=
  match v with
  | JUndefined => "undefined"
  | JNull => "null"
  | JBool true => "true"
  | JBool false => "false"
  | JNumber literal => number_toString E literal
  | JString s => s
  | JArray elements =>
      (fix join (first : bool) (vs : list JsValue) : string :=
         match vs with
         | [] => EmptyString
         | x :: r =>
             ((if first then "" else ",")
              ++ match x with
                 | JUndefined | JNull => ""
                 | _ => ToString E x
                 end
              ++ join false r)%string
         end) true elements
  | JObject _ => "[object Object]"
  end.

(** The own property [key] of an object: the last member of that name. *)
Fixpoint lookup (key : string) (members : list (string * JsValue)) : JsValue :=
  match members with
  | [] => JUndefined
  | (k, v) :: rest =>
      match lookup key rest with
      | JUndefined => if String.eqb k key then v else JUndefined
      | later => later
      end
  end.

(** [v.key], for the property names the services read ([choices], [delta],
    [message], [content]): the [TypeError] message when [v] is [undefined]
    or [null]; no array, string, number or boolean has such a property. *)
Definition get (E : Engine) (v : JsValue) (key : string) : string + JsValue :=
  match v with
  | JUndefined => inl (typeError_message E false key)
  | JNull => inl (typeError_message E true key)
  | JObject members => inr (lookup key members)
  | _ => inr JUndefined
  end.

(** [v[0]] *)
Definition get0 (E : Engine) (v : JsValue) : string + JsValue :=
  match v with
  | JUndefined => inl (typeError_message E false "0")
  | JNull => inl (typeError_message E true "0")
  | JArray elements => inr (nth 0 elements JUndefined)
  | JString (String c _) => inr (JString (String c EmptyString))
  | JObject members => inr (lookup "0" members)
  | _ => inr JUndefined
  end.

(** [v?.key] *)
Definition get_optional (E : Engine) (v : JsValue) (key : string) : JsValue :=
  match v with
  | JUndefined | JNull => JUndefined
  | JObject members => lookup key members
  | _ => JUndefined
  end.

(** [data.choices[0]?.inner?.content], with [inner] one of [delta] and
    [message]: the value or the message of the [TypeError]. *)
Definition first_choice_content (E : Engine) (data : JsValue) (inner : string)
  : string + JsValue :=
  match get E data "choices" with
  | inl e => inl e
  | inr choices =>
      match get0 E choices with
      | inl e => inl e
      | inr choice =>
          inr (get_optional E (get_optional E choice inner) "content")
      end
  end.

End Json.

(** ** services/LLMService.ts and services/OpenAIService.ts *)

Module OpenAIService.
Import JsString Json.

(** [LLMOptions]: an absent field is [None]; of the [onStreamUpdate]
    callback the service only needs to know whether it is there, what it is
    called with being the log of notifications. *)
Record LLMOptions : Type := {
  apiKey : option string;
  model : option string;
  maxTokens : option Z;
  temperature : option float;
  stream : option bool;
  onStreamUpdate : bool
}.

(** [{ ...base, ...over }] *)
Definition spread (base over : LLMOptions) : LLMOptions :=
  let pick {A} (f : LLMOptions -> option A) :=
    match f over with Some v => Some v | None => f base end in
  {| apiKey := pick apiKey;
     model := pick model;
     maxTokens := pick maxTokens;
     temperature := pick temperature;
     stream := pick stream;
     onStreamUpdate := onStreamUpdate over || onStreamUpdate base |}.

Definition no_options : LLMOptions :=
  {| apiKey := None; model := None; maxTokens := None;
     temperature := None; stream := None; onStreamUpdate := false |}.

(** The constructor of [LLMService]: [this.options]. *)
Definition LLMService_new (options : LLMOptions) : LLMOptions :=
  spread {| apiKey := None; model := None;
            maxTokens := Some 300%Z;
            temperature := Some 0.3%float;
            stream := Some true;
            onStreamUpdate := false |}
         options.

(** The constructor of [OpenAIService]: the options of the service, or the
    message of the error it throws. *)
Definition OpenAIService_new (options : LLMOptions) : string + LLMOptions :=
  let this_options :=
    LLMService_new
      (spread {| apiKey := None; model := Some "gpt-4o-mini";
                 maxTokens := None; temperature := None;
                 stream := Some true; onStreamUpdate := false |}
              options) in
  match apiKey options with
  | None | Some EmptyString => inl "OpenAI API key is required"
  | Some _ => inr this_options
  end.

Record OpenAIChatMessage : Type := {
  role : string;
  content : string
}.

(** The object [JSON.stringify] serialises into the request body *)
Record RequestBody : Type := {
  body_model : option string;
  body_messages : list OpenAIChatMessage;
  body_max_tokens : option Z;
  body_temperature : option float;
  body_stream : option bool
}.

Record Request : Type := {
  url : string;
  method : string;
  headers : list (string * string);
  request_body : RequestBody
}.

Definition apiUrl : string := "https://api.openai.com/v1/chat/completions".

Definition systemPrompt : string :=
  "Explain like I'm in a job interview—simple and practical. Answer like you're a programmer talking to another programmer—fast and clear. Keep it short and beginner-friendly, with an example. Give me the 'what it is' and 'why it matters' in one or two sentences".

(** Template interpolation of an optional string *)
Definition interpolate (s : option string) : string :=
  match s with Some v => v | None => "undefined" end.

(** [requestOptions] of [getAnswer], with the URL it is sent to *)
Definition requestOptions (options : LLMOptions) (question : string) : Request :=
  {| url := apiUrl;
     method := "POST";
     headers := [("Content-Type", "application/json");
                 ("Authorization", ("Bearer " ++ interpolate (apiKey options))%string)];
     request_body :=
       {| body_model := model options;
          body_messages := [ {| role := "system"; content := systemPrompt |};
                             {| role := "user"; content := question |} ];
          body_max_tokens := maxTokens options;
          body_temperature := temperature options;
          body_stream := stream options |} |}.

(** An HTTP response: its status and its body, [None] for a null body, else
    the decoded chunks the reader delivers until it is done. The body is
    read to its end. *)
Record Response : Type := {
  status : Z;
  body : option (list string)
}.

(** What [fetch] settles with: a rejection and its message, or a response *)
Inductive FetchResult : Type :=
| Rejected (message : string)
| Resolved (response : Response).

(** [response.ok] *)
Definition ok (r : Response) : bool :=
  ((200 <=? status r) && (status r <=? 299))%Z.

(** [response.text()] *)
Definition response_text (r : Response) : string :=
  match body r with
  | Some chunks => concat_all chunks
  | None => EmptyString
  end.

(** The two readings of [Date.now()] an elapsed time is made of *)
Record Times : Type := {
  dispatched : Z;
  settled : Z
}.

Record LLMResponse : Type := {
  answer : JsValue;
  responseTime : Z;
  source : string
}.

(** The message of the error thrown for a response that is not [ok] *)
Definition api_error (r : Response) : string :=
  ("API error: " ++ JsNumber.integer_toString (status r) ++ " - "
   ++ response_text r)%string.

(** [a || b] *)
Definition or_else (E : Engine) (a b : JsValue) : JsValue :=
  if truthy E a then a else b.

(** [standardResponse(requestOptions, question)], given what [fetch]
    settles with: the response or the message of the error thrown. *)
Definition standardResponse (E : Engine) (times : Times) (fetched : FetchResult)
  : string + LLMResponse :=
  match fetched with
  | Rejected message => inl message
  | Resolved response =>
      if negb (ok response) then inl (api_error response)
      else
        match JSON_parse E (response_text response) with
        | inl message => inl message
        | inr result =>
            match first_choice_content E result "message" with
            | inl message => inl message
            | inr v =>
                inr {| answer := or_else E v (JString "No answer received");
                       responseTime := (settled times - dispatched times)%Z;
                       source := "openai" |}
            end
        end
  end.

(** The state of the loop of [streamResponse]: [fullAnswer] and the
    arguments [onStreamUpdate] has been called with. *)
Record StreamState : Type := {
  fullAnswer : string;
  notifications : list string
}.

(** The body of [for (const line of lines)]; both the [SyntaxError] of
    [JSON.parse] and the [TypeError] of reading the choices are caught and
    the line is skipped. *)
Definition process_line (E : Engine) (options : LLMOptions)
                        (st : StreamState) (line : string) : StreamState :=
  if startsWith line "data: " then
    let jsonStr := substring_from 6 line in
    if String.eqb jsonStr "[DONE]" then st
    else
      match JSON_parse E jsonStr with
      | inl _ => st
      | inr data =>
          match first_choice_content E data "delta" with
          | inl _ => st
          | inr v =>
              let content := or_else E v (JString "") in
              if truthy E content then
                let fullAnswer' := (fullAnswer st ++ ToString E content)%string in
                {| fullAnswer := fullAnswer';
                   notifications :=
                     if onStreamUpdate options
                     then notifications st ++ [fullAnswer']
                     else notifications st |}
              else st
          end
      end
  else st.

(** The filter on the lines of a chunk *)
Definition keep_line (line : string) : bool :=
  negb (String.eqb (trim line) "")
  && negb (String.eqb (trim line) "data: [DONE]").

(** The lines of a chunk the [for] loop visits *)
Definition chunk_lines (chunk : string) : list string :=
  filter keep_line (split_char "010" chunk).

(** One iteration of [while (true)] on a chunk read *)
Definition process_chunk (E : Engine) (options : LLMOptions)
                         (st : StreamState) (chunk : string) : StreamState :=
  fold_left (process_line E options) (chunk_lines chunk) st.

(** [streamResponse(requestOptions, question)], given what [fetch] settles
    with: the notifications, and the response or the message of the error
    thrown. *)
Definition streamResponse (E : Engine) (options : LLMOptions) (times : Times)
                          (fetched : FetchResult)
  : list string * (string + LLMResponse) :=
  match fetched with
  | Rejected message => ([], inl message)
  | Resolved response =>
      if negb (ok response) then ([], inl (api_error response))
      else
        match body response with
        | None => ([], inl "Response body is null")
        | Some chunks =>
            let st :=
              fold_left (process_chunk E options) chunks
                        {| fullAnswer := ""; notifications := [] |} in
            (notifications st,
             inr {| answer := JString (fullAnswer st);
                    responseTime := (settled times - dispatched times)%Z;
                    source := "openai-stream" |})
        end
  end.

(** How an answer request ends: resolved with a response, or rejected with
    an error of the given message. *)
Inductive Outcome : Type :=
| Completed (response : LLMResponse)
| Failed (message : string).

(** The [try]/[catch] of [getAnswer] around either path *)
Definition settle (r : string + LLMResponse) : Outcome :=
  match r with
  | inr response => Completed response
  | inl message => Failed ("Failed to get answer: " ++ message)%string
  end.

(** [getAnswer(question)]: [server] is what [fetch] settles with for a
    request; the result is the notifications and the outcome. *)
Definition getAnswer (E : Engine) (options : LLMOptions) (question : string)
                     (times : Times) (server : Request -> FetchResult)
  : list string * Outcome :=
  let fetched := server (requestOptions options question) in
  if match stream options with Some true => onStreamUpdate options | _ => false end
  then
    let '(log, r) := streamResponse E options times fetched in
    (log, settle r)
  else ([], settle (standardResponse E times fetched)).

(** The text delta a line contributes to the answer, if any *)
Definition line_delta (E : Engine) (line : string) : option string :=
  if startsWith line "data: " then
    match JSON_parse E (substring_from 6 line) with
    | inr data =>
        match first_choice_content E data "delta" with
        | inr v => if truthy E v then Some (ToString E v) else None
        | inl _ => None
        end
    | inl _ => None
    end
  else None.

(** The text deltas of a list of lines, and of a stream of chunks, in the
    order received *)
Definition lines_deltas (E : Engine) (lines : list string) : list string :=
  flat_map (fun line =>
              match line_delta E line with
              | Some d => [d]
              | None => []
              end)
           lines.

Definition stream_deltas (E : Engine) (chunks : list string) : list string :=
  flat_map (fun chunk => lines_deltas E (chunk_lines chunk)) chunks.

(** What receiving the deltas [ds] does to the state of the loop *)
Definition feed (options : LLMOptions) (st : StreamState) (ds : list string)
  : StreamState :=
  fold_left
    (fun st d =>
       {| fullAnswer := (fullAnswer st ++ d)%string;
          notifications :=
            if onStreamUpdate options
            then notifications st ++ [(fullAnswer st ++ d)%string]
            else notifications st |})
    ds st.

(** The buffers a stream of deltas goes through, from the buffer [acc] *)
Fixpoint running_buffers (acc : string) (deltas : list string) : list string :=
  match deltas with
  | [] => []
  | d :: r => (acc ++ d)%string :: running_buffers (acc ++ d) r
  end.

End OpenAIService.

(** ** Sample data for the answer service *)

Module ServiceSamples.
Import JsString Json OpenAIService.

(** [dq s] is [s] with every apostrophe turned into a double quote: the
    JSON texts below are written with apostrophes. *)
Fixpoint dq (s : string) : string :=
  match s with
  | EmptyString => EmptyString
  | String c r => String (if Ascii.eqb c "'" then "034"%char else c) (dq r)
  end.

(** An engine: messages in the style of V8, integer literals printed as
    written. *)
Definition engine : Engine :=
  {| number_toBoolean := fun literal => negb (String.eqb literal "0");
     number_toString := fun literal => literal;
     syntaxError_message := fun _ => "Unexpected token in JSON";
     typeError_message := fun is_null key =>
       ("Cannot read properties of "
        ++ (if is_null then "null" else "undefined")
        ++ " (reading '" ++ key ++ "')")%string |}.

Definition line_Hel : string :=
  dq "data: {'choices':[{'delta':{'content':'Hel'}}]}".

Definition line_lo : string :=
  dq "data: {'choices':[{'delta':{'content':'lo'}}]}".

Definition line_DONE : string := "data: [DONE]".

Definition newline : string := String "010" EmptyString.

(** The three lines of the streaming scenario, each its own chunk *)
Definition chunks_by_line : list string :=
  [ (line_Hel ++ newline)%string; (line_lo ++ newline)%string;
    (line_DONE ++ newline)%string ].

(** The same three lines delivered in one chunk *)
Definition chunks_at_once : list string :=
  [ (line_Hel ++ newline ++ newline ++ line_lo ++ newline ++ newline
     ++ line_DONE ++ newline ++ newline)%string ].

(** A stream in which a delta follows the [data: [DONE]] line *)
Definition chunks_delta_after_DONE : list string :=
  [ (line_Hel ++ newline)%string; (line_DONE ++ newline)%string;
    (line_lo ++ newline)%string ].

Definition chunks_until_DONE : list string :=
  [ (line_Hel ++ newline)%string ].

(** Options as [AnswerDisplay] passes them, after the constructors *)
Definition streaming_options : LLMOptions :=
  {| apiKey := Some "sk-test";
     model := Some "gpt-4o-mini";
     maxTokens := Some 400%Z;
     temperature := Some 0.3%float;
     stream := Some true;
     onStreamUpdate := true |}.

(** Options of a caller that gives a key and nothing else, after the
    constructors: the defaults set [stream], and there is no callback. *)
Definition default_options : LLMOptions :=
  {| apiKey := Some "sk-test";
     model := Some "gpt-4o-mini";
     maxTokens := Some 300%Z;
     temperature := Some 0.3%float;
     stream := Some true;
     onStreamUpdate := false |}.

Definition times : Times := {| dispatched := 1000%Z; settled := 1850%Z |}.

Definition server_of (r : Response) : Request -> FetchResult :=
  fun _ => Resolved r.

Definition unauthorized : Response :=
  {| status := 401%Z; body := Some [dq "{'error':"; dq "{'message':'bad key'}}"] |}.

End ServiceSamples.

(** ** The earlier version of the component (second document of
    TechnicalQuestionDetector.ts) *)

Module Legacy.
Import JsString.

(** [areSimilarQuestions(q1, q2)] as the earlier version of the component
    has it, with the similarity computed in place. *)
Definition areSimilarQuestions (q1 q2 : string) : bool :=
  let maxLength := Nat.max (String.length q1) (String.length q2) in
  if (maxLength =? 0)%nat then true
  else
    let distance :=
      Similarity.levenshteinDistance (toLowerCase q1) (toLowerCase q2) in
    let similarity :=
      (1 - JsNumber.of_nat distance / JsNumber.of_nat maxLength)%float in
    JsNumber.gt similarity 0.8%float.

End Legacy.

(** ** Checks on numbers, run by computation *)

Module NumberChecks.

(** The similarity test at distance 0, for the [n] lengths that follow the
    length whose number is [m]. *)
Fixpoint zero_distance_passes (n : nat) (m : float) : bool :=
  match n with
  | 0 => true
  | S k =>
      let m' := (m + 1)%float in
      JsNumber.gt (1 - JsNumber.of_nat 0 / m')%float 0.8%float
      && zero_distance_passes k m'
  end.

(** The longest text the check above is run for *)
Definition checked_length : nat := 100000.

End NumberChecks.

(** ** VoiceUI.tsx: the transcript handlers *)

Module VoicePipeline.
Import JsString Detector VoiceUI.

Record ProcessedSegment : Type := {
  segment_text : string;
  segment_timestamp : Z
}.

(** [isSegmentProcessed(segment)], over the [processedSegments] the
    function reads *)
Definition isSegmentProcessed (processedSegments : list ProcessedSegment)
                              (segment : string) : bool :=
  existsb (fun item =>
             JsNumber.gt (Similarity.calculateSimilarity (segment_text item) segment)
                         0.8%float)
          processedSegments.

(** The [forEach] of [processNewSpeechSegment] over the extracted
    questions; [clockAt k] is what the clock gives while candidate number
    [k] is analysed. *)
Definition analyzeCandidates (clockAt : nat -> Clock) (questions : list string)
                             (st : State) : State :=
  snd (fold_left
         (fun acc questionText =>
            let '(k, st) := acc in
            (S k,
             if (5 <? String.length questionText)%nat
             then analyzeQuestion (clockAt k) questionText st
             else st))
         questions (0, st)).

(** The pieces of component state the transcript handlers read and write *)
Record UI : Type := {
  isListening : bool;
  transcript : string;
  interimTranscript : string;
  error : string;
  processedSegments : list ProcessedSegment;
  registry : State
}.

(** The initial values given to [useState] *)
Definition initialUI : UI :=
  {| isListening := false;
     transcript := "";
     interimTranscript := "";
     error := "";
     processedSegments := [];
     registry := initial |}.

(** [processNewSpeechSegment(segment)]. [seen] is the [processedSegments]
    of the render whose closure runs (the handler is installed once, by an
    effect without dependencies); the updaters passed to the setters run on
    the current state. [now] is the clock reading stored with the segment. *)
Definition processNewSpeechSegment (seen : list ProcessedSegment) (now : Z)
                                   (clockAt : nat -> Clock) (segment : string)
                                   (ui : UI) : UI :=
  if isSegmentProcessed seen segment then ui
  else
    {| isListening := isListening ui;
       transcript := transcript ui;
       interimTranscript := interimTranscript ui;
       error := error ui;
       processedSegments :=
         processedSegments ui
         ++ [{| segment_text := segment; segment_timestamp := now |}];
       registry := analyzeSegment clockAt segment (registry ui) |}.

(** One entry of [event.results]: [isFinal] and the transcript of its first
    alternative *)
Record RecognitionResult : Type := {
  isFinal : bool;
  alternative0 : string
}.

Record SpeechRecognitionEvent : Type := {
  resultIndex : nat;
  results : list RecognitionResult
}.

(** The loop of [handleRecognitionResult]: the pair of [interim] and
    [final] *)
Definition collect (event : SpeechRecognitionEvent) : string * string :=
  fold_left
    (fun acc result =>
       let '(interim, final) := acc in
       if isFinal result
       then (interim, (final ++ alternative0 result)%string)
       else ((interim ++ alternative0 result)%string, final))
    (skipn (resultIndex event) (results event))
    ("", "").

(** [handleRecognitionResult(event)] *)
Definition handleRecognitionResult (seen : list ProcessedSegment) (now : Z)
                                   (clockAt : nat -> Clock)
                                   (event : SpeechRecognitionEvent)
                                   (ui : UI) : UI :=
  let '(interim, final) := collect event in
  if negb (String.eqb final "") then
    let ui := processNewSpeechSegment seen now clockAt final ui in
    {| isListening := isListening ui;
       transcript :=
         if negb (String.eqb (transcript ui) "")
         then (transcript ui ++ " " ++ final)%string
         else final;
       interimTranscript := "";
       error := error ui;
       processedSegments := processedSegments ui;
       registry := registry ui |}
  else
    {| isListening := isListening ui;
       transcript := transcript ui;
       interimTranscript := interim;
       error := error ui;
       processedSegments := processedSegments ui;
       registry := registry ui |}.

(** [recognition.onerror]: the message for an error code *)
Definition errorMessage (code : string) : string :=
  if String.eqb code "not-allowed" then
    "Microphone access denied. Please check your browser permissions and privacy settings."
  else if String.eqb code "no-speech" then
    "No speech detected. Please try speaking again."
  else if String.eqb code "audio-capture" then
    "No microphone was found or microphone is busy."
  else if String.eqb code "network" then
    "Network error occurred. Please check your connection."
  else ("Recognition error: " ++ code)%string.

Definition onerror (code : string) (ui : UI) : UI :=
  {| isListening := false;
     transcript := transcript ui;
     interimTranscript := interimTranscript ui;
     error := errorMessage code;
     processedSegments := processedSegments ui;
     registry := registry ui |}.

(** [clearTranscript()] *)
Definition clearTranscript (ui : UI) : UI :=
  {| isListening := isListening ui;
     transcript := "";
     interimTranscript := "";
     error := "";
     processedSegments := [];
     registry := registry ui |}.

(** [clearQuestions()] on the whole state *)
Definition clearQuestionsUI (ui : UI) : UI :=
  {| isListening := isListening ui;
     transcript := transcript ui;
     interimTranscript := interimTranscript ui;
     error := error ui;
     processedSegments := processedSegments ui;
     registry := clearQuestions (registry ui) |}.

(** [clearAll()] *)
Definition clearAll (ui : UI) : UI :=
  clearQuestionsUI (clearTranscript ui).

(** [selectQuestion(index)] on the whole state *)
Definition selectQuestionUI (index : Z) (ui : UI) : UI :=
  {| isListening := isListening ui;
     transcript := transcript ui;
     interimTranscript := interimTranscript ui;
     error := error ui;
     processedSegments := processedSegments ui;
     registry := selectQuestion index (registry ui) |}.

(** The events of the component *)
Inductive Event : Type :=
| Recognition (seen : list ProcessedSegment) (now : Z)
              (clockAt : nat -> Clock) (event : SpeechRecognitionEvent)
| RecognitionError (code : string)
| ClearTranscript
| ClearQuestions
| ClearAll
| SelectQuestion (index : Z).

Definition handle (ui : UI) (e : Event) : UI :=
  match e with
  | Recognition seen now clockAt event =>
      handleRecognitionResult seen now clockAt event ui
  | RecognitionError code => onerror code ui
  | ClearTranscript => clearTranscript ui
  | ClearQuestions => clearQuestionsUI ui
  | ClearAll => clearAll ui
  | SelectQuestion index => selectQuestionUI index ui
  end.

Definition handle_all (events : list Event) (ui : UI) : UI :=
  fold_left handle events ui.

(** The final text of a recognition event, and the transcript a sequence
    of final texts makes: the texts that are not empty, joined by one
    space. *)
Definition final_text (e : Event) : string :=
  match e with
  | Recognition _ _ _ event => snd (collect event)
  | _ => ""
  end.

Fixpoint join_spaced (texts : list string) : string :=
  match texts with
  | [] => ""
  | t :: rest =>
      if String.eqb t "" then join_spaced rest
      else match join_spaced rest with
           | EmptyString => t
           | r => (t ++ " " ++ r)%string
           end
  end.

(** Every selection of a run picks an index that is in range when it is
    made, as a click on a list item does. *)
Fixpoint selections_in_range (actions : list Action) (st : State) : Prop :=
  match actions with
  | [] => True
  | a :: rest =>
      match a with
      | Select index =>
          (0 <= index < Z.of_nat (List.length (detectedQuestions st)))%Z
      | _ => True
      end
      /\ selections_in_range rest (step st a)
  end.

End VoicePipeline.

(** ** Checks on the tables, run by computation *)

Module TableChecks.
Import JsString Detector.

(** The number of detected keywords a domain's vocabulary holds *)
Definition domain_count (keywords : list string) (vocabulary : list string) : nat :=
  fold_left
    (fun count keyword =>
       if array_includes vocabulary (toLowerCase keyword)
       then S count else count)
    keywords 0.

(** The keywords of all the domains, in the order they are scanned *)
Definition all_keywords : list string :=
  List.concat (map snd technicalKeywords).

(** For every keyword count up to the size of the tables: the threshold
    test is passed exactly from one keyword on with a question pattern and
    from three on without, and the confidence is between 0.2 and 0.95. *)
Definition confidence_table_ok : bool :=
  forallb
    (fun n =>
       let with_pattern := calculateConfidence true n 1 in
       let without := calculateConfidence false n 1 in
       Bool.eqb (JsNumber.gt with_pattern 0.6%float) (1 <=? n)%nat
       && Bool.eqb (JsNumber.gt without 0.6%float) (3 <=? n)%nat
       && (0.2 <=? with_pattern)%float && (with_pattern <=? 0.95)%float
       && (0.2 <=? without)%float && (without <=? 0.95)%float)
    (seq 0 (S (List.length all_keywords))).

(** The step of the keyword scan of [findTechnicalKeywords] *)
Definition scan_step (text : string) (matches : list string) (keyword : string)
  : list string :=
  if JsRegExp.test_word keyword text && negb (array_includes matches keyword)
  then matches ++ [keyword] else matches.

(** The step of the second loop of [determineTechnicalDomain] *)
Definition top_step (acc : nat * TechnicalDomain)
                    (entry : TechnicalDomain * nat) : nat * TechnicalDomain :=
  if (fst acc <? snd entry)%nat then (snd entry, fst entry) else acc.

End TableChecks.

(** ** Sample events of the component *)

Module PipelineSamples.
Import Detector VoiceUI VoicePipeline.

(** A recognition event that delivers one final result *)
Definition speech (text : string) : Event :=
  Recognition [] 1700000000000%Z (fun _ => Samples.noon)
    {| resultIndex := 0;
       results := [ {| isFinal := true; alternative0 := text |} ] |}.

(** A recognition event that delivers one interim result after a final
    one that an earlier event has already reported *)
Definition murmur (text : string) : Event :=
  Recognition [] 1700000000500%Z (fun _ => Samples.noon)
    {| resultIndex := 1;
       results := [ {| isFinal := true; alternative0 := "earlier" |};
                    {| isFinal := false; alternative0 := text |} ] |}.

Definition events : list Event :=
  [ speech "What is docker? How do I use python?";
    murmur "and then";
    speech "what is docker";
    RecognitionError "no-speech";
    speech "nice weather today" ].

End PipelineSamples.

(** ** components/AnswerDisplay.tsx *)

Module AnswerDisplay.
Import JsString Json OpenAIService.

(** The state of the component *)
Record DisplayState : Type := {
  shown_answer : JsValue;
  isLoading : bool;
  shown_error : string;
  shown_responseTime : Z;
  isStreaming : bool
}.

(** The initial values given to [useState] *)
Definition initialDisplay : DisplayState :=
  {| shown_answer := JString "";
     isLoading := false;
     shown_error := "";
     shown_responseTime := 0%Z;
     isStreaming := false |}.

(** The effect that runs when the API key changes *)
Definition onApiKeyChange (apiKey : string) (st : DisplayState) : DisplayState :=
  if String.eqb apiKey "" then st
  else
    {| shown_answer := JString "";
       isLoading := isLoading st;
       shown_error := "";
       shown_responseTime := 0%Z;
       isStreaming := isStreaming st |}.

(** The options the handler builds the service from *)
Definition display_options (apiKey : string) : LLMOptions :=
  {| apiKey := Some apiKey;
     model := None;
     maxTokens := Some 400%Z;
     temperature := Some 0.3%float;
     stream := Some true;
     onStreamUpdate := true |}.

Definition with_answer (st : DisplayState) (v : JsValue) : DisplayState :=
  {| shown_answer := v;
     isLoading := isLoading st;
     shown_error := shown_error st;
     shown_responseTime := shown_responseTime st;
     isStreaming := isStreaming st |}.

(** [getAnswer] of the component, for the question text of the question
    prop ([None] for [null]) and the key prop: the states the component
    goes through, one per update, the last being the state it is left in.
    The service is built outside the [try]: were the constructor to throw,
    the handler would stop after its first update. *)
Definition clickGetAnswer (E : Engine) (question : option string)
                          (apiKey : string) (times : Times)
                          (server : Request -> FetchResult)
                          (st : DisplayState) : list DisplayState :=
  match question with
  | Some questionText =>
      if String.eqb apiKey "" then
        [ {| shown_answer := shown_answer st;
             isLoading := isLoading st;
             shown_error := "API key is required to get answers";
             shown_responseTime := shown_responseTime st;
             isStreaming := isStreaming st |} ]
      else
        let started :=
          {| shown_answer := JString "";
             isLoading := true;
             shown_error := "";
             shown_responseTime := shown_responseTime st;
             isStreaming := true |} in
        match OpenAIService_new (display_options apiKey) with
        | inl _ => [started]
        | inr options =>
            let '(log, outcome) :=
              getAnswer E options questionText times server in
            let partials :=
              map (fun partial => with_answer started (JString partial)) log in
            let before_settling := last partials started in
            let settled_state :=
              match outcome with
              | Completed response =>
                  {| shown_answer := answer response;
                     isLoading := false;
                     shown_error := "";
                     shown_responseTime := responseTime response;
                     isStreaming := false |}
              | Failed message =>
                  {| shown_answer := shown_answer before_settling;
                     isLoading := false;
                     shown_error := ("Error getting answer: " ++ message)%string;
                     shown_responseTime := shown_responseTime st;
                     isStreaming := false |}
              end in
            started :: partials ++ [settled_state]
        end
  | None =>
      [ {| shown_answer := shown_answer st;
           isLoading := isLoading st;
           shown_error := "API key is required to get answers";
           shown_responseTime := shown_responseTime st;
           isStreaming := isStreaming st |} ]
  end.

(** The state the handler leaves the component in *)
Definition afterGetAnswer (E : Engine) (question : option string)
                          (apiKey : string) (times : Times)
                          (server : Request -> FetchResult)
                          (st : DisplayState) : DisplayState :=
  last (clickGetAnswer E question apiKey times server st) st.

(** The options of the service the handler builds, defaults filled in *)
Definition built_options (key : string) : LLMOptions :=
  {| apiKey := Some key;
     model := Some "gpt-4o-mini";
     maxTokens := Some 400%Z;
     temperature := Some 0.3%float;
     stream := Some true;
     onStreamUpdate := true |}.

End AnswerDisplay.

(** ** Clock readings of a run, and a run whose clock ticks *)

Module ClockSamples.
Import Detector VoiceUI.

(** The readings of [Date.now()] of the insertions of a run, in order *)
Fixpoint analyze_times (actions : list Action) : list Z :=
  match actions with
  | [] => []
  | Analyze clock _ :: rest => now clock :: analyze_times rest
  | _ :: rest => analyze_times rest
  end.

Definition a_millisecond_later : Clock :=
  {| now := 1700000000001%Z; localeTime := "12:00:00 PM" |}.

Definition ticking_session : list Action :=
  [ Analyze Samples.noon "What is docker?";
    Select 0%Z;
    Analyze a_millisecond_later "How do I use python?" ].

End ClockSamples.

(** ** Relations on texts *)

Module TextRelations.

(** One string starts another *)
Definition is_prefix (p s : string) : Prop := exists d, s = (p ++ d)%string.

(** [a ?? b] on an optional value *)
Definition or_default {A} (a : option A) (b : A) : A :=
  match a with Some v => v | None => b end.

(** The texts on which the strings of this development and those of the
    program are the same thing, character by character: every character
    is an ASCII character. On them [toLowerCase] maps A to Z and nothing
    else, and keeps the length. *)
Definition is_ascii_text (s : string) : bool :=
  forallb (fun c => (nat_of_ascii c <? 128)%nat) (JsString.chars s).

End TextRelations.

(** ** What [\bkeyword\b] matches, stated on the text *)

Module WordMatch.
Import JsString JsRegExp.

Definition first_char (s : string) : option ascii :=
  match s with String c _ => Some c | EmptyString => None end.

Fixpoint last_char (s : string) : option ascii :=
  match s with
  | EmptyString => None
  | String c r => match last_char r with Some d => Some d | None => Some c end
  end.

(** The last character of [s], or [prev] when [s] is empty *)
Definition last_or (prev : option ascii) (s : string) : option ascii :=
  match last_char s with Some c => Some c | None => prev end.

(** A character next to a position is a word character, [A-Za-z0-9_];
    there is none at either end of the text. *)
Definition is_word (c : option ascii) : bool :=
  match c with Some c => is_word_char c | None => false end.

(** [\b] holds between [before] and [after]: exactly one of the two
    characters next to the position is a word character. *)
Definition word_boundary (before after : string) : Prop :=
  is_word (last_char before) <> is_word (first_char after).

(** Equal up to the case of the letters A to Z, which is how the [i] flag
    compares the characters of such a keyword with those of the text. *)
Definition same_letters (x y : string) : Prop :=
  map lower_char (chars x) = map lower_char (chars y).

(** The text holds the keyword, in either case, between two word
    boundaries. *)
Definition occurrence (keyword text : string) : Prop :=
  exists before found after,
    text = (before ++ found ++ after)%string
    /\ same_letters found keyword
    /\ word_boundary before (found ++ after)
    /\ word_boundary (before ++ found) after.

End WordMatch.

(** * Properties *)

(** ** The matrix of [levenshteinDistance], entry by entry *)

Module LevMatrix.
Import JsString Similarity.

Lemma cost_sym x y : cost x y = cost y x.
Proof. unfold cost. now rewrite Ascii.eqb_sym. Qed.

Lemma min3_swap x y z : min3 x y z = min3 y x z.
Proof. unfold min3. now rewrite (Nat.min_comm x y). Qed.

Lemma matrix_entry_transpose a b i :
  forall j, matrix_entry a b i j = matrix_entry b a j i.
Proof.
  induction i as [|i IHi]; intro j.
  - destruct j; reflexivity.
  - induction j as [|j IHj].
    + reflexivity.
    + cbn [matrix_entry]. cbn [matrix_entry] in IHj.
      rewrite IHj, (IHi (S j)), (IHi j), (cost_sym (nth j a Ascii.zero)).
      apply min3_swap.
Qed.

Lemma fill_row_entries a b i pre :
  forall suf, a = pre ++ suf ->
    fill_row (nth i b Ascii.zero) suf
             (matrix_entry a b i (List.length pre))
             (map (matrix_entry a b i) (seq (S (List.length pre)) (List.length suf)))
             (matrix_entry a b (S i) (List.length pre))
    = map (matrix_entry a b (S i)) (seq (S (List.length pre)) (List.length suf)).
Proof.
  intros suf; revert pre.
  induction suf as [|aj suf IH]; intros pre E; [reflexivity|].
  cbn [List.length seq map fill_row].
  assert (Hn : nth (List.length pre) a Ascii.zero = aj)
    by (subst a; rewrite app_nth2, Nat.sub_diag by lia; reflexivity).
  assert (Hv : min3 (matrix_entry a b i (S (List.length pre)) + 1)
                    (matrix_entry a b (S i) (List.length pre) + 1)
                    (matrix_entry a b i (List.length pre) + cost aj (nth i b Ascii.zero))
               = matrix_entry a b (S i) (S (List.length pre)))
    by (cbn [matrix_entry]; now rewrite Hn).
  rewrite Hv. f_equal.
  specialize (IH (pre ++ [aj])).
  rewrite length_app, Nat.add_1_r in IH.
  apply IH. now rewrite <- app_assoc.
Qed.

Lemma next_row_entries a b i :
  next_row a (S i) (nth i b Ascii.zero) (matrix_row a b i) = matrix_row a b (S i).
Proof.
  unfold matrix_row, next_row. cbn [seq map].
  f_equal. rewrite <- !seq_shift, !map_map.
  pose proof (fill_row_entries a b i [] a eq_refl) as H.
  cbn [List.length] in H. rewrite <- !seq_shift, !map_map in H. exact H.
Qed.

Lemma fill_rows_entries a b pre :
  forall suf, b = pre ++ suf ->
    fill_rows a (S (List.length pre)) suf (matrix_row a b (List.length pre))
    = matrix_row a b (List.length b).
Proof.
  intros suf; revert pre.
  induction suf as [|bi suf IH]; intros pre E.
  - cbn. subst b. now rewrite app_nil_r.
  - cbn [fill_rows].
    assert (Hn : nth (List.length pre) b Ascii.zero = bi)
      by (subst b; rewrite app_nth2, Nat.sub_diag by lia; reflexivity).
    rewrite <- Hn, next_row_entries.
    specialize (IH (pre ++ [bi])).
    rewrite length_app, Nat.add_1_r in IH.
    apply IH. now rewrite <- app_assoc.
Qed.

Lemma last_matrix_row a b i :
  last (matrix_row a b i) 0 = matrix_entry a b i (List.length a).
Proof.
  unfold matrix_row. rewrite seq_S, map_app. cbn [map].
  now rewrite last_last.
Qed.

(** The loops compute the entry in the last row and last column. *)
Lemma levenshteinDistance_entry a b :
  levenshteinDistance a b
  = matrix_entry (chars a) (chars b)
                 (List.length (chars b)) (List.length (chars a)).
Proof.
  unfold levenshteinDistance. cbv zeta.
  assert (R0 : seq 0 (S (List.length (chars a)))
               = matrix_row (chars a) (chars b) 0).
  { unfold matrix_row. cbn [matrix_entry]. now rewrite map_id. }
  pose proof (fill_rows_entries (chars a) (chars b) [] (chars b) eq_refl) as H.
  change (List.length (@nil ascii)) with 0 in H.
  rewrite R0, H. apply last_matrix_row.
Qed.

Lemma levenshteinDistance_sym a b :
  levenshteinDistance a b = levenshteinDistance b a.
Proof.
  rewrite !levenshteinDistance_entry. apply matrix_entry_transpose.
Qed.

End LevMatrix.

Example lev_kitten : Similarity.levenshteinDistance "kitten" "sitting" = 3.
Proof. reflexivity. Qed.

Example sim_mutex :
  Similarity.areSimilarQuestions "How do I use a mutex?" "How do I use a mutex" = true.
Proof. vm_compute. reflexivity. Qed.

(** C8. [calculateSimilarity] is symmetric: for every pair of strings [a]
    and [b], the similarity of [a] and [b] is the similarity of [b] and
    [a]. *)
Theorem calculateSimilarity_symmetric (a b : string) :
  Similarity.calculateSimilarity a b = Similarity.calculateSimilarity b a.
Proof.
  unfold Similarity.calculateSimilarity.
  rewrite (Nat.max_comm (String.length b)).
  now rewrite (LevMatrix.levenshteinDistance_sym (JsString.toLowerCase b)).
Qed.

(** ** The classifier's confidence *)

Module DetectorFacts.
Import JsString JsNumber Detector.

Lemma determineTechnicalDomain_count keywords :
  snd (determineTechnicalDomain keywords) = List.length keywords.
Proof.
  unfold determineTechnicalDomain.
  destruct (List.length keywords =? 0)%nat eqn:E; cbn [snd].
  - apply Nat.eqb_eq in E. now rewrite E.
  - reflexivity.
Qed.

Lemma length_zero_empty (s : string) : String.length s = 0 -> s = "".
Proof. destruct s; [reflexivity | discriminate]. Qed.

(** No keyword occurs in the empty text. *)
Lemma findTechnicalKeywords_empty : findTechnicalKeywords "" = [].
Proof. vm_compute. reflexivity. Qed.

(** With no keyword the weight added to the base is zero, and adding it
    leaves both bases as they are. *)
Lemma zero_weight (isQuestionLike : bool) :
  ((if isQuestionLike then 0.5 else 0.2)
   + Math_min (of_nat 0 * 0.15) 0.45)%float
  = (if isQuestionLike then 0.5 else 0.2)%float.
Proof. destruct isQuestionLike; vm_compute; reflexivity. Qed.

End DetectorFacts.

Example classify_function_javascript :
  Detector.detectTechnicalQuestion "what is a function in javascript?"
  = {| Detector.isTechnical := true;
       Detector.confidence := 0.8%float;
       Detector.category := Some Detector.Programming;
       Detector.detectedKeywords := ["function"; "javascript"] |}.
Proof. vm_compute. reflexivity. Qed.

Example classify_weather :
  Detector.detectTechnicalQuestion "nice weather today"
  = {| Detector.isTechnical := false;
       Detector.confidence := 0.2%float;
       Detector.category := None;
       Detector.detectedKeywords := [] |}.
Proof. vm_compute. reflexivity. Qed.

(** C2. For every input text, the confidence [detectTechnicalQuestion]
    returns is [min(base + min(matchedKeywordCount * 0.15, 0.45), 0.95)],
    where [base] is 0.5 when a question pattern matches the cleaned text and
    0.2 otherwise and [matchedKeywordCount] is the number of detected
    keywords; [isTechnical] holds iff the confidence is strictly greater
    than 0.6; and the result has a category iff [isTechnical] is true. *)
Theorem detect_confidence_formula (text : string) :
  let r := Detector.detectTechnicalQuestion text in
  let hasPattern :=
    Detector.hasQuestionPattern (JsString.toLowerCase (JsString.trim text)) in
  let base := (if hasPattern then 0.5 else 0.2)%float in
  let matchedKeywordCount :=
    JsNumber.of_nat (List.length (Detector.detectedKeywords r)) in
  Detector.confidence r
  = JsNumber.Math_min
      (base + JsNumber.Math_min (matchedKeywordCount * 0.15) 0.45)%float
      0.95%float
  /\ (Detector.isTechnical r = true
      <-> JsNumber.gt (Detector.confidence r) 0.6%float = true)
  /\ (Detector.category r <> None <-> Detector.isTechnical r = true).
Proof.
  cbv zeta. unfold Detector.detectTechnicalQuestion.
  set (clean := JsString.toLowerCase (JsString.trim text)).
  pose proof (DetectorFacts.determineTechnicalDomain_count
                (Detector.findTechnicalKeywords clean)) as Hcount.
  destruct (Detector.determineTechnicalDomain
              (Detector.findTechnicalKeywords clean)) as [cat count].
  cbn [snd] in Hcount. subst count.
  cbn [Detector.confidence Detector.isTechnical Detector.category
       Detector.detectedKeywords].
  split; [|split].
  - unfold Detector.calculateConfidence.
    destruct (0 <? String.length clean)%nat eqn:Hlen; [reflexivity|].
    apply Nat.ltb_ge in Hlen.
    assert (Hempty : clean = "")
      by (apply DetectorFacts.length_zero_empty; lia).
    rewrite Hempty, DetectorFacts.findTechnicalKeywords_empty.
    cbn [List.length]. now rewrite DetectorFacts.zero_weight.
  - reflexivity.
  - destruct (JsNumber.gt _ _); split; congruence.
Qed.

(** ** Question extraction *)

(** C1, as stated, fails: the utterance does not yield the two candidates
    ["I need help with docker"] and ["What is kubernetes?"]; its first
    sentence is followed by a full stop and neither starts with nor
    contains, between spaces, any of [questionIndicators]. *)
Lemma extract_docker_kubernetes_not_two :
  VoiceUI.extractQuestions "I need help with docker. What is kubernetes?"
  <> ["I need help with docker"; "What is kubernetes?"].
Proof. vm_compute. discriminate. Qed.

(** C1, amended. [extractQuestions] applied to the utterance
    ["I need help with docker. What is kubernetes?"] returns exactly one
    candidate, ["What is kubernetes?"]: the sentence followed by the
    question mark. *)
Theorem extract_docker_kubernetes :
  VoiceUI.extractQuestions "I need help with docker. What is kubernetes?"
  = ["What is kubernetes?"].
Proof. vm_compute. reflexivity. Qed.

(** ** The question registry *)

Module RegistryFacts.
Import Detector VoiceUI.

Lemma areSimilarQuestions_sym a b :
  Similarity.areSimilarQuestions a b = Similarity.areSimilarQuestions b a.
Proof.
  unfold Similarity.areSimilarQuestions.
  unfold Similarity.calculateSimilarity.
  rewrite (Nat.max_comm (String.length b)).
  now rewrite (LevMatrix.levenshteinDistance_sym (JsString.toLowerCase b)).
Qed.

Lemma dissimilar_nil : dissimilar_in_order [].
Proof. intros i j qi qj _ H. destruct i; discriminate. Qed.

Lemma dissimilar_snoc qs q :
  dissimilar_in_order qs ->
  existsb (fun p => Similarity.areSimilarQuestions (text p) (text q)) qs = false ->
  dissimilar_in_order (qs ++ [q]).
Proof.
  intros Hqs Hnew i j qi qj Hij Hi Hj.
  assert (Hjlen : j < List.length (qs ++ [q]))
    by (apply nth_error_Some; congruence).
  rewrite length_app in Hjlen. cbn [List.length] in Hjlen.
  rewrite nth_error_app1 in Hi by lia.
  destruct (Nat.eq_dec j (List.length qs)) as [-> | Hne].
  - rewrite nth_error_app2, Nat.sub_diag in Hj by lia.
    injection Hj as <-.
    apply nth_error_In in Hi.
    destruct (Similarity.areSimilarQuestions (text qi) (text q)) eqn:E;
      [|reflexivity].
    assert (existsb (fun p => Similarity.areSimilarQuestions (text p) (text q)) qs
            = true) by (apply existsb_exists; eauto).
    congruence.
  - rewrite nth_error_app1 in Hj by lia. eauto.
Qed.

Lemma step_dissimilar st a :
  dissimilar_in_order (detectedQuestions st) ->
  dissimilar_in_order (detectedQuestions (step st a)).
Proof.
  intro H. destruct a as [clock questionText | | index]; cbn [step].
  - unfold analyzeQuestion.
    destruct (createTechnicalQuestion clock questionText) as [question|];
      [|exact H].
    destruct (existsb _ (detectedQuestions st)) eqn:E; [exact H|].
    cbn [detectedQuestions]. now apply dissimilar_snoc.
  - apply dissimilar_nil.
  - exact H.
Qed.

Lemma run_dissimilar actions :
  forall st, dissimilar_in_order (detectedQuestions st) ->
             dissimilar_in_order (detectedQuestions (run actions st)).
Proof.
  unfold run. induction actions as [|a actions IH]; intros st H; [exact H|].
  cbn [fold_left]. apply IH. now apply step_dissimilar.
Qed.

Lemma record_text i t ts c f q :
  Some {| id := i; text := t; timestamp := ts;
          question_category := c; question_confidence := f |} = Some q ->
  text q = t.
Proof. intros [= <-]. reflexivity. Qed.

(** The text of a created question is the trimmed candidate. *)
Lemma created_text clock questionText q :
  createTechnicalQuestion clock questionText = Some q ->
  text q = JsString.trim questionText.
Proof.
  unfold createTechnicalQuestion.
  destruct (isTechnical (detectTechnicalQuestion questionText));
    cbn [negb]; intro H; [|discriminate H].
  exact (record_text _ _ _ _ _ _ H).
Qed.

End RegistryFacts.

(** C4, as stated, fails: the candidate ["  docker?"] has similarity 8/9,
    above 0.8, with the entry ["d docker?"], and it is inserted all the
    same, as ["docker?"]: the duplicate test is made on the trimmed text,
    whose similarity with the entry is 7/9. *)
Lemma similar_untrimmed_candidate_is_inserted :
  map Detector.text
      (VoiceUI.detectedQuestions
         (VoiceUI.run [VoiceUI.Analyze Samples.noon "d docker?"] VoiceUI.initial))
  = ["d docker?"]
  /\ JsNumber.gt (Similarity.calculateSimilarity "d docker?" "  docker?")
                 0.8%float = true
  /\ map Detector.text
         (VoiceUI.detectedQuestions
            (VoiceUI.analyzeQuestion Samples.noon "  docker?"
               (VoiceUI.run [VoiceUI.Analyze Samples.noon "d docker?"]
                            VoiceUI.initial)))
     = ["d docker?"; "docker?"].
Proof. split; [|split]; vm_compute; reflexivity. Qed.

(** C4, amended. After any sequence of insertions, selections and clears,
    no two distinct live entries of the registry pass the similarity test
    [similarity > 0.8] (their similarity is at most 0.8), and an insertion
    whose candidate, once trimmed, passes that test against some entry
    leaves the registry as it is. *)
Theorem registry_pairwise_dissimilar (actions : list VoiceUI.Action) :
  let st := VoiceUI.run actions VoiceUI.initial in
  (forall i j qi qj,
      i <> j ->
      nth_error (VoiceUI.detectedQuestions st) i = Some qi ->
      nth_error (VoiceUI.detectedQuestions st) j = Some qj ->
      JsNumber.gt (Similarity.calculateSimilarity (Detector.text qi) (Detector.text qj))
                  0.8%float = false)
  /\ (forall clock questionText entry,
         In entry (VoiceUI.detectedQuestions st) ->
         JsNumber.gt (Similarity.calculateSimilarity (Detector.text entry)
                                                     (JsString.trim questionText))
                     0.8%float = true ->
         VoiceUI.analyzeQuestion clock questionText st = st).
Proof.
  cbv zeta.
  pose proof (RegistryFacts.run_dissimilar actions VoiceUI.initial
                RegistryFacts.dissimilar_nil) as Inv.
  split.
  - intros i j qi qj Hij Hi Hj.
    change (Similarity.areSimilarQuestions (Detector.text qi) (Detector.text qj)
            = false).
    destruct (Nat.lt_ge_cases i j) as [Hlt | Hge].
    + exact (Inv i j qi qj Hlt Hi Hj).
    + rewrite RegistryFacts.areSimilarQuestions_sym.
      apply (Inv j i qj qi); [lia | assumption | assumption].
  - intros clock questionText entry Hin Hsim.
    unfold VoiceUI.analyzeQuestion.
    destruct (Detector.createTechnicalQuestion clock questionText)
      as [question|] eqn:Hq; [|reflexivity].
    apply RegistryFacts.created_text in Hq.
    assert (E : existsb
                  (fun q => Similarity.areSimilarQuestions (Detector.text q)
                                                           (Detector.text question))
                  (VoiceUI.detectedQuestions (VoiceUI.run actions VoiceUI.initial))
                = true).
    { apply existsb_exists. exists entry. split; [exact Hin|].
      rewrite Hq. exact Hsim. }
    now rewrite E.
Qed.

(** A run of C4: in the sample session the two live entries are dissimilar,
    and inserting ["  what is docker "], which once trimmed differs from
    the first entry by one letter case and the question mark, is rejected. *)
Lemma registry_pairwise_dissimilar_witness :
  (0 <> 1
   /\ nth_error (VoiceUI.detectedQuestions
                   (VoiceUI.run Samples.session VoiceUI.initial)) 0
      = Some Samples.docker_question
   /\ nth_error (VoiceUI.detectedQuestions
                   (VoiceUI.run Samples.session VoiceUI.initial)) 1
      = Some Samples.python_question
   /\ JsNumber.gt (Similarity.calculateSimilarity
                     (Detector.text Samples.docker_question)
                     (Detector.text Samples.python_question))
                  0.8%float = false)
  /\ (In Samples.docker_question
         (VoiceUI.detectedQuestions
            (VoiceUI.run Samples.session VoiceUI.initial))
      /\ JsNumber.gt (Similarity.calculateSimilarity
                        (Detector.text Samples.docker_question)
                        (JsString.trim "  what is docker "))
                     0.8%float = true
      /\ VoiceUI.analyzeQuestion Samples.noon "  what is docker "
           (VoiceUI.run Samples.session VoiceUI.initial)
         = VoiceUI.run Samples.session VoiceUI.initial).
Proof.
  split.
  - split; [lia|]. split; [vm_compute; reflexivity|].
    split; [vm_compute; reflexivity|].
    apply (proj1 (registry_pairwise_dissimilar Samples.session) 0 1
                 Samples.docker_question Samples.python_question);
      [lia | vm_compute; reflexivity | vm_compute; reflexivity].
  - split; [vm_compute; left; reflexivity|].
    split; [vm_compute; reflexivity|].
    apply (proj2 (registry_pairwise_dissimilar Samples.session)
                 Samples.noon "  what is docker " Samples.docker_question);
      [vm_compute; left; reflexivity | vm_compute; reflexivity].
Defined.

(** C6, as stated, fails: on the empty registry the index 3 is out of range,
    and [selectQuestion 3] changes the selection from -1 to 3. *)
Lemma select_out_of_range_changes_selection :
  ~ (0 <= 3 < Z.of_nat (List.length (VoiceUI.detectedQuestions VoiceUI.initial)))%Z
  /\ VoiceUI.currentQuestionIndex (VoiceUI.selectQuestion 3 VoiceUI.initial) = 3%Z
  /\ VoiceUI.currentQuestionIndex VoiceUI.initial = (-1)%Z.
Proof. split; [cbn; lia|]. split; reflexivity. Qed.

(** C6, amended. For every registry state and every integer index,
    [selectQuestion index] sets the selected-question pointer to [index]
    and leaves the question list as it is; the bounds are checked where the
    selection is read: the selected-question panel shows the entry at
    [index] when [0 <= index < length] and no entry otherwise. *)
Theorem selectQuestion_sets_pointer (st : VoiceUI.State) (index : Z) :
  VoiceUI.currentQuestionIndex (VoiceUI.selectQuestion index st) = index
  /\ VoiceUI.detectedQuestions (VoiceUI.selectQuestion index st)
     = VoiceUI.detectedQuestions st
  /\ ((0 <= index < Z.of_nat (List.length (VoiceUI.detectedQuestions st)))%Z
      <-> exists q,
          VoiceUI.selectedQuestion (VoiceUI.selectQuestion index st) = Some q
          /\ nth_error (VoiceUI.detectedQuestions st) (Z.to_nat index) = Some q)
  /\ (~ (0 <= index < Z.of_nat (List.length (VoiceUI.detectedQuestions st)))%Z
      <-> VoiceUI.selectedQuestion (VoiceUI.selectQuestion index st) = None).
Proof.
  split; [reflexivity|]. split; [reflexivity|].
  unfold VoiceUI.selectedQuestion, VoiceUI.selectQuestion.
  cbn [VoiceUI.currentQuestionIndex VoiceUI.detectedQuestions].
  set (qs := VoiceUI.detectedQuestions st).
  destruct ((0 <=? index) && (index <? Z.of_nat (List.length qs)))%Z eqn:E.
  - apply andb_true_iff in E. destruct E as [E1 E2].
    apply Z.leb_le in E1. apply Z.ltb_lt in E2.
    assert (Hlt : Z.to_nat index < List.length qs) by lia.
    apply nth_error_Some in Hlt.
    destruct (nth_error qs (Z.to_nat index)) as [q|] eqn:Hq; [|congruence].
    split; split.
    + intros _. exists q. split; reflexivity.
    + intros _. lia.
    + intros Hout. exfalso. apply Hout. lia.
    + discriminate.
  - assert (Hout : ~ (0 <= index < Z.of_nat (List.length qs))%Z).
    { intros [H1 H2]. apply Z.leb_le in H1. apply Z.ltb_lt in H2.
      rewrite H1, H2 in E. discriminate. }
    split; split.
    + intros Hin. contradiction.
    + intros [q [Hq _]]. discriminate.
    + reflexivity.
    + intros _. exact Hout.
Qed.

(** ** Identifiers of detected questions *)

Module IdFacts.
Import Detector.

Lemma to_int_not_nil (z : Z) :
  Z.to_int z <> Decimal.Pos Decimal.Nil /\ Z.to_int z <> Decimal.Neg Decimal.Nil.
Proof.
  destruct z as [|p|p]; cbn; split; try discriminate;
    intros [= H]; now apply DecimalPos.Unsigned.to_uint_nonnil in H.
Qed.

(** The decimal string of an integer determines it. *)
Lemma integer_toString_inj (a b : Z) :
  JsNumber.integer_toString a = JsNumber.integer_toString b -> a = b.
Proof.
  unfold JsNumber.integer_toString. intro H.
  apply (f_equal DecimalString.NilZero.int_of_string) in H.
  destruct (to_int_not_nil a) as [Ha1 Ha2].
  destruct (to_int_not_nil b) as [Hb1 Hb2].
  rewrite !DecimalString.NilZero.isi in H by assumption.
  injection H as H. now apply DecimalZ.to_int_inj.
Qed.

(** Questions built at different readings of the clock have different
    identifiers. *)
Lemma different_millisecond_different_id clock1 clock2 text1 text2 q1 q2 :
  createTechnicalQuestion clock1 text1 = Some q1 ->
  createTechnicalQuestion clock2 text2 = Some q2 ->
  now clock1 <> now clock2 ->
  id q1 <> id q2.
Proof.
  unfold createTechnicalQuestion. intros H1 H2 Hne Heq.
  destruct (negb (isTechnical (detectTechnicalQuestion text1)));
    [discriminate H1|].
  destruct (negb (isTechnical (detectTechnicalQuestion text2)));
    [discriminate H2|].
  apply (f_equal (option_map id)) in H1, H2.
  cbn [option_map id] in H1, H2.
  apply Hne, integer_toString_inj. congruence.
Qed.

End IdFacts.

(** C9: the code at the failing input. The segment
    ["What is docker? How do I use python?"] yields two candidates, analysed
    one after the other in the same handler; when the clock gives the same
    millisecond for both, both are accepted and the two live entries carry
    the same [id]. *)
Theorem same_millisecond_same_id :
  let st := VoiceUI.analyzeSegment (fun _ => Samples.noon)
              "What is docker? How do I use python?" VoiceUI.initial in
  VoiceUI.detectedQuestions st
  = [Samples.docker_question; Samples.python_question]
  /\ Detector.text Samples.docker_question <> Detector.text Samples.python_question
  /\ Detector.id Samples.docker_question = Detector.id Samples.python_question.
Proof.
  cbv zeta. split; [vm_compute; reflexivity|].
  split; [discriminate | reflexivity].
Qed.

(** ** The answer service *)

Module StringFacts.
Import JsString.

Lemma append_nil_r (s : string) : (s ++ "")%string = s.
Proof. induction s as [|c s IH]; cbn; [reflexivity | now rewrite IH]. Qed.

Lemma append_assoc (a b c : string) :
  ((a ++ b) ++ c)%string = (a ++ (b ++ c))%string.
Proof. induction a as [|x a IH]; cbn; [reflexivity | now rewrite IH]. Qed.

Lemma concat_all_app (xs ys : list string) :
  concat_all (xs ++ ys) = (concat_all xs ++ concat_all ys)%string.
Proof.
  induction xs as [|x xs IH]; cbn; [reflexivity|].
  now rewrite IH, append_assoc.
Qed.

Lemma startsWith_append (p s : string) : startsWith (p ++ s) p = true.
Proof.
  induction p as [|c p IH]; cbn; [now destruct s|].
  now rewrite Ascii.eqb_refl, IH.
Qed.

Lemma includes_startsWith (s p : string) :
  startsWith s p = true -> includes s p = true.
Proof. destruct s; cbn [includes]; intros ->; reflexivity. Qed.

Lemma includes_append (a p b : string) :
  includes (a ++ p ++ b) p = true.
Proof.
  induction a as [|c a IH].
  - cbn [append]. apply includes_startsWith, startsWith_append.
  - cbn [append includes]. rewrite IH. apply orb_true_r.
Qed.

Lemma split_char_cons (sep : ascii) (s : string) :
  exists p ps, split_char sep s = p :: ps.
Proof.
  induction s as [|c s [p [ps IH]]]; cbn; [eauto|].
  destruct (Ascii.eqb c sep); [eauto|]. rewrite IH. eauto.
Qed.

Lemma split_char_append (sep : ascii) (a b : string) :
  split_char sep (a ++ String sep b) = split_char sep a ++ split_char sep b.
Proof.
  induction a as [|c a IH]; cbn.
  - now rewrite Ascii.eqb_refl.
  - destruct (Ascii.eqb c sep); rewrite IH; [reflexivity|].
    destruct (split_char_cons sep a) as [p [ps ->]]. reflexivity.
Qed.

End StringFacts.

Module StreamFacts.
Import JsString Json OpenAIService.

Lemma JSON_parse_DONE (E : Engine) :
  JSON_parse E "[DONE]" = inl (syntaxError_message E "[DONE]").
Proof. vm_compute. reflexivity. Qed.

(** A line changes the state of the loop by the delta it carries. *)
Lemma process_line_delta E options st line :
  process_line E options st line
  = feed options st (lines_deltas E [line]).
Proof.
  unfold process_line, lines_deltas, line_delta. cbn [flat_map].
  destruct (startsWith line "data: "); [|reflexivity].
  destruct (String.eqb_spec (substring_from 6 line) "[DONE]") as [-> | _].
  - now rewrite JSON_parse_DONE.
  - destruct (JSON_parse E (substring_from 6 line)) as [m | data]; [reflexivity|].
    destruct (first_choice_content E data "delta") as [m | v]; [reflexivity|].
    unfold or_else. destruct (truthy E v) eqn:T.
    + rewrite T. reflexivity.
    + reflexivity.
Qed.

Lemma feed_app options st ds1 ds2 :
  feed options st (ds1 ++ ds2) = feed options (feed options st ds1) ds2.
Proof. apply fold_left_app. Qed.

Lemma lines_deltas_app E ls1 ls2 :
  lines_deltas E (ls1 ++ ls2) = lines_deltas E ls1 ++ lines_deltas E ls2.
Proof. apply flat_map_app. Qed.

Lemma fold_lines E options lines :
  forall st,
    fold_left (process_line E options) lines st
    = feed options st (lines_deltas E lines).
Proof.
  induction lines as [|line lines IH]; intro st; [reflexivity|].
  cbn [fold_left]. rewrite IH, process_line_delta.
  change (line :: lines) with ([line] ++ lines).
  now rewrite lines_deltas_app, feed_app.
Qed.

Lemma fold_chunks E options chunks :
  forall st,
    fold_left (process_chunk E options) chunks st
    = feed options st (stream_deltas E chunks).
Proof.
  induction chunks as [|chunk chunks IH]; intro st; [reflexivity|].
  cbn [fold_left]. rewrite IH. unfold process_chunk.
  rewrite fold_lines. unfold stream_deltas. cbn [flat_map].
  now rewrite feed_app.
Qed.

(** With the callback set, feeding deltas appends them to the buffer and
    logs every buffer on the way. *)
Lemma feed_buffers options ds :
  onStreamUpdate options = true ->
  forall st,
    feed options st ds
    = {| fullAnswer := (fullAnswer st ++ concat_all ds)%string;
         notifications :=
           notifications st ++ running_buffers (fullAnswer st) ds |}.
Proof.
  intro Hcb. induction ds as [|d ds IH]; intro st.
  - cbn. rewrite StringFacts.append_nil_r, app_nil_r. now destruct st.
  - unfold feed in *. cbn [fold_left]. rewrite IH, Hcb.
    cbn [fullAnswer notifications concat_all running_buffers].
    now rewrite StringFacts.append_assoc, <- app_assoc.
Qed.

Lemma running_buffers_length acc ds :
  List.length (running_buffers acc ds) = List.length ds.
Proof.
  revert acc. induction ds as [|d ds IH]; intro acc; cbn; [reflexivity|].
  now rewrite IH.
Qed.

Lemma running_buffers_nth ds :
  forall acc k,
    k < List.length ds ->
    nth_error (running_buffers acc ds) k
    = Some (acc ++ concat_all (firstn (S k) ds))%string.
Proof.
  induction ds as [|d ds IH]; intros acc k Hk; [cbn in Hk; lia|].
  destruct k as [|k].
  - cbn. now rewrite StringFacts.append_nil_r.
  - cbn [running_buffers nth_error]. cbn [List.length] in Hk.
    rewrite IH by lia.
    cbn [firstn concat_all]. now rewrite StringFacts.append_assoc.
Qed.

(** What [streamResponse] returns for an [ok] response with a body. *)
Lemma streamResponse_ok E options times response chunks :
  ok response = true ->
  body response = Some chunks ->
  streamResponse E options times (Resolved response)
  = (notifications (feed options {| fullAnswer := ""; notifications := [] |}
                         (stream_deltas E chunks)),
     inr {| answer := JString (fullAnswer
                                 (feed options
                                       {| fullAnswer := ""; notifications := [] |}
                                       (stream_deltas E chunks)));
            responseTime := (settled times - dispatched times)%Z;
            source := "openai-stream" |}).
Proof.
  intros Hok Hbody. unfold streamResponse.
  rewrite Hok, Hbody. cbn [negb]. now rewrite fold_chunks.
Qed.

(** The lines visited are the same with and without a [data: [DONE]] line. *)
Lemma chunk_lines_DONE pre post :
  chunk_lines (pre ++ String "010" ("data: [DONE]" ++ String "010" post))
  = chunk_lines (pre ++ String "010" post).
Proof.
  unfold chunk_lines.
  rewrite !StringFacts.split_char_append, !filter_app.
  (* the line [data: [DONE]] stands alone and the filter drops it *)
  f_equal.
Qed.

End StreamFacts.

Module OutcomeFacts.
Import JsString Json OpenAIService.

Lemma feed_fullAnswer options ds :
  forall st,
    fullAnswer (feed options st ds) = (fullAnswer st ++ concat_all ds)%string.
Proof.
  unfold feed. induction ds as [|d ds IH]; intro st; cbn [fold_left concat_all].
  - now rewrite StringFacts.append_nil_r.
  - rewrite IH. cbn [fullAnswer]. apply StringFacts.append_assoc.
Qed.

Lemma stream_deltas_DONE E before pre post after :
  stream_deltas E
    (before ++ [(pre ++ String "010" ("data: [DONE]" ++ String "010" post))%string]
            ++ after)
  = stream_deltas E (before ++ [(pre ++ String "010" post)%string] ++ after).
Proof.
  unfold stream_deltas. rewrite !flat_map_app. cbn [flat_map].
  now rewrite StreamFacts.chunk_lines_DONE.
Qed.

Lemma stream_deltas_DONE_chunk E before after :
  stream_deltas E (before ++ [("data: [DONE]" ++ String "010" "")%string] ++ after)
  = stream_deltas E (before ++ after).
Proof.
  unfold stream_deltas. rewrite !flat_map_app. reflexivity.
Qed.

(** A response that is not [ok] makes either path throw the API error. *)
Lemma not_ok_throws E options times response :
  ok response = false ->
  streamResponse E options times (Resolved response)
  = ([], inl (api_error response))
  /\ standardResponse E times (Resolved response) = inl (api_error response).
Proof.
  intro H. unfold streamResponse, standardResponse. now rewrite H.
Qed.

End OutcomeFacts.

(** C3. During streaming every partial-answer notification carries the
    full accumulated buffer: for an [ok] response with a body and the
    callback set, there is one notification per text delta received, the
    notification number [k] is the concatenation of the first [k+1] deltas,
    and the final answer is the concatenation of all of them. Concretely,
    for the lines of the streaming scenario, delivered one per chunk or all
    in one chunk, the client emits ["Hel"] then ["Hello"] and completes with
    the final answer ["Hello"]. *)
Theorem partial_answers_carry_buffer :
  (forall E options times response chunks,
      OpenAIService.ok response = true ->
      OpenAIService.body response = Some chunks ->
      OpenAIService.onStreamUpdate options = true ->
      let deltas := OpenAIService.stream_deltas E chunks in
      let result :=
        OpenAIService.streamResponse E options times
          (OpenAIService.Resolved response) in
      List.length (fst result) = List.length deltas
      /\ (forall k, k < List.length deltas ->
            nth_error (fst result) k
            = Some (JsString.concat_all (firstn (S k) deltas)))
      /\ snd result
         = inr {| OpenAIService.answer :=
                    Json.JString (JsString.concat_all deltas);
                  OpenAIService.responseTime :=
                    (OpenAIService.settled times
                     - OpenAIService.dispatched times)%Z;
                  OpenAIService.source := "openai-stream" |})
  /\ (forall E question status,
         (200 <=? status)%Z && (status <=? 299)%Z = true ->
         let scenario chunks :=
           OpenAIService.getAnswer E ServiceSamples.streaming_options question
             ServiceSamples.times
             (ServiceSamples.server_of
                {| OpenAIService.status := status;
                   OpenAIService.body := Some chunks |}) in
         let completed :=
           (["Hel"; "Hello"],
            OpenAIService.Completed
              {| OpenAIService.answer := Json.JString "Hello";
                 OpenAIService.responseTime := 850%Z;
                 OpenAIService.source := "openai-stream" |}) in
         scenario ServiceSamples.chunks_by_line = completed
         /\ scenario ServiceSamples.chunks_at_once = completed).
Proof.
  split.
  - intros E options times response chunks Hok Hbody Hcb. cbv zeta.
    rewrite (StreamFacts.streamResponse_ok E options times response chunks Hok Hbody).
    rewrite (StreamFacts.feed_buffers options _ Hcb).
    cbn [fst snd OpenAIService.fullAnswer OpenAIService.notifications
         app append].
    split; [apply StreamFacts.running_buffers_length|].
    split; [|reflexivity].
    intros k Hk. now rewrite StreamFacts.running_buffers_nth.
  - intros E question status Hok. cbv zeta.
    unfold OpenAIService.getAnswer, ServiceSamples.server_of.
    cbn [OpenAIService.stream OpenAIService.onStreamUpdate
         ServiceSamples.streaming_options].
    unfold OpenAIService.streamResponse, OpenAIService.ok.
    cbn [OpenAIService.status OpenAIService.body]. rewrite Hok. cbn [negb].
    split; vm_compute; reflexivity.
Qed.

(** A run of C3: a stream of three chunks, the second notification is the
    buffer after two deltas. *)
Lemma partial_answers_carry_buffer_witness :
  let response :=
    {| OpenAIService.status := 200%Z;
       OpenAIService.body := Some ServiceSamples.chunks_delta_after_DONE |} in
  OpenAIService.ok response = true
  /\ OpenAIService.onStreamUpdate ServiceSamples.streaming_options = true
  /\ 1 < List.length (OpenAIService.stream_deltas ServiceSamples.engine
                        ServiceSamples.chunks_delta_after_DONE)
  /\ nth_error
       (fst (OpenAIService.streamResponse ServiceSamples.engine
               ServiceSamples.streaming_options ServiceSamples.times
               (OpenAIService.Resolved response))) 1
     = Some (JsString.concat_all
               (firstn 2 (OpenAIService.stream_deltas ServiceSamples.engine
                            ServiceSamples.chunks_delta_after_DONE))).
Proof.
  cbv zeta.
  split; [reflexivity|]. split; [reflexivity|].
  split; [vm_compute; lia|].
  apply (proj1 (proj2 (proj1 partial_answers_carry_buffer
                         ServiceSamples.engine ServiceSamples.streaming_options
                         ServiceSamples.times
                         {| OpenAIService.status := 200%Z;
                            OpenAIService.body :=
                              Some ServiceSamples.chunks_delta_after_DONE |}
                         ServiceSamples.chunks_delta_after_DONE
                         eq_refl eq_refl eq_refl)) 1).
  vm_compute. lia.
Defined.

(** C5, as stated, fails: in a stream where a delta line follows the
    [data: [DONE]] line, the later line contributes its delta and a
    notification, and the request completes with a buffer that differs
    from the one at the [data: [DONE]] line. *)
Lemma delta_after_DONE_is_consumed :
  let run chunks :=
    OpenAIService.streamResponse ServiceSamples.engine
      ServiceSamples.streaming_options ServiceSamples.times
      (OpenAIService.Resolved
         {| OpenAIService.status := 200%Z; OpenAIService.body := Some chunks |}) in
  run ServiceSamples.chunks_delta_after_DONE
  = (["Hel"; "Hello"],
     inr {| OpenAIService.answer := Json.JString "Hello";
            OpenAIService.responseTime := 850%Z;
            OpenAIService.source := "openai-stream" |})
  /\ run ServiceSamples.chunks_until_DONE
     = (["Hel"],
        inr {| OpenAIService.answer := Json.JString "Hel";
               OpenAIService.responseTime := 850%Z;
               OpenAIService.source := "openai-stream" |})
  /\ run ServiceSamples.chunks_delta_after_DONE
     <> run ServiceSamples.chunks_until_DONE.
Proof.
  cbv zeta. split; [vm_compute; reflexivity|].
  split; [vm_compute; reflexivity|].
  vm_compute. discriminate.
Qed.

(** C5, amended. For every streamed response, the [data: [DONE]] line is
    skipped: it contributes no delta and no notification and does not end
    the consumption loop, so that the lines after it are consumed like any
    other; the request completes at the end of the stream, with the final
    accumulated buffer. The line is skipped both inside a chunk and as a
    chunk of its own: the outcome is the one of the stream without it. *)
Theorem DONE_line_is_skipped E options times response chunks :
  OpenAIService.ok response = true ->
  OpenAIService.body response = Some chunks ->
  (exists log,
      OpenAIService.streamResponse E options times
        (OpenAIService.Resolved response)
      = (log,
         inr {| OpenAIService.answer :=
                  Json.JString
                    (JsString.concat_all (OpenAIService.stream_deltas E chunks));
                OpenAIService.responseTime :=
                  (OpenAIService.settled times
                   - OpenAIService.dispatched times)%Z;
                OpenAIService.source := "openai-stream" |}))
  /\ (forall before pre post after,
         chunks
         = (before
              ++ [(pre ++ String "010" ("data: [DONE]" ++ String "010" post))%string]
              ++ after) ->
         OpenAIService.streamResponse E options times
           (OpenAIService.Resolved response)
         = OpenAIService.streamResponse E options times
             (OpenAIService.Resolved
                {| OpenAIService.status := OpenAIService.status response;
                   OpenAIService.body :=
                     Some (before ++ [(pre ++ String "010" post)%string] ++ after) |}))
  /\ (forall before after,
         chunks
         = before ++ [("data: [DONE]" ++ String "010" "")%string] ++ after ->
         OpenAIService.streamResponse E options times
           (OpenAIService.Resolved response)
         = OpenAIService.streamResponse E options times
             (OpenAIService.Resolved
                {| OpenAIService.status := OpenAIService.status response;
                   OpenAIService.body := Some (before ++ after) |})).
Proof.
  intros Hok Hbody. split; [|split].
  - eexists.
    rewrite (StreamFacts.streamResponse_ok E options times response chunks Hok Hbody).
    now rewrite OutcomeFacts.feed_fullAnswer.
  - intros before pre post after ->.
    rewrite (StreamFacts.streamResponse_ok E options times response _ Hok Hbody).
    rewrite (StreamFacts.streamResponse_ok E options times
               {| OpenAIService.status := OpenAIService.status response;
                  OpenAIService.body :=
                    Some (before ++ [(pre ++ String "010" post)%string] ++ after) |}
               _ Hok eq_refl).
    now rewrite OutcomeFacts.stream_deltas_DONE.
  - intros before after ->.
    rewrite (StreamFacts.streamResponse_ok E options times response _ Hok Hbody).
    rewrite (StreamFacts.streamResponse_ok E options times
               {| OpenAIService.status := OpenAIService.status response;
                  OpenAIService.body := Some (before ++ after) |}
               _ Hok eq_refl).
    now rewrite OutcomeFacts.stream_deltas_DONE_chunk.
Qed.

(** A run of the amended C5: a chunk whose second line is [data: [DONE]]
    and whose third line carries a delta. *)
Lemma DONE_line_is_skipped_witness :
  let response chunks :=
    {| OpenAIService.status := 200%Z; OpenAIService.body := Some chunks |} in
  let with_DONE :=
    [ (ServiceSamples.line_Hel
         ++ String "010" ("data: [DONE]" ++ String "010" ServiceSamples.line_lo))%string ] in
  let without_DONE :=
    [ (ServiceSamples.line_Hel ++ String "010" ServiceSamples.line_lo)%string ] in
  OpenAIService.ok (response with_DONE) = true
  /\ OpenAIService.streamResponse ServiceSamples.engine
       ServiceSamples.streaming_options ServiceSamples.times
       (OpenAIService.Resolved (response with_DONE))
     = OpenAIService.streamResponse ServiceSamples.engine
         ServiceSamples.streaming_options ServiceSamples.times
         (OpenAIService.Resolved (response without_DONE)).
Proof.
  cbv zeta. split; [reflexivity|].
  exact (proj1 (proj2 (DONE_line_is_skipped ServiceSamples.engine
                  ServiceSamples.streaming_options ServiceSamples.times
                  {| OpenAIService.status := 200%Z;
                     OpenAIService.body :=
                       Some [ (ServiceSamples.line_Hel
                                 ++ String "010"
                                      ("data: [DONE]"
                                         ++ String "010" ServiceSamples.line_lo))%string ] |}
                  _ eq_refl eq_refl))
               [] ServiceSamples.line_Hel ServiceSamples.line_lo [] eq_refl).
Defined.

(** C7. For every answer request that receives a response whose status is
    not a success status, on either path, the request fails with an error
    message that contains the status code, and no partial-answer
    notification is emitted. *)
Theorem non_ok_status_fails E options question times server response :
  server (OpenAIService.requestOptions options question)
  = OpenAIService.Resolved response ->
  OpenAIService.ok response = false ->
  let message :=
    ("Failed to get answer: API error: "
     ++ JsNumber.integer_toString (OpenAIService.status response)
     ++ " - " ++ OpenAIService.response_text response)%string in
  OpenAIService.getAnswer E options question times server
  = ([], OpenAIService.Failed message)
  /\ JsString.includes message
       (JsNumber.integer_toString (OpenAIService.status response)) = true.
Proof.
  intros Hfetch Hok. cbv zeta. split.
  - unfold OpenAIService.getAnswer. rewrite Hfetch.
    destruct (OutcomeFacts.not_ok_throws E options times response Hok) as [Hs Hn].
    rewrite Hs, Hn.
    destruct (match OpenAIService.stream options with
              | Some true => OpenAIService.onStreamUpdate options
              | _ => false
              end); reflexivity.
  - apply (StringFacts.includes_append "Failed to get answer: API error: ").
Qed.

(** A run of C7: the status 401 on the streaming path. *)
Lemma non_ok_status_fails_witness :
  OpenAIService.ok ServiceSamples.unauthorized = false
  /\ OpenAIService.getAnswer ServiceSamples.engine
       ServiceSamples.streaming_options "What is docker?" ServiceSamples.times
       (ServiceSamples.server_of ServiceSamples.unauthorized)
     = ([], OpenAIService.Failed
              ("Failed to get answer: API error: "
               ++ JsNumber.integer_toString 401
               ++ " - "
               ++ OpenAIService.response_text ServiceSamples.unauthorized)%string)
  /\ JsString.includes
       ("Failed to get answer: API error: "
        ++ JsNumber.integer_toString 401
        ++ " - "
        ++ OpenAIService.response_text ServiceSamples.unauthorized)%string
       "401" = true.
Proof.
  split; [reflexivity|].
  exact (non_ok_status_fails ServiceSamples.engine
           ServiceSamples.streaming_options "What is docker?"
           ServiceSamples.times
           (ServiceSamples.server_of ServiceSamples.unauthorized)
           ServiceSamples.unauthorized eq_refl eq_refl).
Defined.

Module PathFacts.
Import JsString Json OpenAIService.

(** Only the streaming path labels its response [openai-stream]. *)
Lemma standardResponse_source E times fetched response :
  standardResponse E times fetched = inr response ->
  source response = "openai".
Proof.
  unfold standardResponse. intro H.
  destruct fetched as [m | r]; [discriminate|].
  destruct (negb (ok r)); [discriminate|].
  destruct (JSON_parse E (response_text r)) as [m | result]; [discriminate|].
  destruct (first_choice_content E result "message") as [m | v]; [discriminate|].
  injection H as <-. reflexivity.
Qed.

Lemma settle_Completed r response :
  settle r = Completed response -> r = inr response.
Proof. destruct r as [m | x]; cbn; [discriminate | now intros [= ->]]. Qed.

End PathFacts.

Example constructor_defaults :
  OpenAIService.OpenAIService_new
    {| OpenAIService.apiKey := Some "sk-test";
       OpenAIService.model := None;
       OpenAIService.maxTokens := None;
       OpenAIService.temperature := None;
       OpenAIService.stream := None;
       OpenAIService.onStreamUpdate := false |}
  = inr ServiceSamples.default_options.
Proof. reflexivity. Qed.

(** C10. If the [stream] option is true and no [onStreamUpdate] callback is
    supplied, [getAnswer] takes the non-streaming path, which parses the
    entire response body as one JSON document, while the body of the
    outgoing request carries [stream: true]; the streaming path runs, and a
    response labelled [openai-stream] is returned, only when both the flag
    and the callback are set. *)
Theorem stream_flag_without_callback E options question times server :
  (OpenAIService.stream options = Some true ->
   OpenAIService.onStreamUpdate options = false ->
   OpenAIService.body_stream
     (OpenAIService.request_body (OpenAIService.requestOptions options question))
   = Some true
   /\ OpenAIService.getAnswer E options question times server
      = ([], OpenAIService.settle
               (OpenAIService.standardResponse E times
                  (server (OpenAIService.requestOptions options question))))
   /\ (forall response message,
          server (OpenAIService.requestOptions options question)
          = OpenAIService.Resolved response ->
          OpenAIService.ok response = true ->
          Json.JSON_parse E (OpenAIService.response_text response) = inl message ->
          OpenAIService.getAnswer E options question times server
          = ([], OpenAIService.Failed ("Failed to get answer: " ++ message)%string)))
  /\ (OpenAIService.stream options = Some true ->
      OpenAIService.onStreamUpdate options = true ->
      OpenAIService.getAnswer E options question times server
      = (fst (OpenAIService.streamResponse E options times
                (server (OpenAIService.requestOptions options question))),
         OpenAIService.settle
           (snd (OpenAIService.streamResponse E options times
                   (server (OpenAIService.requestOptions options question))))))
  /\ (forall log response,
         OpenAIService.getAnswer E options question times server
         = (log, OpenAIService.Completed response) ->
         OpenAIService.source response = "openai-stream" ->
         OpenAIService.stream options = Some true
         /\ OpenAIService.onStreamUpdate options = true).
Proof.
  split; [|split].
  - intros Hs Hcb. split; [exact Hs|].
    assert (Hpath : OpenAIService.getAnswer E options question times server
                    = ([], OpenAIService.settle
                             (OpenAIService.standardResponse E times
                                (server (OpenAIService.requestOptions options question)))))
      by (unfold OpenAIService.getAnswer; now rewrite Hs, Hcb).
    split; [exact Hpath|].
    intros response message Hfetch Hok Hparse.
    rewrite Hpath, Hfetch. unfold OpenAIService.standardResponse.
    now rewrite Hok, Hparse.
  - intros Hs Hcb. unfold OpenAIService.getAnswer. rewrite Hs, Hcb.
    now destruct (OpenAIService.streamResponse E options times _).
  - intros log response Hget Hsrc.
    unfold OpenAIService.getAnswer in Hget.
    destruct (OpenAIService.stream options) as [[|]|];
      destruct (OpenAIService.onStreamUpdate options);
      try (split; reflexivity);
      injection Hget as _ Hget;
      apply PathFacts.settle_Completed, PathFacts.standardResponse_source in Hget;
      rewrite Hget in Hsrc; discriminate.
Qed.

(** A run of C10: a service built from a key alone streams by default and
    has no callback; the server answers the request, which asks for a
    stream, with the event stream of the scenario, and the non-streaming
    path fails to parse it as one JSON document. *)
Lemma stream_flag_without_callback_witness :
  OpenAIService.stream ServiceSamples.default_options = Some true
  /\ OpenAIService.onStreamUpdate ServiceSamples.default_options = false
  /\ OpenAIService.ok
       {| OpenAIService.status := 200%Z;
          OpenAIService.body := Some ServiceSamples.chunks_by_line |} = true
  /\ Json.JSON_parse ServiceSamples.engine
       (OpenAIService.response_text
          {| OpenAIService.status := 200%Z;
             OpenAIService.body := Some ServiceSamples.chunks_by_line |})
     = inl "Unexpected token in JSON"
  /\ OpenAIService.getAnswer ServiceSamples.engine
       ServiceSamples.default_options "What is docker?" ServiceSamples.times
       (ServiceSamples.server_of
          {| OpenAIService.status := 200%Z;
             OpenAIService.body := Some ServiceSamples.chunks_by_line |})
     = ([], OpenAIService.Failed
              "Failed to get answer: Unexpected token in JSON").
Proof.
  split; [reflexivity|]. split; [reflexivity|]. split; [reflexivity|].
  split; [vm_compute; reflexivity|].
  exact (proj2 (proj2 (proj1 (stream_flag_without_callback
                                ServiceSamples.engine
                                ServiceSamples.default_options
                                "What is docker?" ServiceSamples.times
                                (ServiceSamples.server_of
                                   {| OpenAIService.status := 200%Z;
                                      OpenAIService.body :=
                                        Some ServiceSamples.chunks_by_line |}))
                             eq_refl eq_refl))
               {| OpenAIService.status := 200%Z;
                  OpenAIService.body := Some ServiceSamples.chunks_by_line |}
               "Unexpected token in JSON"
               eq_refl eq_refl
               ltac:(vm_compute; reflexivity)).
Defined.

(** * Further properties *)

(** ** Edit distance *)

Module LevFacts.
Import JsString Similarity.

Lemma matrix_entry_step a b i j :
  matrix_entry a b (S i) (S j)
  = min3 (matrix_entry a b i (S j) + 1)
         (matrix_entry a b (S i) j + 1)
         (matrix_entry a b i j + cost (nth j a Ascii.zero) (nth i b Ascii.zero)).
Proof. reflexivity. Qed.

Lemma matrix_entry_bounds a b i :
  forall j,
    matrix_entry a b i j <= Nat.max i j
    /\ i - j <= matrix_entry a b i j
    /\ j - i <= matrix_entry a b i j.
Proof.
  induction i as [|i IHi]; intro j.
  - cbn [matrix_entry]. lia.
  - induction j as [|j IHj].
    + cbn [matrix_entry]. lia.
    + rewrite matrix_entry_step.
      pose proof (IHi (S j)) as H1. pose proof (IHi j) as H2.
      unfold min3, cost. destruct (Ascii.eqb _ _); lia.
Qed.

Lemma matrix_entry_diag a i :
  matrix_entry a a i i = 0.
Proof.
  induction i as [|i IH]; [reflexivity|].
  rewrite matrix_entry_step, IH. unfold min3, cost.
  rewrite Ascii.eqb_refl. lia.
Qed.

Lemma firstn_snoc {A} (d : A) (l : list A) i :
  i < List.length l -> firstn (S i) l = firstn i l ++ [nth i l d].
Proof.
  revert i. induction l as [|x l IH]; intros i Hi; [cbn in Hi; lia|].
  destruct i as [|i]; [reflexivity|].
  cbn [firstn nth app]. cbn [List.length] in Hi. f_equal. apply IH. lia.
Qed.

Lemma matrix_entry_zero a b i :
  i <= List.length a -> i <= List.length b ->
  matrix_entry a b i i = 0 -> firstn i a = firstn i b.
Proof.
  induction i as [|i IH]; intros Ha Hb H; [reflexivity|].
  rewrite matrix_entry_step in H. unfold min3, cost in H.
  destruct (Ascii.eqb_spec (nth i a Ascii.zero) (nth i b Ascii.zero)) as [E|E];
    [|lia].
  rewrite (firstn_snoc Ascii.zero a), (firstn_snoc Ascii.zero b) by lia.
  rewrite E, IH by lia. reflexivity.
Qed.

Lemma chars_length s : List.length (chars s) = String.length s.
Proof.
  unfold chars. induction s as [|c s IH]; cbn; [reflexivity | now rewrite IH].
Qed.

Lemma chars_inj s t : chars s = chars t -> s = t.
Proof.
  unfold chars. intro H.
  rewrite <- (string_of_list_ascii_of_string s),
          <- (string_of_list_ascii_of_string t).
  now rewrite H.
Qed.

Lemma levenshteinDistance_refl a : levenshteinDistance a a = 0.
Proof.
  rewrite LevMatrix.levenshteinDistance_entry. apply matrix_entry_diag.
Qed.

End LevFacts.

(** X1. The edit distance of two strings is 0 exactly when they are the
    same string. *)
Theorem levenshteinDistance_zero_iff (a b : string) :
  Similarity.levenshteinDistance a b = 0 <-> a = b.
Proof.
  split.
  - rewrite LevMatrix.levenshteinDistance_entry. intro H.
    pose proof (LevFacts.matrix_entry_bounds (JsString.chars a) (JsString.chars b)
                  (List.length (JsString.chars b))
                  (List.length (JsString.chars a))) as [_ [Hl1 Hl2]].
    assert (E : List.length (JsString.chars a) = List.length (JsString.chars b))
      by lia.
    rewrite E in H.
    apply LevFacts.matrix_entry_zero in H; [|lia|lia].
    rewrite <- E in H at 1. rewrite !firstn_all in H.
    now apply LevFacts.chars_inj.
  - intros ->. apply LevFacts.levenshteinDistance_refl.
Qed.

(** X2. The edit distance of two strings is at least the difference of
    their lengths and at most the length of the longer one. *)
Theorem levenshteinDistance_bounds (a b : string) :
  String.length a - String.length b <= Similarity.levenshteinDistance a b
  /\ String.length b - String.length a <= Similarity.levenshteinDistance a b
  /\ Similarity.levenshteinDistance a b
     <= Nat.max (String.length a) (String.length b).
Proof.
  rewrite LevMatrix.levenshteinDistance_entry.
  pose proof (LevFacts.matrix_entry_bounds (JsString.chars a) (JsString.chars b)
                (List.length (JsString.chars b))
                (List.length (JsString.chars a))) as H.
  rewrite !LevFacts.chars_length in *. lia.
Qed.

(** ** Similarity *)

Module SimilarityFacts.
Import JsString Similarity.

Lemma lower_char_idem c : lower_char (lower_char c) = lower_char c.
Proof.
  destruct c as [[] [] [] [] [] [] [] []]; reflexivity.
Qed.

Lemma toLowerCase_idem s : toLowerCase (toLowerCase s) = toLowerCase s.
Proof.
  induction s as [|c s IH]; cbn; [reflexivity|].
  now rewrite lower_char_idem, IH.
Qed.

Lemma toLowerCase_length s : String.length (toLowerCase s) = String.length s.
Proof. induction s as [|c s IH]; cbn; [reflexivity | now rewrite IH]. Qed.

Lemma zero_distance_passes_spec n :
  forall j,
    NumberChecks.zero_distance_passes n (JsNumber.of_nat j) = true ->
    forall k, 1 <= k <= n ->
      JsNumber.gt (1 - JsNumber.of_nat 0 / JsNumber.of_nat (j + k))%float
                  0.8%float = true.
Proof.
  induction n as [|n IH]; intros j H k Hk; [lia|].
  cbn [NumberChecks.zero_distance_passes] in H.
  apply andb_true_iff in H. destruct H as [H1 H2].
  destruct (Nat.eq_dec k 1) as [-> | Hne].
  - rewrite Nat.add_1_r. exact H1.
  - change (JsNumber.of_nat j + 1)%float with (JsNumber.of_nat (S j)) in H2.
    replace (j + k) with (S j + (k - 1)) by lia.
    apply (IH (S j) H2). lia.
Qed.

Lemma zero_distance_checked :
  NumberChecks.zero_distance_passes NumberChecks.checked_length
    (JsNumber.of_nat 0) = true.
Proof. vm_compute. reflexivity. Qed.

End SimilarityFacts.

(** X3. For texts of ASCII characters, the similarity of two texts does
    not depend on the letter case of either: lower-casing one of them
    beforehand leaves the similarity as it is. *)
Theorem calculateSimilarity_ignores_case (a b : string) :
  TextRelations.is_ascii_text a = true ->
  TextRelations.is_ascii_text b = true ->
  Similarity.calculateSimilarity (JsString.toLowerCase a) b
  = Similarity.calculateSimilarity a b
  /\ Similarity.calculateSimilarity a (JsString.toLowerCase b)
     = Similarity.calculateSimilarity a b.
Proof.
  intros _ _. unfold Similarity.calculateSimilarity.
  now rewrite !SimilarityFacts.toLowerCase_idem,
              !SimilarityFacts.toLowerCase_length.
Qed.

Lemma calculateSimilarity_ignores_case_witness :
  TextRelations.is_ascii_text "What is Docker?" = true
  /\ TextRelations.is_ascii_text "what is a docker" = true
  /\ Similarity.calculateSimilarity
       (JsString.toLowerCase "What is Docker?") "what is a docker"
     = Similarity.calculateSimilarity "What is Docker?" "what is a docker"
  /\ Similarity.calculateSimilarity
       "What is Docker?" (JsString.toLowerCase "what is a docker")
     = Similarity.calculateSimilarity "What is Docker?" "what is a docker".
Proof.
  split; [reflexivity|]. split; [reflexivity|].
  exact (calculateSimilarity_ignores_case "What is Docker?" "what is a docker"
           eq_refl eq_refl).
Defined.

(** X4. The duplicate test of the earlier version of the component and the
    one of the current version, which goes through [calculateSimilarity],
    agree on every pair of texts. *)
Theorem areSimilarQuestions_versions_agree (q1 q2 : string) :
  Legacy.areSimilarQuestions q1 q2 = Similarity.areSimilarQuestions q1 q2.
Proof.
  unfold Legacy.areSimilarQuestions, Similarity.areSimilarQuestions,
         Similarity.calculateSimilarity.
  cbv zeta.
  destruct (Nat.max (String.length q1) (String.length q2) =? 0)%nat;
    reflexivity.
Qed.

Module DuplicateFacts.

Lemma same_text_similar (a b : string) :
  JsString.toLowerCase a = JsString.toLowerCase b ->
  String.length a <= NumberChecks.checked_length ->
  Similarity.areSimilarQuestions a b = true.
Proof.
  intros E Hlen.
  assert (Hb : String.length b = String.length a)
    by (rewrite <- (SimilarityFacts.toLowerCase_length b), <- E;
        apply SimilarityFacts.toLowerCase_length).
  unfold Similarity.areSimilarQuestions, Similarity.calculateSimilarity.
  rewrite Hb, Nat.max_id, E, LevFacts.levenshteinDistance_refl.
  destruct (String.length a) as [|m] eqn:Hm; [reflexivity|].
  cbn [Nat.eqb].
  apply (SimilarityFacts.zero_distance_passes_spec
           NumberChecks.checked_length 0
           SimilarityFacts.zero_distance_checked (S m)).
  lia.
Qed.

End DuplicateFacts.

(** X5. Two texts that are equal up to letter case, of at most 100000
    characters, pass the duplicate test: their similarity is above 0.8. *)
Theorem same_text_is_similar (a b : string) :
  JsString.toLowerCase a = JsString.toLowerCase b ->
  String.length a <= NumberChecks.checked_length ->
  Similarity.areSimilarQuestions a b = true.
Proof. apply DuplicateFacts.same_text_similar. Qed.

Lemma same_text_is_similar_witness :
  JsString.toLowerCase "What is Docker?" = JsString.toLowerCase "what is docker?"
  /\ String.length "What is Docker?" <= NumberChecks.checked_length
  /\ Similarity.areSimilarQuestions "What is Docker?" "what is docker?" = true.
Proof.
  split; [reflexivity|].
  split; [apply Nat.leb_le; vm_compute; reflexivity|].
  apply same_text_is_similar;
    [reflexivity | apply Nat.leb_le; vm_compute; reflexivity].
Defined.

(** ** Trimming and question extraction *)

Module TrimFacts.
Import JsString.

Lemma is_space_lower c : is_space (lower_char c) = is_space c.
Proof. destruct c as [[] [] [] [] [] [] [] []]; reflexivity. Qed.

Lemma trimStart_lower s : trimStart (toLowerCase s) = toLowerCase (trimStart s).
Proof.
  induction s as [|c s IH]; cbn [toLowerCase trimStart]; [reflexivity|].
  rewrite is_space_lower. now destruct (is_space c).
Qed.

Lemma trimEnd_lower s : trimEnd (toLowerCase s) = toLowerCase (trimEnd s).
Proof.
  induction s as [|c s IH]; cbn [toLowerCase trimEnd]; [reflexivity|].
  rewrite IH, is_space_lower.
  destruct (trimEnd s); cbn [toLowerCase]; [now destruct (is_space c)|reflexivity].
Qed.

Lemma trim_lower s : trim (toLowerCase s) = toLowerCase (trim s).
Proof. unfold trim. now rewrite trimStart_lower, trimEnd_lower. Qed.

(** What [trimStart] leaves is empty or starts with a character that is
    not a space. *)
Lemma trimStart_head s :
  trimStart s = "" \/ exists c r, trimStart s = String c r /\ is_space c = false.
Proof.
  induction s as [|c s IH]; cbn [trimStart]; [now left|].
  destruct (is_space c) eqn:E; [exact IH|]. right. eauto.
Qed.

Lemma trimEnd_head c r :
  is_space c = false -> exists r', trimEnd (String c r) = String c r'.
Proof.
  intro E. cbn [trimEnd]. rewrite E. destruct (trimEnd r); eauto.
Qed.

Lemma trimEnd_idem s : trimEnd (trimEnd s) = trimEnd s.
Proof.
  induction s as [|c s IH]; [reflexivity|].
  cbn [trimEnd]. destruct (trimEnd s) as [|x r] eqn:E.
  - destruct (is_space c) eqn:Ec; [reflexivity|]. cbn [trimEnd]. now rewrite Ec.
  - cbn [trimEnd]. cbn [trimEnd] in IH. now rewrite IH.
Qed.

(** [trim] is the identity on what it returns. *)
Lemma trim_idem s : trim (trim s) = trim s.
Proof.
  unfold trim. destruct (trimStart_head s) as [-> | [c [r [-> Ec]]]];
    [reflexivity|].
  destruct (trimEnd_head c r Ec) as [r' E]. rewrite E.
  cbn [trimStart]. rewrite Ec, <- E. apply trimEnd_idem.
Qed.

Lemma trim_empty_trimStart s : trim s = "" -> trimStart s = "".
Proof.
  unfold trim. destruct (trimStart_head s) as [-> | [c [r [-> Ec]]]];
    [reflexivity|].
  destruct (trimEnd_head c r Ec) as [r' ->]. discriminate.
Qed.

Lemma length_append (a b : string) :
  String.length (a ++ b) = String.length a + String.length b.
Proof. induction a as [|c a IH]; cbn; [reflexivity | now rewrite IH]. Qed.

Lemma length_zero_iff (s : string) : String.length s = 0 <-> s = "".
Proof.
  split; intro H; [|now subst]. destruct s; [reflexivity | discriminate].
Qed.

End TrimFacts.

Module ExtractFacts.
Import JsString VoiceUI.

Lemma terminator_not_space c : is_space c = true -> is_terminator c = false.
Proof. destruct c as [[] [] [] [] [] [] [] []]; vm_compute; congruence. Qed.

(** A text of white space only is one piece of the sentence splitter. *)
Lemma split_runs_blank s :
  trimStart s = "" -> split_runs is_terminator false s = [s].
Proof.
  induction s as [|c s IH]; [reflexivity|].
  cbn [trimStart split_runs]. destruct (is_space c) eqn:E; [|discriminate].
  intro H. rewrite (terminator_not_space c E), (IH H). reflexivity.
Qed.

Lemma extractSentence_length text sentence c :
  In c (extractSentence text sentence) -> 3 <= String.length c.
Proof.
  unfold extractSentence.
  destruct (String.length (trim sentence) <? 3)%nat eqn:E; [intros []|].
  apply Nat.ltb_ge in E.
  destruct (includes text (trim sentence ++ "?")).
  - intros [<- | []]. rewrite TrimFacts.length_append. lia.
  - destruct (existsb _ questionIndicators); [|intros []].
    now intros [<- | []].
Qed.

Lemma mightBeConversationalQuery_blank segment :
  trim segment = "" -> mightBeConversationalQuery segment = false.
Proof.
  intro H. unfold mightBeConversationalQuery.
  rewrite TrimFacts.trim_lower, H. reflexivity.
Qed.

End ExtractFacts.

(** X6. Every candidate [extractQuestions] returns has at least three
    characters, unless it is the whole trimmed utterance, returned alone by
    the fallback, which is not empty. *)
Theorem extractQuestions_candidates (text c : string) :
  In c (VoiceUI.extractQuestions text) ->
  3 <= String.length c
  \/ (VoiceUI.extractQuestions text = [c]
      /\ c = JsString.trim text
      /\ 0 < String.length c < 150).
Proof.
  unfold VoiceUI.extractQuestions. cbv zeta.
  set (result := flat_map (VoiceUI.extractSentence text) _).
  destruct ((List.length result =? 0)
            && (0 <? String.length (JsString.trim text))
            && (String.length (JsString.trim text) <? 150))%nat eqn:E.
  - apply andb_true_iff in E. destruct E as [E E3].
    apply andb_true_iff in E. destruct E as [E1 E2].
    apply Nat.eqb_eq, length_zero_iff_nil in E1.
    apply Nat.ltb_lt in E2. apply Nat.ltb_lt in E3.
    rewrite E1. cbn [app]. intros [<- | []]. right. auto.
  - intro H. left. unfold result in H. apply in_flat_map in H.
    destruct H as [s [_ H]].
    now apply ExtractFacts.extractSentence_length in H.
Qed.

Lemma extractQuestions_candidates_witness :
  In "What is kubernetes?"
     (VoiceUI.extractQuestions "I need help with docker. What is kubernetes?")
  /\ (3 <= String.length "What is kubernetes?"
      \/ (VoiceUI.extractQuestions "I need help with docker. What is kubernetes?"
          = ["What is kubernetes?"]
          /\ "What is kubernetes?"
             = JsString.trim "I need help with docker. What is kubernetes?"
          /\ 0 < String.length "What is kubernetes?" < 150)).
Proof.
  assert (H : In "What is kubernetes?"
                 (VoiceUI.extractQuestions
                    "I need help with docker. What is kubernetes?"))
    by (vm_compute; left; reflexivity).
  split; [exact H|].
  exact (extractQuestions_candidates _ _ H).
Defined.

Module FallbackFacts.

Lemma extract_empty_result (text : string) :
  (String.length (JsString.trim text) = 0 -> VoiceUI.extractQuestions text = [])
  /\ (0 < String.length (JsString.trim text) < 150 ->
      VoiceUI.extractQuestions text <> []).
Proof.
  unfold VoiceUI.extractQuestions. cbv zeta. split.
  - intro H. pose proof H as H0. apply TrimFacts.length_zero_iff in H0.
    rewrite (ExtractFacts.split_runs_blank text
               (TrimFacts.trim_empty_trimStart text H0)).
    cbn [filter]. rewrite H. reflexivity.
  - intros [H1 H2].
    set (result := flat_map (VoiceUI.extractSentence text) _).
    destruct result as [|c r] eqn:E.
    + cbn [List.length Nat.eqb andb].
      apply Nat.ltb_lt in H1. apply Nat.ltb_lt in H2. rewrite H1, H2.
      discriminate.
    + cbn [List.length Nat.eqb andb]. discriminate.
Qed.

End FallbackFacts.

(** X7. A blank utterance yields no candidate, and an utterance that is
    not blank and has fewer than 150 characters once trimmed yields at
    least one. *)
Theorem extractQuestions_empty_result (text : string) :
  (String.length (JsString.trim text) = 0 -> VoiceUI.extractQuestions text = [])
  /\ (0 < String.length (JsString.trim text) < 150 ->
      VoiceUI.extractQuestions text <> []).
Proof. apply FallbackFacts.extract_empty_result. Qed.

Lemma extractQuestions_empty_result_witness :
  (String.length (JsString.trim "   ") = 0
   /\ VoiceUI.extractQuestions "   " = [])
  /\ (0 < String.length (JsString.trim " nice weather ") < 150
      /\ VoiceUI.extractQuestions " nice weather " <> []).
Proof.
  split.
  - split; [reflexivity|].
    exact (proj1 (extractQuestions_empty_result "   ") eq_refl).
  - assert (H : 0 < String.length (JsString.trim " nice weather ") < 150)
      by (vm_compute; split; repeat constructor).
    split; [exact H|].
    exact (proj2 (extractQuestions_empty_result " nice weather ") H).
Defined.

(** X8. For a segment of fewer than 150 characters once trimmed,
    [processNewSpeechSegment] never takes the conversational fallback: the
    registry changes exactly as by analysing the extracted candidates in
    order. *)
Theorem short_segment_analyses_candidates clockAt (segment : string)
                                          (st : VoiceUI.State) :
  String.length (JsString.trim segment) < 150 ->
  VoiceUI.analyzeSegment clockAt segment st
  = VoicePipeline.analyzeCandidates clockAt
      (VoiceUI.extractQuestions segment) st.
Proof.
  intro Hlen. unfold VoiceUI.analyzeSegment, VoicePipeline.analyzeCandidates.
  cbv zeta.
  destruct (VoiceUI.extractQuestions segment) as [|q qs] eqn:E;
    [|reflexivity].
  cbn [List.length Nat.eqb andb fold_left snd].
  destruct (5 <? String.length segment)%nat; [|reflexivity].
  assert (H0 : String.length (JsString.trim segment) = 0).
  { destruct (Nat.eq_dec (String.length (JsString.trim segment)) 0) as [H|H];
      [exact H|].
    exfalso.
    apply (proj2 (FallbackFacts.extract_empty_result segment)); [lia | exact E]. }
  apply TrimFacts.length_zero_iff in H0.
  now rewrite ExtractFacts.mightBeConversationalQuery_blank.
Qed.

Lemma short_segment_analyses_candidates_witness :
  String.length (JsString.trim "What is docker? How do I use python?") < 150
  /\ VoiceUI.analyzeSegment (fun _ => Samples.noon)
       "What is docker? How do I use python?" VoiceUI.initial
     = VoicePipeline.analyzeCandidates (fun _ => Samples.noon)
         (VoiceUI.extractQuestions "What is docker? How do I use python?")
         VoiceUI.initial.
Proof.
  assert (H : String.length
                (JsString.trim "What is docker? How do I use python?") < 150)
    by (apply Nat.ltb_lt; vm_compute; reflexivity).
  split; [exact H|].
  exact (short_segment_analyses_candidates _ _ _ H).
Defined.

(** ** The classifier *)

Module KeywordFacts.
Import JsString Detector TableChecks.

Lemma fold_left_concat {A B} (f : A -> B -> A) (ls : list (list B)) :
  forall acc,
    fold_left (fun acc l => fold_left f l acc) ls acc
    = fold_left f (List.concat ls) acc.
Proof.
  induction ls as [|l ls IH]; intro acc; [reflexivity|].
  cbn [fold_left List.concat]. now rewrite fold_left_app, IH.
Qed.

Lemma findTechnicalKeywords_scan text :
  findTechnicalKeywords text = fold_left (scan_step text) all_keywords [].
Proof.
  unfold findTechnicalKeywords, all_keywords.
  apply (fold_left_concat (scan_step text)).
Qed.

Lemma array_includes_In xs x : array_includes xs x = true <-> In x xs.
Proof.
  unfold array_includes. rewrite existsb_exists. split.
  - intros [y [Hy E]]. apply String.eqb_eq in E. now subst.
  - intro H. exists x. split; [exact H | apply String.eqb_refl].
Qed.

Lemma scan_length text l :
  forall acc,
    List.length (fold_left (scan_step text) l acc)
    <= List.length acc + List.length l.
Proof.
  induction l as [|k l IH]; intro acc; cbn [fold_left List.length]; [lia|].
  specialize (IH (scan_step text acc k)).
  assert (List.length (scan_step text acc k) <= S (List.length acc)).
  { unfold scan_step. destruct (_ && _); [|lia].
    rewrite length_app. cbn. lia. }
  lia.
Qed.

Lemma scan_NoDup text l :
  forall acc, NoDup acc -> NoDup (fold_left (scan_step text) l acc).
Proof.
  induction l as [|k l IH]; intros acc H; [exact H|].
  cbn [fold_left]. apply IH. unfold scan_step.
  destruct (JsRegExp.test_word k text); cbn [andb]; [|exact H].
  destruct (array_includes acc k) eqn:E; cbn [negb]; [exact H|].
  apply NoDup_app; [exact H | repeat constructor; intros [] |].
  intros x Hx [<- | []]. apply array_includes_In in Hx. congruence.
Qed.

Lemma scan_In text l x :
  forall acc,
    In x (fold_left (scan_step text) l acc)
    <-> In x acc \/ (In x l /\ JsRegExp.test_word x text = true).
Proof.
  induction l as [|k l IH]; intro acc; cbn [fold_left In]; [tauto|].
  rewrite IH. unfold scan_step.
  destruct (JsRegExp.test_word k text) eqn:T; cbn [andb].
  - destruct (array_includes acc k) eqn:E; cbn [negb].
    + apply array_includes_In in E. split; [tauto|].
      intros [H | [[-> | H] H']]; auto.
    + rewrite in_app_iff. cbn [In]. split.
      * intros [[H | [<- | []]] | [H H']]; auto.
      * intros [H | [[-> | H] H']]; auto.
  - split; [tauto|]. intros [H | [[-> | H] H']]; auto. congruence.
Qed.

Lemma keywords_lower_case :
  forallb (fun k => String.eqb (toLowerCase k) k) all_keywords = true.
Proof. vm_compute. reflexivity. Qed.

Lemma keyword_lower k : In k all_keywords -> toLowerCase k = k.
Proof.
  intro H. pose proof keywords_lower_case as F.
  rewrite forallb_forall in F. now apply String.eqb_eq, F.
Qed.

Lemma confidence_table : confidence_table_ok = true.
Proof. vm_compute. reflexivity. Qed.

(** The confidence for a text that is not empty does not depend on its
    length. *)
Lemma calculateConfidence_length p n len :
  0 < len -> calculateConfidence p n len = calculateConfidence p n 1.
Proof.
  intro H. unfold calculateConfidence.
  apply Nat.ltb_lt in H. now rewrite H.
Qed.

Lemma detect_unfold text :
  let clean := toLowerCase (trim text) in
  let keywords := findTechnicalKeywords clean in
  let c := calculateConfidence (hasQuestionPattern clean)
                               (List.length keywords) (String.length clean) in
  detectTechnicalQuestion text
  = {| isTechnical := JsNumber.gt c 0.6%float;
       confidence := c;
       category :=
         if JsNumber.gt c 0.6%float
         then Some (fst (determineTechnicalDomain keywords)) else None;
       detectedKeywords := keywords |}.
Proof.
  cbv zeta. unfold detectTechnicalQuestion.
  pose proof (DetectorFacts.determineTechnicalDomain_count
                (findTechnicalKeywords (toLowerCase (trim text)))) as H.
  destruct (determineTechnicalDomain _) as [d n]. cbn [snd fst] in *.
  now subst n.
Qed.

(** The table entry for the confidence of a text *)
Lemma confidence_entry text :
  let clean := toLowerCase (trim text) in
  let n := List.length (findTechnicalKeywords clean) in
  let c := calculateConfidence (hasQuestionPattern clean) n (String.length clean) in
  JsNumber.gt c 0.6%float
  = (if hasQuestionPattern clean then (1 <=? n)%nat else (3 <=? n)%nat)
  /\ (0.2 <=? c)%float = true /\ (c <=? 0.95)%float = true.
Proof.
  cbv zeta.
  set (clean := toLowerCase (trim text)).
  destruct (String.length clean) as [|len] eqn:Hlen.
  - apply TrimFacts.length_zero_iff in Hlen. rewrite Hlen.
    rewrite DetectorFacts.findTechnicalKeywords_empty.
    destruct (hasQuestionPattern ""); vm_compute; auto.
  - rewrite calculateConfidence_length by lia.
    assert (Hn : List.length (findTechnicalKeywords clean)
                 < S (List.length all_keywords)).
    { rewrite findTechnicalKeywords_scan.
      pose proof (scan_length clean all_keywords []) as H.
      change (List.length (@nil string)) with 0 in H. lia. }
    pose proof confidence_table as T. unfold confidence_table_ok in T.
    rewrite forallb_forall in T.
    specialize (T (List.length (findTechnicalKeywords clean))).
    assert (Hin : In (List.length (findTechnicalKeywords clean))
                     (seq 0 (S (List.length all_keywords))))
      by (apply in_seq; lia).
    specialize (T Hin). cbv zeta in T.
    repeat (apply andb_true_iff in T; destruct T as [T ?]).
    apply Bool.eqb_prop in T.
    match goal with H : Bool.eqb _ _ = true |- _ => apply Bool.eqb_prop in H end.
    destruct (hasQuestionPattern clean); auto.
Qed.

Lemma detect_trim text :
  detectTechnicalQuestion (trim text) = detectTechnicalQuestion text.
Proof.
  unfold detectTechnicalQuestion. now rewrite TrimFacts.trim_idem.
Qed.

End KeywordFacts.

(** ** The keyword search and the occurrences it finds *)

Module WordFacts.
Import JsString JsRegExp WordMatch.

Lemma last_or_cons prev c r : last_or prev (String c r) = last_or (Some c) r.
Proof. unfold last_or. cbn [last_char]. now destruct (last_char r). Qed.

Lemma last_or_None s : last_or None s = last_char s.
Proof. unfold last_or. now destruct (last_char s). Qed.

Lemma boundary_spec prev before after :
  boundary (last_or prev before) after = true
  <-> is_word (last_or prev before) <> is_word (first_char after).
Proof.
  unfold boundary, word_before, word_after, is_word, first_char.
  destruct (last_or prev before) as [c|]; destruct after as [|d after];
    try destruct (is_word_char c); try destruct (is_word_char d); cbn;
    split; congruence.
Qed.

Lemma same_letters_nil found : same_letters found "" <-> found = "".
Proof.
  unfold same_letters, chars. destruct found; cbn; split; congruence.
Qed.

Lemma same_letters_cons c found k lit :
  same_letters (String c found) (String k lit)
  <-> eq_ci c k = true /\ same_letters found lit.
Proof.
  unfold same_letters, chars, eq_ci. cbn [list_ascii_of_string map].
  rewrite Ascii.eqb_eq. split.
  - intros [= H1 H2]. now split.
  - intros [H1 H2]. now rewrite H1, H2.
Qed.

Lemma same_letters_empty_text k lit : ~ same_letters "" (String k lit).
Proof. unfold same_letters, chars. cbn. congruence. Qed.

Lemma literal_then_boundary_nil prev s :
  literal_then_boundary prev s "" = boundary prev s.
Proof. now destruct s. Qed.

Lemma literal_then_boundary_spec lit :
  forall prev s,
    literal_then_boundary prev s lit = true
    <-> exists found after,
          s = (found ++ after)%string
          /\ same_letters found lit
          /\ boundary (last_or prev found) after = true.
Proof.
  induction lit as [|k lit IH]; intros prev s.
  - rewrite literal_then_boundary_nil. split.
    + intro H. exists "", s.
      split; [reflexivity|]. split; [reflexivity | exact H].
    + intros [found [after [-> [Hf Hb]]]].
      apply same_letters_nil in Hf. subst found. exact Hb.
  - destruct s as [|c s]; cbn [literal_then_boundary].
    + split; [discriminate|].
      intros [found [after [Hs [Hf _]]]].
      destruct found as [|c found]; [|discriminate Hs].
      now apply same_letters_empty_text in Hf.
    + rewrite andb_true_iff, IH. split.
      * intros [Hc [found [after [-> [Hf Hb]]]]].
        exists (String c found), after. split; [reflexivity|].
        split; [now apply same_letters_cons|].
        now rewrite last_or_cons.
      * intros [found [after [Hs [Hf Hb]]]].
        destruct found as [|c' found];
          [now apply same_letters_empty_text in Hf|].
        cbn [append] in Hs. injection Hs as -> ->.
        apply same_letters_cons in Hf. destruct Hf as [Hc Hf].
        split; [exact Hc|]. exists found, after.
        rewrite last_or_cons in Hb. now repeat split.
Qed.

Lemma search_word_found keyword before :
  forall prev found after,
    same_letters found keyword ->
    boundary (last_or prev before) (found ++ after) = true ->
    boundary (last_or prev (before ++ found)) after = true ->
    search_word prev (before ++ found ++ after) keyword = true.
Proof.
  induction before as [|c before IH]; intros prev found after Hf H1 H2.
  - cbn [append] in *. change (last_or prev "") with prev in H1.
    assert (L : literal_then_boundary prev (found ++ after) keyword = true)
      by (apply literal_then_boundary_spec; exists found, after;
          now repeat split).
    destruct (found ++ after)%string; cbn [search_word];
      now rewrite H1, L.
  - cbn [append search_word]. apply orb_true_iff. right.
    apply IH; [exact Hf | |].
    + now rewrite last_or_cons in H1.
    + cbn [append] in H2. now rewrite last_or_cons in H2.
Qed.

Lemma search_word_spec keyword s :
  forall prev,
    search_word prev s keyword = true
    <-> exists before found after,
          s = (before ++ found ++ after)%string
          /\ same_letters found keyword
          /\ boundary (last_or prev before) (found ++ after) = true
          /\ boundary (last_or prev (before ++ found)) after = true.
Proof.
  intro prev. split.
  - revert prev. induction s as [|c s IH]; intro prev; cbn [search_word];
      rewrite orb_true_iff, andb_true_iff.
    + intros [[Hb Hl] | H]; [|discriminate H].
      apply literal_then_boundary_spec in Hl.
      destruct Hl as [found [after [Hs [Hf Hb']]]].
      exists "", found, after. cbn [append].
      change (last_or prev "") with prev. rewrite <- Hs. now repeat split.
    + intros [[Hb Hl] | H].
      * apply literal_then_boundary_spec in Hl.
        destruct Hl as [found [after [Hs [Hf Hb']]]].
        exists "", found, after. cbn [append].
        change (last_or prev "") with prev. rewrite <- Hs. now repeat split.
      * apply IH in H.
        destruct H as [before [found [after [-> [Hf [H1 H2]]]]]].
        exists (String c before), found, after. cbn [append].
        rewrite !last_or_cons. now repeat split.
  - intros [before [found [after [-> [Hf [H1 H2]]]]]].
    now apply search_word_found.
Qed.

(** The search of [test_word] finds the keyword exactly when the text
    holds an occurrence of it between two word boundaries. *)
Lemma test_word_occurrence keyword text :
  test_word keyword text = true <-> occurrence keyword text.
Proof.
  unfold test_word, occurrence, word_boundary.
  rewrite search_word_spec. split;
    intros [before [found [after [Hs [Hf [H1 H2]]]]]];
    exists before, found, after; repeat split; try assumption.
  - apply boundary_spec in H1. now rewrite last_or_None in H1.
  - apply boundary_spec in H2. now rewrite last_or_None in H2.
  - apply boundary_spec. now rewrite last_or_None.
  - apply boundary_spec. now rewrite last_or_None.
Qed.

End WordFacts.

(** X9. [findTechnicalKeywords] returns, each once, exactly the keywords of
    the tables that the text holds, in either letter case, between two
    word boundaries of the regular expression: positions where exactly one
    of the two neighbouring characters is a letter, a digit or an
    underscore, an end of the text counting as no character. *)
Theorem findTechnicalKeywords_exact (text keyword : string) :
  let found := Detector.findTechnicalKeywords text in
  NoDup found
  /\ (In keyword found
      <-> In keyword TableChecks.all_keywords
          /\ WordMatch.occurrence keyword text).
Proof.
  cbv zeta. rewrite KeywordFacts.findTechnicalKeywords_scan. split.
  - apply KeywordFacts.scan_NoDup. constructor.
  - rewrite KeywordFacts.scan_In, WordFacts.test_word_occurrence.
    cbn [In]. tauto.
Qed.

(** A word boundary is not the edge of a word: the keyword [c#] ends with
    a character that is not a word character, so it is found only where a
    word character follows it. *)
Example sharp_keyword_needs_word_character :
  ~ In "c#" (Detector.findTechnicalKeywords "i use c# daily")
  /\ In "c#" (Detector.findTechnicalKeywords "c#y")
  /\ In "docker" (Detector.findTechnicalKeywords "i use DOCKER daily")
  /\ ~ In "docker" (Detector.findTechnicalKeywords "dockers").
Proof.
  vm_compute. repeat split; try tauto; intros []; discriminate.
Qed.

(** X10. A text is classified as technical exactly when it matches a
    question pattern and holds at least one keyword, or holds at least
    three keywords. *)
Theorem isTechnical_iff (text : string) :
  let r := Detector.detectTechnicalQuestion text in
  let n := List.length (Detector.detectedKeywords r) in
  Detector.isTechnical r = true
  <-> (Detector.hasQuestionPattern
         (JsString.toLowerCase (JsString.trim text)) = true /\ 1 <= n)
      \/ 3 <= n.
Proof.
  cbv zeta. rewrite KeywordFacts.detect_unfold. cbv zeta.
  cbn [Detector.isTechnical Detector.detectedKeywords].
  destruct (KeywordFacts.confidence_entry text) as [H _]. cbv zeta in H.
  rewrite H.
  destruct (Detector.hasQuestionPattern _).
  - rewrite Nat.leb_le. split; [auto|]. intros [[_ ?] | ?]; lia.
  - rewrite Nat.leb_le. split; [auto|]. intros [[? _] | ?]; [discriminate|lia].
Qed.

(** X11. The confidence of every text is between 0.2 and 0.95. *)
Theorem confidence_range (text : string) :
  let c := Detector.confidence (Detector.detectTechnicalQuestion text) in
  (0.2 <=? c)%float = true /\ (c <=? 0.95)%float = true.
Proof.
  cbv zeta. rewrite KeywordFacts.detect_unfold. cbv zeta.
  cbn [Detector.confidence].
  exact (proj2 (KeywordFacts.confidence_entry text)).
Qed.

(** X12. The classification of a text does not depend on its letter case
    nor on the white space around it. *)
Theorem detect_ignores_case_and_margin (text : string) :
  Detector.detectTechnicalQuestion (JsString.toLowerCase text)
  = Detector.detectTechnicalQuestion text
  /\ Detector.detectTechnicalQuestion (JsString.trim text)
     = Detector.detectTechnicalQuestion text.
Proof.
  unfold Detector.detectTechnicalQuestion.
  now rewrite TrimFacts.trim_lower, SimilarityFacts.toLowerCase_idem,
              TrimFacts.trim_idem.
Qed.

Module DomainFacts.
Import JsString Detector TableChecks.

(** The loop keeps the first entry with the largest count, when one
    exceeds the count it starts from. *)
Lemma first_maximum l :
  forall m d,
    (Forall (fun e => snd e <= m) l /\ fold_left top_step l (m, d) = (m, d))
    \/ exists before c after,
        l = before ++ (snd (fold_left top_step l (m, d)), c) :: after
        /\ fst (fold_left top_step l (m, d)) = c
        /\ m < c
        /\ Forall (fun e => snd e < c) before
        /\ Forall (fun e => snd e <= c) after.
Proof.
  induction l as [|e l IH]; intros m d; [left; split; [constructor|reflexivity]|].
  cbn [fold_left]. unfold top_step at 2 4 6. cbn [fst snd].
  destruct (m <? snd e)%nat eqn:E.
  - apply Nat.ltb_lt in E. right.
    destruct (IH (snd e) (fst e)) as [[Hall Hres] | [before [c [after H]]]].
    + exists [], (snd e), l. rewrite Hres. cbn [fst snd app].
      repeat split; auto. now destruct e.
    + destruct H as [Hl [Hc [Hlt [Hb Ha]]]].
      exists (e :: before), c, after. rewrite <- app_comm_cons, <- Hl.
      repeat split; auto. lia.
  - apply Nat.ltb_ge in E.
    destruct (IH m d) as [[Hall Hres] | [before [c [after H]]]].
    + left. split; [constructor; auto | exact Hres].
    + destruct H as [Hl [Hc [Hlt [Hb Ha]]]]. right.
      exists (e :: before), c, after. rewrite <- app_comm_cons, <- Hl.
      repeat split; auto. constructor; [lia | exact Hb].
Qed.

Lemma determineTechnicalDomain_top keywords :
  keywords <> [] ->
  fst (determineTechnicalDomain keywords)
  = snd (fold_left top_step (domainCounts keywords) (0, General)).
Proof.
  intro H. unfold determineTechnicalDomain.
  destruct keywords; [congruence | reflexivity].
Qed.

Lemma domain_count_positive keywords vocabulary k :
  In k keywords -> array_includes vocabulary (toLowerCase k) = true ->
  1 <= domain_count keywords vocabulary.
Proof.
  unfold domain_count.
  assert (G : forall l n,
             n <= fold_left
                    (fun count keyword =>
                       if array_includes vocabulary (toLowerCase keyword)
                       then S count else count) l n).
  { induction l as [|x l IH]; intro n; cbn [fold_left]; [lia|].
    destruct (array_includes vocabulary (toLowerCase x));
      [specialize (IH (S n)) | specialize (IH n)]; lia. }
  intros Hin Hk. generalize 0.
  induction keywords as [|x l IH]; intro n; [destruct Hin|].
  cbn [fold_left]. destruct Hin as [-> | Hin].
  - rewrite Hk. specialize (G l (S n)). lia.
  - destruct (array_includes vocabulary (toLowerCase x));
      [specialize (IH Hin (S n)) | specialize (IH Hin n)]; lia.
Qed.

Lemma all_keywords_domain k :
  In k all_keywords ->
  exists entry, In entry technicalKeywords /\ In k (snd entry).
Proof.
  unfold all_keywords. rewrite in_concat. intros [l [Hl Hk]].
  apply in_map_iff in Hl. destruct Hl as [entry [<- He]]. eauto.
Qed.

End DomainFacts.

(** Categories read off the keyword tables. *)
Module CategoryFacts.
Import JsString Detector TableChecks.

Lemma category_of_keywords (keywords : list string) :
  keywords <> [] ->
  (forall k, In k keywords -> In k all_keywords) ->
  exists before c after,
    domainCounts keywords
    = before ++ (fst (determineTechnicalDomain keywords), c) :: after
    /\ 1 <= c
    /\ Forall (fun e => snd e < c) before
    /\ Forall (fun e => snd e <= c) after.
Proof.
  intros Hne Hall.
  rewrite (DomainFacts.determineTechnicalDomain_top keywords Hne).
  destruct (DomainFacts.first_maximum (domainCounts keywords) 0 General)
    as [[Hle _] | [before [c [after [Hl [_ [Hlt [Hb Ha]]]]]]]].
  - exfalso. destruct keywords as [|k ks]; [congruence|].
    assert (Hin : In k (k :: ks)) by now left.
    pose proof (Hall k Hin) as Hk.
    destruct (DomainFacts.all_keywords_domain k Hk) as [entry [He Hke]].
    rewrite Forall_forall in Hle.
    assert (Hd : In (fst entry, domain_count (k :: ks) (snd entry))
                    (domainCounts (k :: ks))).
    { unfold domainCounts. apply in_map_iff. exists entry.
      split; [reflexivity | exact He]. }
    specialize (Hle _ Hd). cbn [snd] in Hle.
    pose proof (DomainFacts.domain_count_positive (k :: ks) (snd entry) k Hin) as P.
    rewrite (KeywordFacts.keyword_lower k Hk) in P.
    assert (1 <= domain_count (k :: ks) (snd entry))
      by (apply P, KeywordFacts.array_includes_In, Hke).
    lia.
  - exists before, c, after. repeat split; auto.
Qed.

Lemma detected_in_tables text k :
  In k (findTechnicalKeywords text) -> In k all_keywords.
Proof.
  rewrite KeywordFacts.findTechnicalKeywords_scan, KeywordFacts.scan_In.
  cbn [In]. tauto.
Qed.

End CategoryFacts.

(** X13. The category of a technical question is the first domain, in
    the order of the tables, whose vocabulary holds the largest number of
    detected keywords, and it holds at least one of them. *)
Theorem category_first_maximum (text : string) (d : Detector.TechnicalDomain) :
  let r := Detector.detectTechnicalQuestion text in
  Detector.category r = Some d ->
  exists before c after,
    Detector.domainCounts (Detector.detectedKeywords r)
    = before ++ (d, c) :: after
    /\ 1 <= c
    /\ Forall (fun e => snd e < c) before
    /\ Forall (fun e => snd e <= c) after.
Proof.
  cbv zeta. rewrite KeywordFacts.detect_unfold. cbv zeta.
  cbn [Detector.category Detector.detectedKeywords].
  remember (Detector.findTechnicalKeywords
              (JsString.toLowerCase (JsString.trim text))) as keywords
    eqn:Hkw.
  destruct (KeywordFacts.confidence_entry text) as [Hgt _]. cbv zeta in Hgt.
  rewrite <- Hkw in Hgt. rewrite Hgt.
  intro Hcat.
  assert (Hne : keywords <> []).
  { intros ->. cbn [List.length Nat.leb] in Hcat.
    destruct (Detector.hasQuestionPattern _); discriminate Hcat. }
  destruct (if Detector.hasQuestionPattern _ then _ else _);
    [|discriminate Hcat].
  assert (Hd : fst (Detector.determineTechnicalDomain keywords) = d)
    by congruence.
  rewrite <- Hd. apply CategoryFacts.category_of_keywords; [exact Hne|].
  intros k Hk. rewrite Hkw in Hk.
  now apply CategoryFacts.detected_in_tables in Hk.
Qed.

Lemma category_first_maximum_witness :
  Detector.category
    (Detector.detectTechnicalQuestion "How do I deploy a python function to docker?")
  = Some Detector.Programming
  /\ exists before c after,
      Detector.domainCounts
        (Detector.detectedKeywords
           (Detector.detectTechnicalQuestion
              "How do I deploy a python function to docker?"))
      = before ++ (Detector.Programming, c) :: after
      /\ 1 <= c
      /\ Forall (fun e => snd e < c) before
      /\ Forall (fun e => snd e <= c) after.
Proof.
  assert (H : Detector.category
                (Detector.detectTechnicalQuestion
                   "How do I deploy a python function to docker?")
              = Some Detector.Programming) by (vm_compute; reflexivity).
  split; [exact H|].
  exact (category_first_maximum _ _ H).
Defined.

(** ** The registry, further *)

Module SelectionFacts.
Import Detector VoiceUI.

(** Nothing is selected in an empty registry, and otherwise the selection
    is an index of the list. *)
Definition well_selected (st : State) : Prop :=
  (detectedQuestions st = [] /\ currentQuestionIndex st = (-1)%Z)
  \/ (0 <= currentQuestionIndex st
      < Z.of_nat (List.length (detectedQuestions st)))%Z.

Lemma analyzeQuestion_cases clock questionText st :
  analyzeQuestion clock questionText st = st
  \/ exists question,
      createTechnicalQuestion clock questionText = Some question
      /\ existsb (fun q => Similarity.areSimilarQuestions (text q) (text question))
                 (detectedQuestions st) = false
      /\ analyzeQuestion clock questionText st
         = {| detectedQuestions := detectedQuestions st ++ [question];
              currentQuestionIndex :=
                Z.of_nat (List.length (detectedQuestions st)) |}.
Proof.
  unfold analyzeQuestion.
  destruct (createTechnicalQuestion clock questionText) as [question|];
    [|now left].
  destruct (existsb _ _) eqn:E; [now left|]. right.
  exists question. repeat split; auto.
  f_equal. rewrite length_app. cbn [List.length]. lia.
Qed.

Lemma step_well_selected st a :
  well_selected st ->
  match a with
  | Select index =>
      (0 <= index < Z.of_nat (List.length (detectedQuestions st)))%Z
  | _ => True
  end ->
  well_selected (step st a).
Proof.
  intros Hst Ha. destruct a as [clock questionText | | index]; cbn [step].
  - destruct (analyzeQuestion_cases clock questionText st)
      as [-> | [question [_ [_ ->]]]]; [exact Hst|].
    right. cbn [detectedQuestions currentQuestionIndex].
    rewrite length_app. cbn [List.length]. lia.
  - left. split; reflexivity.
  - right. exact Ha.
Qed.

Lemma run_well_selected actions :
  forall st,
    well_selected st -> VoicePipeline.selections_in_range actions st ->
    well_selected (run actions st).
Proof.
  unfold run. induction actions as [|a actions IH]; intros st Hst Hsel;
    [exact Hst|].
  cbn [fold_left]. destruct Hsel as [Ha Hrest].
  apply IH; [|exact Hrest]. now apply step_well_selected.
Qed.

End SelectionFacts.

(** X14. In every run of the registry whose selections pick an index in
    range when they are made, either the registry is empty and nothing is
    selected, or the selected index is in range and the selected-question
    panel shows the entry at that index. *)
Theorem selection_indexes_live_entry (actions : list VoiceUI.Action) :
  VoicePipeline.selections_in_range actions VoiceUI.initial ->
  let st := VoiceUI.run actions VoiceUI.initial in
  (VoiceUI.detectedQuestions st = []
   /\ VoiceUI.currentQuestionIndex st = (-1)%Z
   /\ VoiceUI.selectedQuestion st = None)
  \/ (exists q,
         VoiceUI.selectedQuestion st = Some q
         /\ nth_error (VoiceUI.detectedQuestions st)
                      (Z.to_nat (VoiceUI.currentQuestionIndex st)) = Some q
         /\ (0 <= VoiceUI.currentQuestionIndex st
             < Z.of_nat (List.length (VoiceUI.detectedQuestions st)))%Z).
Proof.
  intro Hsel. cbv zeta.
  assert (H0 : SelectionFacts.well_selected VoiceUI.initial)
    by (left; split; reflexivity).
  pose proof (SelectionFacts.run_well_selected actions VoiceUI.initial H0 Hsel)
    as H.
  set (st := VoiceUI.run actions VoiceUI.initial) in *.
  destruct H as [[Hq Hi] | Hr].
  - left. repeat split; auto.
    unfold VoiceUI.selectedQuestion. now rewrite Hi.
  - right. unfold VoiceUI.selectedQuestion.
    assert (E : ((0 <=? VoiceUI.currentQuestionIndex st)
                 && (VoiceUI.currentQuestionIndex st
                     <? Z.of_nat (List.length (VoiceUI.detectedQuestions st))))%Z
                = true).
    { apply andb_true_iff. split; [apply Z.leb_le | apply Z.ltb_lt]; lia. }
    rewrite E.
    destruct (nth_error (VoiceUI.detectedQuestions st)
                        (Z.to_nat (VoiceUI.currentQuestionIndex st)))
      as [q|] eqn:Hn.
    + exists q. auto.
    + apply nth_error_None in Hn. lia.
Qed.

Lemma selection_indexes_live_entry_witness :
  VoicePipeline.selections_in_range Samples.session VoiceUI.initial
  /\ ((VoiceUI.detectedQuestions (VoiceUI.run Samples.session VoiceUI.initial) = []
       /\ VoiceUI.currentQuestionIndex
            (VoiceUI.run Samples.session VoiceUI.initial) = (-1)%Z
       /\ VoiceUI.selectedQuestion
            (VoiceUI.run Samples.session VoiceUI.initial) = None)
      \/ (exists q,
             VoiceUI.selectedQuestion
               (VoiceUI.run Samples.session VoiceUI.initial) = Some q
             /\ nth_error
                  (VoiceUI.detectedQuestions
                     (VoiceUI.run Samples.session VoiceUI.initial))
                  (Z.to_nat (VoiceUI.currentQuestionIndex
                               (VoiceUI.run Samples.session VoiceUI.initial)))
                = Some q
             /\ (0 <= VoiceUI.currentQuestionIndex
                        (VoiceUI.run Samples.session VoiceUI.initial)
                 < Z.of_nat (List.length
                               (VoiceUI.detectedQuestions
                                  (VoiceUI.run Samples.session VoiceUI.initial))))%Z)).
Proof.
  assert (H : VoicePipeline.selections_in_range Samples.session VoiceUI.initial).
  { vm_compute. repeat split; discriminate. }
  split; [exact H|].
  exact (selection_indexes_live_entry Samples.session H).
Defined.

(** X15. An insertion either leaves the registry as it is, or appends
    exactly the question built from the text, after the entries already
    there, and selects it. *)
Theorem analyzeQuestion_appends_and_selects clock questionText st :
  VoiceUI.analyzeQuestion clock questionText st = st
  \/ exists question,
      Detector.createTechnicalQuestion clock questionText = Some question
      /\ VoiceUI.detectedQuestions (VoiceUI.analyzeQuestion clock questionText st)
         = VoiceUI.detectedQuestions st ++ [question]
      /\ VoiceUI.selectedQuestion (VoiceUI.analyzeQuestion clock questionText st)
         = Some question.
Proof.
  destruct (SelectionFacts.analyzeQuestion_cases clock questionText st)
    as [H | [question [Hq [_ H]]]]; [now left|].
  right. exists question. rewrite H. repeat split; auto.
  unfold VoiceUI.selectedQuestion.
  cbn [VoiceUI.currentQuestionIndex VoiceUI.detectedQuestions].
  rewrite length_app. cbn [List.length].
  assert (E : ((0 <=? Z.of_nat (List.length (VoiceUI.detectedQuestions st)))
               && (Z.of_nat (List.length (VoiceUI.detectedQuestions st))
                   <? Z.of_nat (List.length (VoiceUI.detectedQuestions st) + 1)))%Z
              = true).
  { apply andb_true_iff. split; [apply Z.leb_le | apply Z.ltb_lt]; lia. }
  rewrite E, Nat2Z.id, nth_error_app2, Nat.sub_diag by lia. reflexivity.
Qed.

(** ** The component as a whole *)

Module PipelineFacts.
Import JsString Detector VoiceUI VoicePipeline.

Lemma run_app actions1 actions2 st :
  run (actions1 ++ actions2) st = run actions2 (run actions1 st).
Proof. apply fold_left_app. Qed.

Lemma run_nil st : run [] st = st.
Proof. reflexivity. Qed.

Lemma run_cons a actions st : run (a :: actions) st = run actions (step st a).
Proof. reflexivity. Qed.

(** The candidates of a segment reach the registry as insertions. *)
Lemma candidates_run clockAt questions :
  forall k st,
    exists actions,
      snd (fold_left
             (fun acc questionText =>
                let '(k, st) := acc in
                (S k,
                 if (5 <? String.length questionText)%nat
                 then analyzeQuestion (clockAt k) questionText st
                 else st))
             questions (k, st))
      = run actions st.
Proof.
  induction questions as [|q qs IH]; intros k st.
  - exists []. now rewrite run_nil.
  - cbn [fold_left].
    destruct (5 <? String.length q)%nat.
    + destruct (IH (S k) (analyzeQuestion (clockAt k) q st)) as [actions H].
      exists (Analyze (clockAt k) q :: actions).
      rewrite H, run_cons. cbn [step]. reflexivity.
    + destruct (IH (S k) st) as [actions H].
      exists actions. exact H.
Qed.

Lemma analyzeSegment_run clockAt segment st :
  exists actions, analyzeSegment clockAt segment st = run actions st.
Proof.
  unfold analyzeSegment. cbv zeta.
  destruct ((List.length (extractQuestions segment) =? 0)
            && (5 <? String.length segment))%nat.
  - destruct (mightBeConversationalQuery segment).
    + exists [Analyze (clockAt 0) segment].
      rewrite run_cons, run_nil. cbn [step]. reflexivity.
    + exists []. now rewrite run_nil.
  - apply candidates_run.
Qed.

(** Every event acts on the registry as a run of registry operations. *)
Lemma handle_run ui e :
  exists actions, registry (handle ui e) = run actions (registry ui).
Proof.
  destruct e as [seen now clockAt event | code | | | | index]; cbn [handle].
  - unfold handleRecognitionResult.
    destruct (collect event) as [interim final].
    destruct (negb (String.eqb final "")); cbn [registry];
      [|exists []; reflexivity].
    unfold processNewSpeechSegment.
    destruct (isSegmentProcessed seen final); cbn [registry];
      [exists []; reflexivity|].
    apply analyzeSegment_run.
  - exists []. reflexivity.
  - exists []. reflexivity.
  - exists [Clear]. reflexivity.
  - exists [Clear]. reflexivity.
  - exists [Select index]. reflexivity.
Qed.

Lemma handle_all_run events :
  forall ui,
    exists actions,
      registry (handle_all events ui) = run actions (registry ui).
Proof.
  unfold handle_all.
  induction events as [|e events IH]; intro ui; [exists []; reflexivity|].
  cbn [fold_left].
  destruct (handle_run ui e) as [a1 H1].
  destruct (IH (handle ui e)) as [a2 H2].
  exists (a1 ++ a2). now rewrite run_app, <- H1.
Qed.

Lemma dissimilar_pairs qs i j qi qj :
  dissimilar_in_order qs ->
  i <> j -> nth_error qs i = Some qi -> nth_error qs j = Some qj ->
  Similarity.areSimilarQuestions (text qi) (text qj) = false.
Proof.
  intros H Hij Hi Hj.
  destruct (Nat.lt_ge_cases i j) as [Hlt | Hge].
  - exact (H i j qi qj Hlt Hi Hj).
  - rewrite RegistryFacts.areSimilarQuestions_sym.
    apply (H j i qj qi); [lia | assumption | assumption].
Qed.

(** What the detector stores in a question it builds *)
Definition faithful (q : TechnicalQuestion) : Prop :=
  let r := detectTechnicalQuestion (text q) in
  isTechnical r = true
  /\ question_confidence q = confidence r
  /\ question_category q = category r
  /\ (exists d, question_category q = Some d)
  /\ trim (text q) = text q.

Lemma record_fields i t ts c f q :
  Some {| id := i; text := t; timestamp := ts;
          question_category := c; question_confidence := f |} = Some q ->
  id q = i /\ text q = t /\ timestamp q = ts
  /\ question_category q = c /\ question_confidence q = f.
Proof. intros [= <-]. repeat split. Qed.

Lemma created_fields clock questionText q :
  createTechnicalQuestion clock questionText = Some q ->
  isTechnical (detectTechnicalQuestion questionText) = true
  /\ id q = JsNumber.integer_toString (now clock)
  /\ text q = trim questionText
  /\ timestamp q = localeTime clock
  /\ question_category q = category (detectTechnicalQuestion questionText)
  /\ question_confidence q = confidence (detectTechnicalQuestion questionText).
Proof.
  unfold createTechnicalQuestion.
  destruct (isTechnical (detectTechnicalQuestion questionText)) eqn:T;
    cbn [negb]; intro H; [|discriminate H].
  split; [reflexivity|]. exact (record_fields _ _ _ _ _ _ H).
Qed.

Lemma created_faithful clock questionText q :
  createTechnicalQuestion clock questionText = Some q -> faithful q.
Proof.
  intro H. apply created_fields in H.
  destruct H as [Ht [_ [Htext [_ [Hcat Hconf]]]]].
  unfold faithful. cbv zeta.
  rewrite Htext, KeywordFacts.detect_trim, TrimFacts.trim_idem.
  repeat split; auto.
  rewrite Hcat. rewrite KeywordFacts.detect_unfold in *. cbv zeta in *.
  cbn [category isTechnical] in *. rewrite Ht. eauto.
Qed.

Lemma step_faithful st a :
  Forall faithful (detectedQuestions st) ->
  Forall faithful (detectedQuestions (step st a)).
Proof.
  intro H. destruct a as [clock questionText | | index]; cbn [step].
  - destruct (SelectionFacts.analyzeQuestion_cases clock questionText st)
      as [-> | [question [Hq [_ ->]]]]; [exact H|].
    cbn [detectedQuestions]. apply Forall_app. split; [exact H|].
    constructor; [|constructor]. exact (created_faithful _ _ _ Hq).
  - constructor.
  - exact H.
Qed.

Lemma run_faithful actions :
  forall st,
    Forall faithful (detectedQuestions st) ->
    Forall faithful (detectedQuestions (run actions st)).
Proof.
  unfold run. induction actions as [|a actions IH]; intros st H; [exact H|].
  cbn [fold_left]. apply IH. now apply step_faithful.
Qed.

End PipelineFacts.

(** X16. Whatever recognition results, errors, clears and selections the
    component handles, no two distinct entries of its question list pass
    the similarity test [similarity > 0.8]. *)
Theorem pipeline_pairwise_dissimilar (events : list VoicePipeline.Event) :
  let qs :=
    VoiceUI.detectedQuestions
      (VoicePipeline.registry
         (VoicePipeline.handle_all events VoicePipeline.initialUI)) in
  forall i j qi qj,
    i <> j -> nth_error qs i = Some qi -> nth_error qs j = Some qj ->
    JsNumber.gt (Similarity.calculateSimilarity (Detector.text qi)
                                                (Detector.text qj))
                0.8%float = false.
Proof.
  cbv zeta. intros i j qi qj Hij Hi Hj.
  destruct (PipelineFacts.handle_all_run events VoicePipeline.initialUI)
    as [actions H].
  rewrite H in Hi, Hj.
  apply (PipelineFacts.dissimilar_pairs _ i j qi qj
           (RegistryFacts.run_dissimilar actions VoiceUI.initial
              RegistryFacts.dissimilar_nil) Hij Hi Hj).
Qed.

(** X17. Every entry of the question list of the component is a technical
    question as the classifier sees its stored text: the text is trimmed
    and classified as technical, and the confidence and the category stored
    are the ones the classifier gives for that text, the category being
    present. *)
Theorem pipeline_entries_faithful (events : list VoicePipeline.Event)
                                  (q : Detector.TechnicalQuestion) :
  In q (VoiceUI.detectedQuestions
          (VoicePipeline.registry
             (VoicePipeline.handle_all events VoicePipeline.initialUI))) ->
  let r := Detector.detectTechnicalQuestion (Detector.text q) in
  Detector.isTechnical r = true
  /\ Detector.question_confidence q = Detector.confidence r
  /\ Detector.question_category q = Detector.category r
  /\ (exists d, Detector.question_category q = Some d)
  /\ JsString.trim (Detector.text q) = Detector.text q.
Proof.
  intro Hin.
  destruct (PipelineFacts.handle_all_run events VoicePipeline.initialUI)
    as [actions H].
  rewrite H in Hin.
  pose proof (PipelineFacts.run_faithful actions VoiceUI.initial
                (Forall_nil _)) as F.
  rewrite Forall_forall in F. exact (F q Hin).
Qed.

(** X18. Inserting a text that is equal, up to letter case and the white
    space around it, to the text of an entry of at most 100000 characters
    leaves the registry as it is. *)
Theorem same_text_is_rejected clock questionText st entry :
  In entry (VoiceUI.detectedQuestions st) ->
  JsString.toLowerCase (Detector.text entry)
  = JsString.toLowerCase (JsString.trim questionText) ->
  String.length (Detector.text entry) <= NumberChecks.checked_length ->
  VoiceUI.analyzeQuestion clock questionText st = st.
Proof.
  intros Hin Hsame Hlen. unfold VoiceUI.analyzeQuestion.
  destruct (Detector.createTechnicalQuestion clock questionText)
    as [question|] eqn:Hq; [|reflexivity].
  apply PipelineFacts.created_fields in Hq.
  destruct Hq as [_ [_ [Htext _]]].
  assert (E : existsb
                (fun q => Similarity.areSimilarQuestions (Detector.text q)
                                                         (Detector.text question))
                (VoiceUI.detectedQuestions st) = true).
  { apply existsb_exists. exists entry. split; [exact Hin|].
    apply DuplicateFacts.same_text_similar; [|exact Hlen].
    now rewrite Htext. }
  now rewrite E.
Qed.

Lemma pipeline_pairwise_dissimilar_witness :
  0 <> 1
  /\ nth_error
       (VoiceUI.detectedQuestions
          (VoicePipeline.registry
             (VoicePipeline.handle_all PipelineSamples.events
                VoicePipeline.initialUI))) 0
     = Some Samples.docker_question
  /\ nth_error
       (VoiceUI.detectedQuestions
          (VoicePipeline.registry
             (VoicePipeline.handle_all PipelineSamples.events
                VoicePipeline.initialUI))) 1
     = Some Samples.python_question
  /\ JsNumber.gt (Similarity.calculateSimilarity
                    (Detector.text Samples.docker_question)
                    (Detector.text Samples.python_question))
                 0.8%float = false.
Proof.
  split; [discriminate|].
  split; [vm_compute; reflexivity|].
  split; [vm_compute; reflexivity|].
  apply (pipeline_pairwise_dissimilar PipelineSamples.events 0 1
           Samples.docker_question Samples.python_question);
    [discriminate | vm_compute; reflexivity | vm_compute; reflexivity].
Defined.

Lemma pipeline_entries_faithful_witness :
  In Samples.python_question
     (VoiceUI.detectedQuestions
        (VoicePipeline.registry
           (VoicePipeline.handle_all PipelineSamples.events
              VoicePipeline.initialUI)))
  /\ Detector.isTechnical
       (Detector.detectTechnicalQuestion
          (Detector.text Samples.python_question)) = true
  /\ Detector.question_confidence Samples.python_question
     = Detector.confidence
         (Detector.detectTechnicalQuestion
            (Detector.text Samples.python_question))
  /\ Detector.question_category Samples.python_question
     = Detector.category
         (Detector.detectTechnicalQuestion
            (Detector.text Samples.python_question))
  /\ (exists d, Detector.question_category Samples.python_question = Some d)
  /\ JsString.trim (Detector.text Samples.python_question)
     = Detector.text Samples.python_question.
Proof.
  assert (H : In Samples.python_question
                 (VoiceUI.detectedQuestions
                    (VoicePipeline.registry
                       (VoicePipeline.handle_all PipelineSamples.events
                          VoicePipeline.initialUI))))
    by (vm_compute; right; left; reflexivity).
  split; [exact H|].
  exact (pipeline_entries_faithful PipelineSamples.events
           Samples.python_question H).
Defined.

Lemma same_text_is_rejected_witness :
  In Samples.docker_question
     (VoiceUI.detectedQuestions (VoiceUI.run Samples.session VoiceUI.initial))
  /\ JsString.toLowerCase (Detector.text Samples.docker_question)
     = JsString.toLowerCase (JsString.trim "  what is DOCKER?  ")
  /\ String.length (Detector.text Samples.docker_question)
     <= NumberChecks.checked_length
  /\ VoiceUI.analyzeQuestion Samples.noon "  what is DOCKER?  "
       (VoiceUI.run Samples.session VoiceUI.initial)
     = VoiceUI.run Samples.session VoiceUI.initial.
Proof.
  assert (H1 : In Samples.docker_question
                  (VoiceUI.detectedQuestions
                     (VoiceUI.run Samples.session VoiceUI.initial)))
    by (vm_compute; left; reflexivity).
  assert (H2 : JsString.toLowerCase (Detector.text Samples.docker_question)
               = JsString.toLowerCase (JsString.trim "  what is DOCKER?  "))
    by (vm_compute; reflexivity).
  assert (H3 : String.length (Detector.text Samples.docker_question)
               <= NumberChecks.checked_length)
    by (apply Nat.leb_le; vm_compute; reflexivity).
  split; [exact H1|]. split; [exact H2|]. split; [exact H3|].
  exact (same_text_is_rejected Samples.noon "  what is DOCKER?  "
           (VoiceUI.run Samples.session VoiceUI.initial)
           Samples.docker_question H1 H2 H3).
Defined.

(** ** The transcript *)

Module TranscriptFacts.
Import JsString Detector VoiceUI VoicePipeline.

Definition keeps_transcript (e : Event) : Prop :=
  match e with
  | ClearTranscript | ClearAll => False
  | _ => True
  end.

Lemma processNewSpeechSegment_transcript seen now clockAt segment ui :
  transcript (processNewSpeechSegment seen now clockAt segment ui)
  = transcript ui.
Proof.
  unfold processNewSpeechSegment.
  now destruct (isSegmentProcessed seen segment).
Qed.

(** What an event that does not clear the transcript makes of it *)
Lemma handle_transcript ui e :
  keeps_transcript e ->
  transcript (handle ui e)
  = if String.eqb (final_text e) "" then transcript ui
    else if String.eqb (transcript ui) "" then final_text e
         else (transcript ui ++ " " ++ final_text e)%string.
Proof.
  destruct e as [seen now clockAt event | code | | | | index];
    cbn [handle keeps_transcript final_text]; intro K; try contradiction;
    try reflexivity.
  unfold handleRecognitionResult.
  destruct (collect event) as [interim final]. cbn [snd].
  destruct (String.eqb final ""); cbn [negb transcript]; [reflexivity|].
  rewrite processNewSpeechSegment_transcript.
  now destruct (String.eqb (transcript ui) "").
Qed.

Lemma join_spaced_empty t rest :
  join_spaced (t :: "" :: rest) = join_spaced (t :: rest).
Proof. reflexivity. Qed.

Lemma join_spaced_cons t rest :
  t <> "" ->
  join_spaced (t :: rest)
  = match join_spaced rest with
    | EmptyString => t
    | r => (t ++ " " ++ r)%string
    end.
Proof.
  intro H. cbn [join_spaced].
  destruct (String.eqb_spec t ""); [contradiction | reflexivity].
Qed.

Lemma append_not_empty (a b : string) : a <> "" -> (a ++ b)%string <> "".
Proof. destruct a; [congruence | discriminate]. Qed.

(** Appending a final text to the transcript is joining it in. *)
Lemma join_spaced_step t f rest :
  join_spaced
    ((if String.eqb f "" then t
      else if String.eqb t "" then f else (t ++ " " ++ f)%string) :: rest)
  = join_spaced (t :: f :: rest).
Proof.
  destruct (String.eqb_spec f "") as [-> | Hf]; [reflexivity|].
  destruct (String.eqb_spec t "") as [-> | Ht].
  - cbn [join_spaced String.eqb]. reflexivity.
  - rewrite (join_spaced_cons (t ++ " " ++ f))
      by (now apply append_not_empty).
    rewrite (join_spaced_cons t) by exact Ht.
    rewrite (join_spaced_cons f) by exact Hf.
    destruct (join_spaced rest) as [|c r].
    + destruct f; [congruence | reflexivity].
    + assert (E : (f ++ " " ++ String c r)%string <> "")
        by (now apply append_not_empty).
      destruct (f ++ " " ++ String c r)%string eqn:E'; [congruence|].
      rewrite <- E'. now rewrite !StringFacts.append_assoc.
Qed.

Lemma handle_all_transcript events :
  forall ui,
    Forall keeps_transcript events ->
    transcript (handle_all events ui)
    = join_spaced (transcript ui :: map final_text events).
Proof.
  unfold handle_all.
  induction events as [|e events IH]; intros ui H.
  - cbn [fold_left map join_spaced].
    destruct (String.eqb_spec (transcript ui) "") as [-> | _]; reflexivity.
  - cbn [fold_left map]. inversion H as [|? ? He Hes]; subst.
    rewrite (IH _ Hes), (handle_transcript ui e He).
    apply join_spaced_step.
Qed.

End TranscriptFacts.

(** X19. As long as the transcript is not cleared, it is the final texts
    of the recognition events handled, those that are not empty, in order
    and joined by one space after what the transcript held before; interim
    results, errors, selections and the clearing of the questions leave it
    alone. *)
Theorem transcript_joins_final_texts (events : list VoicePipeline.Event)
                                     (ui : VoicePipeline.UI) :
  Forall (fun e => e <> VoicePipeline.ClearTranscript
                   /\ e <> VoicePipeline.ClearAll) events ->
  VoicePipeline.transcript (VoicePipeline.handle_all events ui)
  = VoicePipeline.join_spaced
      (VoicePipeline.transcript ui
         :: map VoicePipeline.final_text events).
Proof.
  intro H. apply TranscriptFacts.handle_all_transcript.
  eapply Forall_impl; [|exact H].
  intros e [H1 H2]. destruct e; cbn; auto.
Qed.

Lemma transcript_joins_final_texts_witness :
  Forall (fun e => e <> VoicePipeline.ClearTranscript
                   /\ e <> VoicePipeline.ClearAll) PipelineSamples.events
  /\ VoicePipeline.transcript
       (VoicePipeline.handle_all PipelineSamples.events VoicePipeline.initialUI)
     = "What is docker? How do I use python? what is docker nice weather today".
Proof.
  assert (H : Forall (fun e => e <> VoicePipeline.ClearTranscript
                               /\ e <> VoicePipeline.ClearAll)
                     PipelineSamples.events)
    by (repeat constructor; discriminate).
  split; [exact H|].
  rewrite (transcript_joins_final_texts PipelineSamples.events
             VoicePipeline.initialUI H).
  vm_compute. reflexivity.
Defined.

(** ** The stream, further *)

Module ChunkFacts.
Import JsString Json OpenAIService.

Lemma chunk_lines_append a b :
  chunk_lines (a ++ String "010" b) = chunk_lines a ++ chunk_lines b.
Proof.
  unfold chunk_lines. now rewrite StringFacts.split_char_append, filter_app.
Qed.

Lemma chunk_lines_empty : chunk_lines "" = [].
Proof. reflexivity. Qed.

(** The deltas of a chunk cut at a line break are those of its two
    pieces. *)
Lemma stream_deltas_cut E before a b after :
  stream_deltas E (before ++ [(a ++ String "010" b)%string] ++ after)
  = stream_deltas E (before ++ [(a ++ String "010" "")%string; b] ++ after).
Proof.
  unfold stream_deltas. rewrite !flat_map_app. cbn [flat_map app].
  rewrite !chunk_lines_append, chunk_lines_empty, app_nil_r.
  rewrite StreamFacts.lines_deltas_app, app_nil_r.
  now rewrite <- !app_assoc.
Qed.

Lemma running_buffers_last ds :
  forall acc x,
    last (running_buffers acc ds) x
    = match ds with
      | [] => x
      | _ :: _ => (acc ++ concat_all ds)%string
      end.
Proof.
  induction ds as [|d ds IH]; intros acc x; [reflexivity|].
  cbn [running_buffers concat_all].
  destruct ds as [|d' ds'].
  - cbn. now rewrite StringFacts.append_nil_r.
  - change (last ((acc ++ d)%string :: running_buffers (acc ++ d) (d' :: ds')) x)
      with (last (running_buffers (acc ++ d) (d' :: ds')) x).
    rewrite IH. apply StringFacts.append_assoc.
Qed.

Lemma running_buffers_prefix ds :
  forall acc x,
    In x (running_buffers acc ds) ->
    exists d, (acc ++ concat_all ds)%string = (x ++ d)%string.
Proof.
  induction ds as [|d ds IH]; intros acc x H; [destruct H|].
  cbn [running_buffers concat_all] in *. destruct H as [<- | H].
  - exists (concat_all ds). now rewrite StringFacts.append_assoc.
  - destruct (IH _ _ H) as [r Hr]. exists r.
    now rewrite <- Hr, StringFacts.append_assoc.
Qed.

(** The outcome of an [ok] response with a body, with the callback set *)
Lemma streamResponse_buffers E options times response chunks :
  ok response = true ->
  body response = Some chunks ->
  onStreamUpdate options = true ->
  streamResponse E options times (Resolved response)
  = (running_buffers "" (stream_deltas E chunks),
     inr {| answer := JString (concat_all (stream_deltas E chunks));
            responseTime := (settled times - dispatched times)%Z;
            source := "openai-stream" |}).
Proof.
  intros Hok Hbody Hcb.
  rewrite (StreamFacts.streamResponse_ok E options times response chunks Hok Hbody).
  now rewrite (StreamFacts.feed_buffers options _ Hcb).
Qed.

End ChunkFacts.

(** X20. Where a chunk is cut at a line break does not matter: a chunk
    delivered whole and the same chunk delivered as two, the first ending
    with the line break, give the same notifications and the same outcome. *)
Theorem chunking_at_line_breaks E options times status before a b after :
  OpenAIService.streamResponse E options times
    (OpenAIService.Resolved
       {| OpenAIService.status := status;
          OpenAIService.body :=
            Some (before ++ [(a ++ String "010" b)%string] ++ after) |})
  = OpenAIService.streamResponse E options times
      (OpenAIService.Resolved
         {| OpenAIService.status := status;
            OpenAIService.body :=
              Some (before ++ [(a ++ String "010" "")%string; b] ++ after) |}).
Proof.
  destruct (OpenAIService.ok
              {| OpenAIService.status := status;
                 OpenAIService.body :=
                   Some (before ++ [(a ++ String "010" b)%string] ++ after) |})
    eqn:Hok.
  - rewrite (StreamFacts.streamResponse_ok E options times _ _ Hok eq_refl).
    rewrite (StreamFacts.streamResponse_ok E options times
               {| OpenAIService.status := status;
                  OpenAIService.body :=
                    Some (before ++ [(a ++ String "010" "")%string; b] ++ after) |}
               _ Hok eq_refl).
    now rewrite ChunkFacts.stream_deltas_cut.
  - unfold OpenAIService.streamResponse.
    assert (Hok' : OpenAIService.ok
                     {| OpenAIService.status := status;
                        OpenAIService.body :=
                          Some (before
                                  ++ [(a ++ String "010" "")%string; b]
                                  ++ after) |} = false) by exact Hok.
    rewrite Hok, Hok'. cbn [negb]. do 2 f_equal.
    unfold OpenAIService.api_error, OpenAIService.response_text.
    cbn [OpenAIService.status OpenAIService.body].
    do 3 f_equal.
    rewrite !StringFacts.concat_all_app. cbn [JsString.concat_all app].
    rewrite !StringFacts.append_assoc. cbn [append]. reflexivity.
Qed.

(** X21. On the streaming path, for an [ok] response with a body, every
    notification is the beginning of the final answer, and the last
    notification is the final answer; without any notification the final
    answer is empty. *)
Theorem notifications_grow_into_answer E options times response chunks :
  OpenAIService.ok response = true ->
  OpenAIService.body response = Some chunks ->
  OpenAIService.onStreamUpdate options = true ->
  exists log final,
    OpenAIService.streamResponse E options times
      (OpenAIService.Resolved response)
    = (log,
       inr {| OpenAIService.answer := Json.JString final;
              OpenAIService.responseTime :=
                (OpenAIService.settled times
                 - OpenAIService.dispatched times)%Z;
              OpenAIService.source := "openai-stream" |})
    /\ (forall partial, In partial log -> TextRelations.is_prefix partial final)
    /\ last log "" = final.
Proof.
  intros Hok Hbody Hcb.
  exists (OpenAIService.running_buffers "" (OpenAIService.stream_deltas E chunks)),
         (JsString.concat_all (OpenAIService.stream_deltas E chunks)).
  split; [now apply ChunkFacts.streamResponse_buffers|]. split.
  - intros partial H.
    destruct (ChunkFacts.running_buffers_prefix _ _ _ H) as [d Hd].
    exists d. exact Hd.
  - rewrite ChunkFacts.running_buffers_last.
    now destruct (OpenAIService.stream_deltas E chunks).
Qed.

Lemma notifications_grow_into_answer_witness :
  OpenAIService.ok
    {| OpenAIService.status := 200%Z;
       OpenAIService.body := Some ServiceSamples.chunks_by_line |} = true
  /\ OpenAIService.onStreamUpdate ServiceSamples.streaming_options = true
  /\ exists log final,
      OpenAIService.streamResponse ServiceSamples.engine
        ServiceSamples.streaming_options ServiceSamples.times
        (OpenAIService.Resolved
           {| OpenAIService.status := 200%Z;
              OpenAIService.body := Some ServiceSamples.chunks_by_line |})
      = (log,
         inr {| OpenAIService.answer := Json.JString final;
                OpenAIService.responseTime :=
                  (OpenAIService.settled ServiceSamples.times
                   - OpenAIService.dispatched ServiceSamples.times)%Z;
                OpenAIService.source := "openai-stream" |})
      /\ (forall partial, In partial log -> TextRelations.is_prefix partial final)
      /\ last log "" = final.
Proof.
  split; [reflexivity|]. split; [reflexivity|].
  exact (notifications_grow_into_answer ServiceSamples.engine
           ServiceSamples.streaming_options ServiceSamples.times
           {| OpenAIService.status := 200%Z;
              OpenAIService.body := Some ServiceSamples.chunks_by_line |}
           ServiceSamples.chunks_by_line eq_refl eq_refl eq_refl).
Defined.

(** ** The answer panel *)

Module DisplayFacts.
Import JsString Json OpenAIService AnswerDisplay.

Lemma constructor_display key :
  OpenAIService_new (display_options key)
  = if String.eqb key "" then inl "OpenAI API key is required"
    else inr (built_options key).
Proof. destruct key; reflexivity. Qed.

Lemma getAnswer_streams E key question times server :
  getAnswer E (built_options key) question times server
  = (fst (streamResponse E (built_options key) times
            (server (requestOptions (built_options key) question))),
     settle (snd (streamResponse E (built_options key) times
                    (server (requestOptions (built_options key) question))))).
Proof.
  unfold getAnswer. cbn [stream onStreamUpdate built_options].
  now destruct (streamResponse _ _ _ _).
Qed.

Lemma settle_Failed r message :
  settle r = Failed message ->
  exists m, message = ("Failed to get answer: " ++ m)%string.
Proof. destruct r as [m | x]; cbn; [intros [= <-]; eauto | discriminate]. Qed.

(** The frames of a click with a key and a question *)
Lemma click_frames E question key times server st :
  key <> "" ->
  let started :=
    {| shown_answer := JString "";
       isLoading := true;
       shown_error := "";
       shown_responseTime := shown_responseTime st;
       isStreaming := true |} in
  let result := getAnswer E (built_options key) question times server in
  let partials :=
    map (fun partial => with_answer started (JString partial)) (fst result) in
  clickGetAnswer E (Some question) key times server st
  = started :: partials
      ++ [match snd result with
          | Completed response =>
              {| shown_answer := answer response;
                 isLoading := false;
                 shown_error := "";
                 shown_responseTime := responseTime response;
                 isStreaming := false |}
          | Failed message =>
              {| shown_answer := shown_answer (last partials started);
                 isLoading := false;
                 shown_error := ("Error getting answer: " ++ message)%string;
                 shown_responseTime := shown_responseTime st;
                 isStreaming := false |}
          end].
Proof.
  intro Hkey. cbv zeta. unfold clickGetAnswer.
  rewrite constructor_display.
  destruct (String.eqb_spec key "") as [-> | _]; [congruence|].
  now destruct (getAnswer E (built_options key) question times server).
Qed.

Lemma last_frames {A} (x : A) (l : list A) (y d : A) :
  last (x :: l ++ [y]) d = y.
Proof.
  change (x :: l ++ [y]) with ((x :: l) ++ [y]). apply last_last.
Qed.

End DisplayFacts.

(** X22. Without a question or without a key, a click on Get Answer only
    sets the error message: the answer, the timing and the loading flags
    stay as they are and no request is made, whatever the server would
    answer. *)
Theorem click_without_key_or_question E question apiKey times server st :
  question = None \/ apiKey = "" ->
  AnswerDisplay.clickGetAnswer E question apiKey times server st
  = [ {| AnswerDisplay.shown_answer := AnswerDisplay.shown_answer st;
         AnswerDisplay.isLoading := AnswerDisplay.isLoading st;
         AnswerDisplay.shown_error := "API key is required to get answers";
         AnswerDisplay.shown_responseTime := AnswerDisplay.shown_responseTime st;
         AnswerDisplay.isStreaming := AnswerDisplay.isStreaming st |} ].
Proof.
  unfold AnswerDisplay.clickGetAnswer.
  intros [-> | ->]; [reflexivity|]. now destruct question.
Qed.

Lemma click_without_key_or_question_witness :
  (Some "What is docker?" = None \/ "" = "")
  /\ AnswerDisplay.clickGetAnswer ServiceSamples.engine (Some "What is docker?")
       "" ServiceSamples.times
       (ServiceSamples.server_of ServiceSamples.unauthorized)
       AnswerDisplay.initialDisplay
     = [ {| AnswerDisplay.shown_answer := Json.JString "";
            AnswerDisplay.isLoading := false;
            AnswerDisplay.shown_error := "API key is required to get answers";
            AnswerDisplay.shown_responseTime := 0%Z;
            AnswerDisplay.isStreaming := false |} ].
Proof.
  split; [right; reflexivity|].
  exact (click_without_key_or_question ServiceSamples.engine
           (Some "What is docker?") "" ServiceSamples.times
           (ServiceSamples.server_of ServiceSamples.unauthorized)
           AnswerDisplay.initialDisplay (or_intror eq_refl)).
Defined.

(** X23. With a key and a question, when the server answers the request
    with an [ok] response that has a body, the panel is left showing the
    concatenation of all the text deltas of the stream, with no error, the
    elapsed time and both loading flags off; and every state the panel
    goes through shows a beginning of that final answer. *)
Theorem click_shows_streamed_answer E question apiKey times server st
                                    options response chunks :
  OpenAIService.OpenAIService_new (AnswerDisplay.display_options apiKey)
  = inr options ->
  server (OpenAIService.requestOptions options question)
  = OpenAIService.Resolved response ->
  OpenAIService.ok response = true ->
  OpenAIService.body response = Some chunks ->
  let final := JsString.concat_all (OpenAIService.stream_deltas E chunks) in
  AnswerDisplay.afterGetAnswer E (Some question) apiKey times server st
  = {| AnswerDisplay.shown_answer := Json.JString final;
       AnswerDisplay.isLoading := false;
       AnswerDisplay.shown_error := "";
       AnswerDisplay.shown_responseTime :=
         (OpenAIService.settled times - OpenAIService.dispatched times)%Z;
       AnswerDisplay.isStreaming := false |}
  /\ forall frame,
      In frame
         (AnswerDisplay.clickGetAnswer E (Some question) apiKey times server st) ->
      exists shown,
        AnswerDisplay.shown_answer frame = Json.JString shown
        /\ TextRelations.is_prefix shown final.
Proof.
  intros Hnew Hfetch Hok Hbody. cbv zeta.
  rewrite DisplayFacts.constructor_display in Hnew.
  destruct (String.eqb_spec apiKey "") as [-> | Hkey]; [discriminate Hnew|].
  assert (Ho : options = AnswerDisplay.built_options apiKey) by congruence.
  subst options.
  unfold AnswerDisplay.afterGetAnswer.
  rewrite (DisplayFacts.click_frames E question apiKey times server st Hkey).
  cbv zeta. rewrite DisplayFacts.getAnswer_streams, Hfetch.
  rewrite (ChunkFacts.streamResponse_buffers E
             (AnswerDisplay.built_options apiKey) times response chunks
             Hok Hbody eq_refl).
  cbn [fst snd OpenAIService.settle OpenAIService.answer
       OpenAIService.responseTime].
  split; [apply DisplayFacts.last_frames|].
  intros frame [<- | H].
  - exists "". split; [reflexivity|]. now exists (JsString.concat_all
                                                  (OpenAIService.stream_deltas E chunks)).
  - apply in_app_iff in H. destruct H as [H | [<- | []]].
    + apply in_map_iff in H. destruct H as [partial [<- Hp]].
      exists partial. split; [reflexivity|].
      destruct (ChunkFacts.running_buffers_prefix _ _ _ Hp) as [d Hd].
      exists d. exact Hd.
    + exists (JsString.concat_all (OpenAIService.stream_deltas E chunks)).
      split; [reflexivity|]. exists "".
      now rewrite StringFacts.append_nil_r.
Qed.

Lemma click_shows_streamed_answer_witness :
  OpenAIService.OpenAIService_new (AnswerDisplay.display_options "sk-test")
  = inr (AnswerDisplay.built_options "sk-test")
  /\ OpenAIService.ok
       {| OpenAIService.status := 200%Z;
          OpenAIService.body := Some ServiceSamples.chunks_by_line |} = true
  /\ AnswerDisplay.afterGetAnswer ServiceSamples.engine (Some "What is docker?")
       "sk-test" ServiceSamples.times
       (ServiceSamples.server_of
          {| OpenAIService.status := 200%Z;
             OpenAIService.body := Some ServiceSamples.chunks_by_line |})
       AnswerDisplay.initialDisplay
     = {| AnswerDisplay.shown_answer :=
            Json.JString
              (JsString.concat_all
                 (OpenAIService.stream_deltas ServiceSamples.engine
                    ServiceSamples.chunks_by_line));
          AnswerDisplay.isLoading := false;
          AnswerDisplay.shown_error := "";
          AnswerDisplay.shown_responseTime :=
            (OpenAIService.settled ServiceSamples.times
             - OpenAIService.dispatched ServiceSamples.times)%Z;
          AnswerDisplay.isStreaming := false |}.
Proof.
  split; [reflexivity|]. split; [reflexivity|].
  exact (proj1 (click_shows_streamed_answer ServiceSamples.engine
                  "What is docker?" "sk-test" ServiceSamples.times
                  (ServiceSamples.server_of
                     {| OpenAIService.status := 200%Z;
                        OpenAIService.body := Some ServiceSamples.chunks_by_line |})
                  AnswerDisplay.initialDisplay
                  (AnswerDisplay.built_options "sk-test")
                  {| OpenAIService.status := 200%Z;
                     OpenAIService.body := Some ServiceSamples.chunks_by_line |}
                  ServiceSamples.chunks_by_line
                  eq_refl eq_refl eq_refl eq_refl)).
Defined.

(** X24. With a key and a question, whatever the request settles with,
    the panel is left with both loading flags off, and either without an
    error or with an error message that starts with
    ["Error getting answer: Failed to get answer: "]. *)
Theorem click_always_settles E question apiKey times server st :
  apiKey <> "" ->
  let final :=
    AnswerDisplay.afterGetAnswer E (Some question) apiKey times server st in
  AnswerDisplay.isLoading final = false
  /\ AnswerDisplay.isStreaming final = false
  /\ (AnswerDisplay.shown_error final = ""
      \/ JsString.startsWith (AnswerDisplay.shown_error final)
           "Error getting answer: Failed to get answer: " = true).
Proof.
  intro Hkey. cbv zeta. unfold AnswerDisplay.afterGetAnswer.
  rewrite (DisplayFacts.click_frames E question apiKey times server st Hkey).
  cbv zeta. rewrite DisplayFacts.last_frames.
  rewrite DisplayFacts.getAnswer_streams. cbn [snd].
  destruct (OpenAIService.settle _) as [response | message] eqn:Hs.
  - repeat split. now left.
  - repeat split. right. cbn [AnswerDisplay.shown_error].
    apply DisplayFacts.settle_Failed in Hs. destruct Hs as [m ->].
    apply (StringFacts.startsWith_append
             "Error getting answer: Failed to get answer: " m).
Qed.

Lemma click_always_settles_witness :
  "sk-test" <> ""
  /\ AnswerDisplay.isLoading
       (AnswerDisplay.afterGetAnswer ServiceSamples.engine
          (Some "What is docker?") "sk-test" ServiceSamples.times
          (fun _ => OpenAIService.Rejected "Failed to fetch")
          AnswerDisplay.initialDisplay) = false
  /\ AnswerDisplay.isStreaming
       (AnswerDisplay.afterGetAnswer ServiceSamples.engine
          (Some "What is docker?") "sk-test" ServiceSamples.times
          (fun _ => OpenAIService.Rejected "Failed to fetch")
          AnswerDisplay.initialDisplay) = false
  /\ (AnswerDisplay.shown_error
        (AnswerDisplay.afterGetAnswer ServiceSamples.engine
           (Some "What is docker?") "sk-test" ServiceSamples.times
           (fun _ => OpenAIService.Rejected "Failed to fetch")
           AnswerDisplay.initialDisplay) = ""
      \/ JsString.startsWith
           (AnswerDisplay.shown_error
              (AnswerDisplay.afterGetAnswer ServiceSamples.engine
                 (Some "What is docker?") "sk-test" ServiceSamples.times
                 (fun _ => OpenAIService.Rejected "Failed to fetch")
                 AnswerDisplay.initialDisplay))
           "Error getting answer: Failed to get answer: " = true).
Proof.
  assert (H : "sk-test" <> "") by discriminate.
  split; [exact H|].
  exact (click_always_settles ServiceSamples.engine "What is docker?"
           "sk-test" ServiceSamples.times
           (fun _ => OpenAIService.Rejected "Failed to fetch")
           AnswerDisplay.initialDisplay H).
Defined.

(** X25. With a key and a question, when the server answers the request
    with a status that is not a success status, the panel is left showing
    no answer and an error message that contains the status code. *)
Theorem click_reports_status E question apiKey times server st
                             options response :
  OpenAIService.OpenAIService_new (AnswerDisplay.display_options apiKey)
  = inr options ->
  server (OpenAIService.requestOptions options question)
  = OpenAIService.Resolved response ->
  OpenAIService.ok response = false ->
  let message :=
    ("Error getting answer: Failed to get answer: API error: "
     ++ JsNumber.integer_toString (OpenAIService.status response)
     ++ " - " ++ OpenAIService.response_text response)%string in
  AnswerDisplay.afterGetAnswer E (Some question) apiKey times server st
  = {| AnswerDisplay.shown_answer := Json.JString "";
       AnswerDisplay.isLoading := false;
       AnswerDisplay.shown_error := message;
       AnswerDisplay.shown_responseTime := AnswerDisplay.shown_responseTime st;
       AnswerDisplay.isStreaming := false |}
  /\ JsString.includes message
       (JsNumber.integer_toString (OpenAIService.status response)) = true.
Proof.
  intros Hnew Hfetch Hok. cbv zeta.
  rewrite DisplayFacts.constructor_display in Hnew.
  destruct (String.eqb_spec apiKey "") as [-> | Hkey]; [discriminate Hnew|].
  assert (Ho : options = AnswerDisplay.built_options apiKey) by congruence.
  subst options. split.
  - unfold AnswerDisplay.afterGetAnswer.
    rewrite (DisplayFacts.click_frames E question apiKey times server st Hkey).
    cbv zeta. rewrite DisplayFacts.last_frames.
    rewrite DisplayFacts.getAnswer_streams, Hfetch.
    destruct (OutcomeFacts.not_ok_throws E (AnswerDisplay.built_options apiKey)
                times response Hok) as [-> _].
    reflexivity.
  - apply (StringFacts.includes_append
             "Error getting answer: Failed to get answer: API error: ").
Qed.

Lemma click_reports_status_witness :
  OpenAIService.OpenAIService_new (AnswerDisplay.display_options "sk-test")
  = inr (AnswerDisplay.built_options "sk-test")
  /\ OpenAIService.ok ServiceSamples.unauthorized = false
  /\ AnswerDisplay.shown_error
       (AnswerDisplay.afterGetAnswer ServiceSamples.engine
          (Some "What is docker?") "sk-test" ServiceSamples.times
          (ServiceSamples.server_of ServiceSamples.unauthorized)
          AnswerDisplay.initialDisplay)
     = ("Error getting answer: Failed to get answer: API error: "
        ++ JsNumber.integer_toString 401
        ++ " - " ++ OpenAIService.response_text ServiceSamples.unauthorized)%string.
Proof.
  split; [reflexivity|]. split; [reflexivity|].
  exact (f_equal AnswerDisplay.shown_error
           (proj1 (click_reports_status ServiceSamples.engine
                     "What is docker?" "sk-test" ServiceSamples.times
                     (ServiceSamples.server_of ServiceSamples.unauthorized)
                     AnswerDisplay.initialDisplay
                     (AnswerDisplay.built_options "sk-test")
                     ServiceSamples.unauthorized
                     eq_refl eq_refl eq_refl))).
Defined.

(** ** The constructor of the service *)

(** X26. The constructor of the service throws exactly when the caller
    gives no key or an empty one. Otherwise the service keeps every option
    the caller gave and fills the others with the defaults: model
    [gpt-4o-mini], 300 tokens, temperature 0.3, streaming on; and every
    request it builds carries the key in its [Authorization] header and
    the question as the user message. *)
Theorem constructor_defaults_and_overrides (options : OpenAIService.LLMOptions) :
  match OpenAIService.OpenAIService_new options with
  | inl message =>
      message = "OpenAI API key is required"
      /\ (OpenAIService.apiKey options = None
          \/ OpenAIService.apiKey options = Some "")
  | inr service =>
      (exists key,
          OpenAIService.apiKey options = Some key /\ key <> ""
          /\ OpenAIService.apiKey service = Some key
          /\ forall question,
              In ("Authorization", ("Bearer " ++ key)%string)
                 (OpenAIService.headers
                    (OpenAIService.requestOptions service question))
              /\ In {| OpenAIService.role := "user";
                       OpenAIService.content := question |}
                    (OpenAIService.body_messages
                       (OpenAIService.request_body
                          (OpenAIService.requestOptions service question))))
      /\ OpenAIService.model service
         = Some (TextRelations.or_default (OpenAIService.model options)
                                          "gpt-4o-mini")
      /\ OpenAIService.maxTokens service
         = Some (TextRelations.or_default (OpenAIService.maxTokens options) 300%Z)
      /\ OpenAIService.temperature service
         = Some (TextRelations.or_default (OpenAIService.temperature options)
                                          0.3%float)
      /\ OpenAIService.stream service
         = Some (TextRelations.or_default (OpenAIService.stream options) true)
      /\ OpenAIService.onStreamUpdate service
         = OpenAIService.onStreamUpdate options
  end.
Proof.
  destruct options as [key model maxTokens temperature stream callback].
  unfold OpenAIService.OpenAIService_new.
  cbn [OpenAIService.apiKey].
  destruct key as [[|c key]|].
  - split; auto.
  - split.
    + exists (String c key). split; [reflexivity|]. split; [discriminate|].
      split; [reflexivity|]. intro question. split.
      * right. left. reflexivity.
      * right. left. reflexivity.
    + destruct model, maxTokens, temperature, stream, callback;
        repeat split; reflexivity.
  - split; auto.
Qed.

(** ** Identifiers, further *)

Module UniqueIdFacts.
Import Detector VoiceUI ClockSamples.

Lemma run_ids actions :
  forall st,
    NoDup (map id (detectedQuestions st)) ->
    NoDup (analyze_times actions) ->
    (forall q t, In q (detectedQuestions st) -> In t (analyze_times actions) ->
                 id q <> JsNumber.integer_toString t) ->
    NoDup (map id (detectedQuestions (run actions st))).
Proof.
  unfold run.
  induction actions as [|a actions IH]; intros st Hst Htimes Hfresh;
    [exact Hst|].
  cbn [fold_left].
  destruct a as [clock questionText | | index]; cbn [step analyze_times] in *.
  - apply NoDup_cons_iff in Htimes. destruct Htimes as [Hnew Htimes].
    destruct (SelectionFacts.analyzeQuestion_cases clock questionText st)
      as [-> | [question [Hq [_ ->]]]].
    + apply IH; auto. intros q t Hq Ht. apply Hfresh; auto. now right.
    + apply PipelineFacts.created_fields in Hq.
      destruct Hq as [_ [Hid _]].
      apply IH; cbn [detectedQuestions]; auto.
      * rewrite map_app. cbn [map]. apply NoDup_app; [exact Hst | |].
        -- constructor; [intros [] | constructor].
        -- intros x Hx [<- | []]. apply in_map_iff in Hx.
           destruct Hx as [q [Hqx Hq]].
           apply (Hfresh q (now clock) Hq); [now left | congruence].
      * intros q t Hq Ht. apply in_app_iff in Hq.
        destruct Hq as [Hq | [<- | []]].
        -- apply Hfresh; auto. now right.
        -- rewrite Hid. intro E.
           apply IdFacts.integer_toString_inj in E. congruence.
  - apply IH; cbn [clearQuestions detectedQuestions]; auto;
      try constructor; try (intros q t []).
  - apply IH; auto.
Qed.

End UniqueIdFacts.

(** X27. In a run of the registry whose insertions read pairwise different
    values of the clock, the live entries have pairwise different
    identifiers. *)
Theorem distinct_times_distinct_ids (actions : list VoiceUI.Action) :
  NoDup (ClockSamples.analyze_times actions) ->
  NoDup (map Detector.id
             (VoiceUI.detectedQuestions (VoiceUI.run actions VoiceUI.initial))).
Proof.
  intro H. apply UniqueIdFacts.run_ids; [constructor | exact H |].
  intros q t [].
Qed.

Lemma distinct_times_distinct_ids_witness :
  NoDup (ClockSamples.analyze_times ClockSamples.ticking_session)
  /\ map Detector.id
         (VoiceUI.detectedQuestions
            (VoiceUI.run ClockSamples.ticking_session VoiceUI.initial))
     = ["1700000000000"; "1700000000001"]
  /\ NoDup (map Detector.id
                (VoiceUI.detectedQuestions
                   (VoiceUI.run ClockSamples.ticking_session VoiceUI.initial))).
Proof.
  assert (H : NoDup (ClockSamples.analyze_times ClockSamples.ticking_session)).
  { cbn. constructor; [intros [E | []]; discriminate E|].
    constructor; [intros [] | constructor]. }
  split; [exact H|]. split; [vm_compute; reflexivity|].
  exact (distinct_times_distinct_ids ClockSamples.ticking_session H).
Defined.
